(** * moltworker: gateway supervisor and WebSocket relay

    A shallow embedding of the two pieces of the worker that carry its
    logic:

    - the gateway module ([findExistingMoltbotProcess] and
      [ensureMoltbotGateway]), which discovers, verifies and
      (re)launches the gateway process inside the sandbox;
    - the worker entry ([transformErrorMessage] and the four WebSocket
      listeners of the catch-all proxy route).

    Line numbers in the comments are those of the source listing
    [src/routes/public.ts], in which both modules appear.

    The sandbox (process table, port waits, container fetch) is an
    external runtime.  It is modelled as an interface: a class of
    handlers over an arbitrary world type, each returning either a
    value or a thrown JavaScript exception.  The supervisor is written
    in a state-and-exception monad over that interface, and every call
    that crosses the interface is recorded, with its outcome, in an
    event log.  [console.log] output is not modelled, except where
    computing the logged value can itself throw.

    JavaScript strings are modelled by [string]; a character stands for
    one UTF-16 code unit, so [String.length] is the JavaScript
    [length]. *)

From Stdlib Require Import String Ascii List ZArith Bool Arith Lia DecimalString.
Import ListNotations.
Local Open Scope string_scope.

(** ** JavaScript string primitives *)

Module JsString.

(** [s.includes(searchString)]: some suffix of [s] starts with
    [searchString]. *)
Fixpoint includes (s searchString : string) : bool :=
  if String.prefix searchString s then true
  else match s with
       | EmptyString => false
       | String _ rest => includes rest searchString
       end.

(** [s.slice(0, n)] for a non-negative literal [n]. *)
Definition slice0 (n : nat) (s : string) : string := String.substring 0 n s.

(** Truthiness of a string: every string but the empty one. *)
Definition truthy (s : string) : bool :=
  match s with EmptyString => false | _ => true end.

(** [s || dflt] on strings. *)
Definition or_else (s dflt : string) : string :=
  if truthy s then s else dflt.

End JsString.

(** ** Processes of the sandbox *)

(** Modelled from the spec: the [Process] type is declared by the
    sandbox SDK, outside this repository.  Section 3 of the design lists
    the lifecycle statuses; the code only ever compares a status with
    ['starting'], ['running'], ['failed'] and ['completed']. *)
Inductive ProcessStatus : Type :=
| starting | running | failed | completed | killed.

Definition status_eqb (a b : ProcessStatus) : bool :=
  match a, b with
  | starting, starting | running, running | failed, failed
  | completed, completed | killed, killed => true
  | _, _ => false
  end.

Record Process : Type := mkProcess {
  proc_id : string;
  proc_command : string;
  proc_status : ProcessStatus
}.

Record Logs : Type := mkLogs { stdout : string; stderr : string }.

(** The part of a [Response] the supervisor looks at. *)
Record Response : Type := mkResponse { resp_status : Z; resp_body : string }.

(** A thrown JavaScript value, identified by its [message]. *)
Record JsError : Type := mkError { message : string }.

(** Outcome of an awaited call: a value, or a thrown exception. *)
Inductive Result (A : Type) : Type :=
| Ok (a : A)
| Throw (e : JsError).
Arguments Ok {A} a.
Arguments Throw {A} e.

(** ** Discovery: the loop of [findExistingMoltbotProcess] *)

Module Discovery.
Import JsString.

Definition isGatewayProcess (proc : Process) : bool :=
  includes (proc_command proc) "start-moltbot.sh"
  || includes (proc_command proc) "openclaw gateway".

Definition isCliCommand (proc : Process) : bool :=
  includes (proc_command proc) "openclaw devices"
  || includes (proc_command proc) "openclaw --version".

Definition isLive (proc : Process) : bool :=
  status_eqb (proc_status proc) starting
  || status_eqb (proc_status proc) running.

(** [for (const proc of processes) { ... return proc; }]: the first
    entry that passes both tests, [None] for the final [return null]. *)
Fixpoint firstGateway (processes : list Process) : option Process :=
  match processes with
  | [] => None
  | proc :: rest =>
      if isGatewayProcess proc && negb (isCliCommand proc) then
        if isLive proc then Some proc else firstGateway rest
      else firstGateway rest
  end.

End Discovery.

(** ** The sandbox interface and the supervisor monad *)

Definition EnvVars : Type := list (string * string).

(** What the supervisor needs from outside its module: the two
    constants imported from [../config], [buildEnvVars] from [./env],
    [mountR2Storage] from [./r2], and the calls of the sandbox SDK.  A
    handler takes the world before the call and gives the outcome and
    the world after it.  [waitForPort] is always called with
    [mode: 'tcp']; only the port and the timeout vary. *)
Class Runtime (W Env : Type) : Type := {
  MOLTBOT_PORT : Z;
  STARTUP_TIMEOUT_MS : Z;
  buildEnvVars : Env -> EnvVars;
  rt_mountR2Storage : Env -> W -> Result bool * W;
  rt_listProcesses : W -> Result (list Process) * W;
  rt_waitForPort : Process -> Z -> Z -> W -> Result unit * W;
  rt_containerFetch : string -> Z -> W -> Result Response * W;
  rt_kill : Process -> W -> Result unit * W;
  rt_startProcess : string -> option EnvVars -> W -> Result Process * W;
  rt_getLogs : Process -> W -> Result Logs * W
}.

(** One call across the interface, with its outcome. *)
Inductive Event : Type :=
| EvMountR2 (r : Result bool)
| EvListProcesses (r : Result (list Process))
| EvWaitForPort (p : Process) (port timeout : Z) (r : Result unit)
| EvContainerFetch (url : string) (port : Z) (r : Result Response)
| EvKill (p : Process) (r : Result unit)
| EvStartProcess (command : string) (env : option EnvVars) (r : Result Process)
| EvGetLogs (p : Process) (r : Result Logs).

Record State (W : Type) : Type := mkState {
  world : W;
  events : list Event
}.
Arguments mkState {W} world events.
Arguments world {W} s.
Arguments events {W} s.

Module Sup.

(** An asynchronous computation: runs on a state, ends with a value
    or a thrown exception, and leaves a state either way. *)
Definition M (W A : Type) : Type := State W -> Result A * State W.

Definition ret {W A} (a : A) : M W A := fun s => (Ok a, s).

Definition throw {W A} (e : JsError) : M W A := fun s => (Throw e, s).

Definition bind {W A B} (m : M W A) (k : A -> M W B) : M W B :=
  fun s => match m s with
           | (Ok a, s') => k a s'
           | (Throw e, s') => (Throw e, s')
           end.

(** [try { m } catch (e) { handler e }] *)
Definition try_catch {W A} (m : M W A) (handler : JsError -> M W A) : M W A :=
  fun s => match m s with
           | (Ok a, s') => (Ok a, s')
           | (Throw e, s') => handler e s'
           end.

(** A call across the interface: run the handler on the world and
    append the event. *)
Definition call {W A} (h : W -> Result A * W) (ev : Result A -> Event) : M W A :=
  fun s => let (r, w') := h (world s) in
           (r, mkState w' (events s ++ [ev r])).

(** [for (const x of xs) { await body x }] *)
Fixpoint for_of {W A} (xs : list A) (body : A -> M W unit) : M W unit :=
  match xs with
  | [] => ret tt
  | x :: rest => bind (body x) (fun _ => for_of rest body)
  end.

End Sup.

Declare Scope sup_scope.
Delimit Scope sup_scope with sup.
Notation "x <- m ;; k" := (Sup.bind m (fun x => k))
  (at level 100, m at next level, right associativity) : sup_scope.
Notation "m ;; k" := (Sup.bind m (fun _ => k))
  (at level 100, right associativity) : sup_scope.
Notation "'try' m 'catch' e => h" := (Sup.try_catch m (fun e => h))
  (at level 100, m at next level, e name, h at level 100) : sup_scope.

Module Gateway.
Import Sup JsString.
Local Open Scope sup_scope.

Section WithRuntime.
Context {W Env : Type} {rt : Runtime W Env}.

Definition mountR2Storage (env : Env) : M W bool :=
  call (rt_mountR2Storage env) EvMountR2.
Definition listProcesses : M W (list Process) :=
  call rt_listProcesses EvListProcesses.
Definition waitForPort (p : Process) (port timeout : Z) : M W unit :=
  call (rt_waitForPort p port timeout) (EvWaitForPort p port timeout).
Definition containerFetch (url : string) (port : Z) : M W Response :=
  call (rt_containerFetch url port) (EvContainerFetch url port).
Definition kill (p : Process) : M W unit :=
  call (rt_kill p) (EvKill p).
Definition startProcess (command : string) (env : option EnvVars) : M W Process :=
  call (rt_startProcess command env) (EvStartProcess command env).
Definition getLogs (p : Process) : M W Logs :=
  call (rt_getLogs p) (EvGetLogs p).

(** [`http://localhost:${MOLTBOT_PORT}/`] *)
Definition healthUrl : string :=
  "http://localhost:"
  ++ DecimalString.NilZero.string_of_int (Z.to_int MOLTBOT_PORT) ++ "/".

(** [findExistingMoltbotProcess]: a failed listing is swallowed by
    the [catch] and the function returns [null]. *)
Definition findExistingMoltbotProcess : M W (option Process) :=
  try (processes <- listProcesses ;;
       ret (Discovery.firstGateway processes))
  catch e => ret None.

(** The overlay probe of both paths: fetch the health URL through
    the sandbox network and throw [msg500] on status 500.  (The body
    is read with [.text().catch(() => '')] only to be logged.) *)
Definition probeOverlay (msg500 : string) : M W unit :=
  healthResp <- containerFetch healthUrl MOLTBOT_PORT ;;
  if (resp_status healthResp =? 500)%Z
  then throw (mkError msg500)
  else ret tt.

(** [try { await p.kill() } catch (killError) { log }] *)
Definition killBestEffort (p : Process) : M W unit :=
  try kill p catch killError => ret tt.

(** The [if (existingProcess) { ... }] block.  [Some p] stands for
    the [return existingProcess] inside the inner [try]; [None] for
    leaving the block and going on to the launch. *)
Definition verifyExisting (existingProcess : Process) : M W (option Process) :=
  try (waitForPort existingProcess MOLTBOT_PORT STARTUP_TIMEOUT_MS ;;
       try (probeOverlay "Gateway unreachable via sandbox network (500)" ;;
            ret (Some existingProcess))
       catch fetchErr => (killBestEffort existingProcess ;; ret None))
  catch e => (killBestEffort existingProcess ;; ret None).

(** The stale-process cleanup before a launch.  It matches the
    gateway commands only (no CLI exclusion here), and any throw,
    from the listing or from a [kill], ends the loop and is
    swallowed. *)
Definition killStaleProcesses : M W unit :=
  try (allProcs <- listProcesses ;;
       for_of allProcs (fun proc =>
         if Discovery.isGatewayProcess proc
            && (status_eqb (proc_status proc) running
                || status_eqb (proc_status proc) starting)
         then kill proc
         else ret tt))
  catch e => ret tt.

Definition command : string := "/usr/local/bin/start-moltbot.sh".

(** From [buildEnvVars] to the final [return process]. *)
Definition launchGateway (env : Env) : M W Process :=
  let envVars := buildEnvVars env in
  process <- (try startProcess command
                    (if (0 <? List.length envVars)%nat then Some envVars else None)
              catch startErr => throw startErr) ;;
  (try (waitForPort process MOLTBOT_PORT STARTUP_TIMEOUT_MS ;;
        logs <- getLogs process ;;
        ret tt)
   catch e =>
     (try (logs <- getLogs process ;;
           throw (mkError ("Moltbot gateway failed to start. Stderr: "
                           ++ or_else (stderr logs) "(empty)")))
      catch logErr => throw e)) ;;
  (try probeOverlay "Gateway started but not reachable via sandbox network (500)"
   catch fetchErr =>
     throw (mkError "Gateway started but not reachable via sandbox network (may be bound to loopback)")) ;;
  ret process.

(** Everything before ["Starting new Moltbot gateway..."]: mount,
    discover, verify.  [Some p] is the early [return existingProcess]. *)
Definition reuseExisting (env : Env) : M W (option Process) :=
  mountR2Storage env ;;
  existingProcess <- findExistingMoltbotProcess ;;
  match existingProcess with
  | Some p => verifyExisting p
  | None => ret None
  end.

Definition ensureMoltbotGateway (env : Env) : M W Process :=
  reused <- reuseExisting env ;;
  match reused with
  | Some p => ret p
  | None => killStaleProcesses ;; launchGateway env
  end.

End WithRuntime.
End Gateway.

(** ** JSON values as the listeners see them *)

Module Json.

(** What [JSON.parse] returns.  The properties of an object are kept
    in JavaScript's own enumeration order, which [JSON.stringify]
    follows.  The number type is left open. *)
#[local] Set Warnings "-register-all".
Inductive value (number : Type) : Type :=
| JNull
| JBool (b : bool)
| JNum (n : number)
| JStr (s : string)
| JArr (elems : list (value number))
| JObj (props : list (string * value number)).
Arguments JNull {number}.
Arguments JBool {number} b.
Arguments JNum {number} n.
Arguments JStr {number} s.
Arguments JArr {number} elems.
Arguments JObj {number} props.

(** The JavaScript built-ins the listeners call.  [JSON_parse] gives
    [None] where [JSON.parse] throws a [SyntaxError]. *)
Class Codec (number : Type) : Type := {
  num_truthy : number -> bool;
  JSON_parse : string -> option (value number);
  JSON_stringify : value number -> string
}.

Section Properties.
Context {number : Type}.
Local Abbreviation value := (value number).

Fixpoint lookup (k : string) (props : list (string * value)) : option value :=
  match props with
  | [] => None
  | (k', v) :: rest => if String.eqb k k' then Some v else lookup k rest
  end.

(** Writing an own property: an existing key keeps its place, a new
    key goes last.  (None of the keys written by the listeners is an
    array index, so a new key is never reordered.) *)
Fixpoint set_prop (k : string) (v : value) (props : list (string * value))
  : list (string * value) :=
  match props with
  | [] => [(k, v)]
  | (k', v') :: rest =>
      if String.eqb k k' then (k, v) :: rest
      else (k', v') :: set_prop k v rest
  end.

Definition delete_prop (k : string) (props : list (string * value))
  : list (string * value) :=
  filter (fun kv => negb (String.eqb k (fst kv))) props.

(** [v.k] for the property names read by the listeners ([type],
    [method], [params], [error], [message]).  The outer [None] is
    the [TypeError] of reading a property of [null]; [Some None] is
    [undefined].  Only objects made by [JSON.parse] carry these
    names: strings, numbers, booleans and arrays do not. *)
Definition get (v : value) (k : string) : option (option value) :=
  match v with
  | JNull => None
  | JObj props => Some (lookup k props)
  | _ => Some None
  end.

(** [target.k = v] in strict mode (module code): a [TypeError] on
    [null] and on a primitive.  On an array the write creates a
    named property, which [JSON.stringify] does not serialise, so
    the JSON value is unchanged. *)
Definition assign (target : value) (k : string) (v : value) : option value :=
  match target with
  | JObj props => Some (JObj (set_prop k v props))
  | JArr elems => Some (JArr elems)
  | _ => None
  end.

(** [delete target.k] for a name that is not an own property of a
    string or an array: a [TypeError] on [null], and otherwise it
    succeeds, removing the key from an object. *)
Definition remove (target : value) (k : string) : option value :=
  match target with
  | JNull => None
  | JObj props => Some (JObj (delete_prop k props))
  | other => Some other
  end.

(** [v === 'lit'] for a possibly [undefined] [v]. *)
Definition is_string (lit : string) (v : option value) : bool :=
  match v with
  | Some (JStr s) => String.eqb s lit
  | _ => false
  end.

Context {codec : Codec number}.

(** Truthiness of a possibly [undefined] value. *)
Definition truthy (v : option value) : bool :=
  match v with
  | None => false
  | Some JNull => false
  | Some (JBool b) => b
  | Some (JNum n) => num_truthy n
  | Some (JStr s) => JsString.truthy s
  | Some (JArr _) => true
  | Some (JObj _) => true
  end.

End Properties.
End Json.

(** ** The WebSocket relay of the catch-all route *)

Inductive WsData : Type :=
| Text (s : string)
| Binary (bytes : list Byte.byte).

Inductive ReadyState : Type := CONNECTING | OPEN | CLOSING | CLOSED.

Definition isOpen (st : ReadyState) : bool :=
  match st with OPEN => true | _ => false end.

Record CloseEvent : Type := mkCloseEvent { code : Z; reason : string }.

(** The two server-side sockets of a relay pair. *)
Inductive Socket : Type := serverWs | containerWs.

(** A method call made by a listener on the opposite socket. *)
Inductive WsCall : Type :=
| Send (target : Socket) (data : WsData)
| Close (target : Socket) (code : Z) (reason : string).

(** [transformErrorMessage] as typed in the source: string to string. *)
Definition transformErrorMessage (message host : string) : string :=
  if JsString.includes message "gateway token missing"
     || JsString.includes message "gateway token mismatch"
  then "Invalid or missing token. Visit https://" ++ host
       ++ "?token={REPLACE_WITH_YOUR_TOKEN}"
  else if JsString.includes message "pairing required"
  then "Pairing required. Visit https://" ++ host ++ "/_admin/"
  else message.

(** The body of a [try] block whose [catch] only resumes after the
    block: [None] is a thrown exception. *)
Declare Scope try_scope.
Delimit Scope try_scope with tryblock.
Notation "x <- m ;; k" :=
  (match m with Some x => k | None => None end)
  (at level 100, m at next level, right associativity) : try_scope.

Module Relay.
Import Json.
Local Open Scope try_scope.

Section WithCodec.
Context {number : Type} {codec : Codec number}.
Local Abbreviation value := (value number).

(** [transformErrorMessage] as it runs on whatever [parsed.error.message]
    holds.  [message.includes] is the substring test on a string and
    the membership test on an array; on a number, a boolean or an
    object it is not a function and the call throws. *)
Definition transformErrorMessageAny (message : value) (host : string)
  : option value :=
  match message with
  | JStr m => Some (JStr (transformErrorMessage m host))
  | JArr elems =>
      let has lit := existsb (fun el => is_string lit (Some el)) elems in
      Some (if has "gateway token missing" || has "gateway token mismatch"
            then JStr ("Invalid or missing token. Visit https://" ++ host
                       ++ "?token={REPLACE_WITH_YOUR_TOKEN}")
            else if has "pairing required"
            then JStr ("Pairing required. Visit https://" ++ host ++ "/_admin/")
            else message)
  | _ => None
  end.

(** How the [try] block of the client listener ends, when it does
    not throw. *)
Inductive Attempt : Type :=
| Returned (calls : list WsCall)
| FellThrough.

(** [send] guarded by [readyState === WebSocket.OPEN]. *)
Definition sendIfOpen (target : Socket) (st : ReadyState) (data : WsData)
  : list WsCall :=
  if isOpen st then [Send target data] else [].

Definition deviceFields : list string :=
  ["deviceId"; "devicePublicKey"; "signature"; "device"].

(** The four [delete msg.params.<field>] statements, in order. *)
Fixpoint removeAll (fields : list string) (target : value) : option value :=
  match fields with
  | [] => Some target
  | f :: rest => t <- remove target f ;; removeAll rest t
  end.

(** The [try] block of the client listener (lines 645-669). *)
Definition rewriteConnect (gatewayToken : string) (containerState : ReadyState)
           (data : string) : option Attempt :=
  msg <- JSON_parse data ;;
  ty <- get msg "type" ;;
  if negb (is_string "req" ty) then Some FellThrough else
  method <- get msg "method" ;;
  if negb (is_string "connect" method) then Some FellThrough else
  params <- get msg "params" ;;
  (* console.log(..., JSON.stringify(msg.params).slice(0, 1000)):
     JSON.stringify(undefined) is undefined, and reading its slice throws *)
  logged <- match params with
            | Some p => Some (JsString.slice0 1000 (JSON_stringify p))
            | None => None
            end ;;
  (* msg.params = msg.params || {} *)
  let params1 := if truthy params
                 then match params with Some p => p | None => JObj [] end
                 else JObj [] in
  msg1 <- assign msg "params" params1 ;;
  params2 <- removeAll deviceFields params1 ;;
  (* msg.params.auth = { token: gatewayToken } *)
  params3 <- assign params2 "auth" (JObj [("token", JStr gatewayToken)]) ;;
  (* the object held in msg.params was changed in place *)
  msg2 <- assign msg1 "params" params3 ;;
  Some (Returned (sendIfOpen containerWs containerState
                             (Text (JSON_stringify msg2)))).

(** [serverWs.addEventListener('message', ...)]: client to container.
    [gatewayToken] is [c.env.MOLTBOT_GATEWAY_TOKEN]. *)
Definition serverWs_message (gatewayToken : option string)
           (containerState : ReadyState) (data : WsData) : list WsCall :=
  let attempt :=
    match data, gatewayToken with
    | Text s, Some token =>
        if JsString.truthy token
        then match rewriteConnect token containerState s with
             | Some a => a
             | None => FellThrough
             end
        else FellThrough
    | _, _ => FellThrough
    end in
  match attempt with
  | Returned calls => calls
  | FellThrough => sendIfOpen containerWs containerState data
  end.

(** The [try] block of the container listener (lines 680-692); it
    gives the new value of [data]. *)
Definition rewriteError (host : string) (data : string) : option WsData :=
  parsed <- JSON_parse data ;;
  (* if (parsed.type === 'res' || parsed.error) { log } *)
  ty <- get parsed "type" ;;
  err <- get parsed "error" ;;
  (* parsed.error?.message *)
  msgv <- match err with
          | None | Some JNull => Some None
          | Some e => get e "message"
          end ;;
  if truthy msgv then
    match err, msgv with
    | Some e, Some m =>
        m' <- transformErrorMessageAny m host ;;
        e' <- assign e "message" m' ;;
        parsed' <- assign parsed "error" e' ;;
        Some (Text (JSON_stringify parsed'))
    | _, _ => Some (Text data)
    end
  else Some (Text data).

(** [containerWs.addEventListener('message', ...)]: container to
    client.  [host] is [url.host]. *)
Definition containerWs_message (host : string) (clientState : ReadyState)
           (data : WsData) : list WsCall :=
  let data' :=
    match data with
    | Text s => match rewriteError host s with
                | Some d => d
                | None => data
                end
    | Binary _ => data
    end in
  sendIfOpen serverWs clientState data'.

(** [serverWs.addEventListener('close', ...)] *)
Definition serverWs_close (e : CloseEvent) : list WsCall :=
  [Close containerWs (code e) (reason e)].

(** [containerWs.addEventListener('close', ...)] *)
Definition containerWs_close (host : string) (e : CloseEvent) : list WsCall :=
  let reason1 := transformErrorMessage (reason e) host in
  let reason2 := if (123 <? String.length reason1)%nat
                 then JsString.slice0 120 reason1 ++ "..."
                 else reason1 in
  [Close serverWs (code e) reason2].

Definition serverWs_error : list WsCall := [Close containerWs 1011%Z "Client error"].
Definition containerWs_error : list WsCall := [Close serverWs 1011%Z "Container error"].

(** An event delivered to one of the two sockets, together with the
    [readyState] of the opposite socket at that moment. *)
Inductive RelayEvent : Type :=
| OnMessage (on : Socket) (opposite : ReadyState) (data : WsData)
| OnClose (on : Socket) (e : CloseEvent)
| OnError (on : Socket).

Record RelayConfig : Type := mkRelayConfig {
  gatewayToken : option string;
  host : string
}.

Definition dispatch (cfg : RelayConfig) (ev : RelayEvent) : list WsCall :=
  match ev with
  | OnMessage serverWs st data => serverWs_message (gatewayToken cfg) st data
  | OnMessage containerWs st data => containerWs_message (host cfg) st data
  | OnClose serverWs e => serverWs_close e
  | OnClose containerWs e => containerWs_close (host cfg) e
  | OnError serverWs => serverWs_error
  | OnError containerWs => containerWs_error
  end.

(** The listeners run one event at a time, in order of arrival; the
    calls they make accumulate in that order. *)
Definition relay (cfg : RelayConfig) (evs : list RelayEvent) : list WsCall :=
  fold_left (fun calls ev => (calls ++ dispatch cfg ev)%list) evs [].

End WithCodec.
End Relay.

(** ** A JSON codec to run the listeners on concrete frames

    [JSON.parse] and [JSON.stringify] restricted to a fragment of JSON:
    objects, arrays, strings with the two-character escapes, integers
    below 2^53 without fraction or exponent, and the three literals.
    Text outside the fragment (a [\u] escape, a fraction, an object key
    made of digits) is rejected.  The general results do not depend on
    this codec; it serves to evaluate the listeners on the frames of
    the scenarios. *)

Module MiniJson.
Import Json.
Local Open Scope char_scope.

Definition dquote : ascii := ascii_of_nat 34.
Definition backslash : ascii := ascii_of_nat 92.

(** Writes a JSON text with ['] in place of the double quote. *)
Fixpoint js (s : string) : string :=
  match s with
  | EmptyString => EmptyString
  | String c rest => String (if Ascii.eqb c "'" then dquote else c) (js rest)
  end.

Definition is_ws (c : ascii) : bool :=
  Ascii.eqb c " " || Ascii.eqb c (ascii_of_nat 9)
  || Ascii.eqb c (ascii_of_nat 10) || Ascii.eqb c (ascii_of_nat 13).

Definition is_digit (c : ascii) : bool :=
  (48 <=? nat_of_ascii c)%nat && (nat_of_ascii c <=? 57)%nat.

Definition digit_val (c : ascii) : Z := Z.of_nat (nat_of_ascii c - 48).

Fixpoint skip_ws (s : string) : string :=
  match s with
  | String c rest => if is_ws c then skip_ws rest else s
  | EmptyString => s
  end.

Definition unescape (c : ascii) : option ascii :=
  if Ascii.eqb c dquote then Some dquote
  else if Ascii.eqb c backslash then Some backslash
  else if Ascii.eqb c "/" then Some "/"
  else if Ascii.eqb c "b" then Some (ascii_of_nat 8)
  else if Ascii.eqb c "f" then Some (ascii_of_nat 12)
  else if Ascii.eqb c "n" then Some (ascii_of_nat 10)
  else if Ascii.eqb c "r" then Some (ascii_of_nat 13)
  else if Ascii.eqb c "t" then Some (ascii_of_nat 9)
  else None.

(** The characters after an opening quote, up to the closing one. *)
Fixpoint string_body (s : string) : option (string * string) :=
  match s with
  | EmptyString => None
  | String c rest =>
      if Ascii.eqb c dquote then Some (EmptyString, rest)
      else if Ascii.eqb c backslash then
        match rest with
        | String e rest' =>
            match unescape e, string_body rest' with
            | Some c', Some (body, r) => Some (String c' body, r)
            | _, _ => None
            end
        | EmptyString => None
        end
      else if (nat_of_ascii c <? 32)%nat then None
      else match string_body rest with
           | Some (body, r) => Some (String c body, r)
           | None => None
           end
  end.

Fixpoint digits (acc : Z) (s : string) : Z * string :=
  match s with
  | String c rest =>
      if is_digit c then digits (10 * acc + digit_val c)%Z rest else (acc, s)
  | EmptyString => (acc, s)
  end.

Definition starts_with_any (cs : list ascii) (s : string) : bool :=
  match s with
  | String c _ => existsb (Ascii.eqb c) cs
  | EmptyString => false
  end.

Definition number_text (s : string) : option (Z * string) :=
  let (negative, s1) :=
    match s with
    | String c rest => if Ascii.eqb c "-" then (true, rest) else (false, s)
    | EmptyString => (false, s)
    end in
  match s1 with
  | String c rest =>
      if negb (is_digit c) then None else
      let (n, r) := if Ascii.eqb c "0" then (0%Z, rest) else digits 0 s1 in
      if starts_with_any ["."; "e"; "E"] r then None
      else if (2 ^ 53 <=? n)%Z then None
      else Some (if negative then (- n)%Z else n, r)
  | EmptyString => None
  end.

Definition all_digits (s : string) : bool :=
  JsString.truthy s && forallb is_digit (list_ascii_of_string s).

Section Loops.
Variable parse_value : string -> option (value Z * string).

(** After ["["] and a first look for ["]"]: elements separated by
    commas. *)
Fixpoint elements (n : nat) (acc : list (value Z)) (s : string)
  : option (value Z * string) :=
  match n with
  | O => None
  | S n' =>
      match parse_value s with
      | None => None
      | Some (v, r) =>
          match skip_ws r with
          | String c r' =>
              if Ascii.eqb c "," then elements n' (acc ++ [v]) r'
              else if Ascii.eqb c "]" then Some (JArr (acc ++ [v]), r')
              else None
          | EmptyString => None
          end
      end
  end.

(** After ["{"] and a first look for ["}"]: members separated by
    commas.  A repeated key keeps its first place and takes the
    last value. *)
Fixpoint members (n : nat) (acc : list (string * value Z)) (s : string)
  : option (value Z * string) :=
  match n with
  | O => None
  | S n' =>
      match skip_ws s with
      | String q r0 =>
          if negb (Ascii.eqb q dquote) then None else
          match string_body r0 with
          | None => None
          | Some (k, r1) =>
              if all_digits k then None else
              match skip_ws r1 with
              | String colon r2 =>
                  if negb (Ascii.eqb colon ":") then None else
                  match parse_value r2 with
                  | None => None
                  | Some (v, r3) =>
                      match skip_ws r3 with
                      | String c r4 =>
                          if Ascii.eqb c "," then members n' (set_prop k v acc) r4
                          else if Ascii.eqb c "}" then Some (JObj (set_prop k v acc), r4)
                          else None
                      | EmptyString => None
                      end
                  end
              | EmptyString => None
              end
          end
      | EmptyString => None
      end
  end.
End Loops.

Fixpoint parse_value (fuel : nat) (s : string) : option (value Z * string) :=
  match fuel with
  | O => None
  | S fuel' =>
      match skip_ws s with
      | EmptyString => None
      | String c rest as s1 =>
          if Ascii.eqb c "{" then
            match skip_ws rest with
            | String c' r =>
                if Ascii.eqb c' "}" then Some (JObj [], r)
                else members (parse_value fuel') (String.length rest) [] rest
            | EmptyString => None
            end
          else if Ascii.eqb c "[" then
            match skip_ws rest with
            | String c' r =>
                if Ascii.eqb c' "]" then Some (JArr [], r)
                else elements (parse_value fuel') (String.length rest) [] rest
            | EmptyString => None
            end
          else if Ascii.eqb c dquote then
            match string_body rest with
            | Some (body, r) => Some (JStr body, r)
            | None => None
            end
          else if String.prefix "null" s1 then Some (JNull, String.substring 4 (String.length s1) s1)
          else if String.prefix "true" s1 then Some (JBool true, String.substring 4 (String.length s1) s1)
          else if String.prefix "false" s1 then Some (JBool false, String.substring 5 (String.length s1) s1)
          else match number_text s1 with
               | Some (n, r) => Some (JNum n, r)
               | None => None
               end
      end
  end.

Definition parse (s : string) : option (value Z) :=
  match parse_value (S (String.length s)) s with
  | Some (v, rest) =>
      match skip_ws rest with
      | EmptyString => Some v
      | _ => None
      end
  | None => None
  end.

Definition hex_digit (n : nat) : ascii :=
  if (n <? 10)%nat then ascii_of_nat (48 + n) else ascii_of_nat (87 + n).

Definition escape (c : ascii) : string :=
  let n := nat_of_ascii c in
  if Ascii.eqb c dquote then String backslash (String dquote EmptyString)
  else if Ascii.eqb c backslash then String backslash (String backslash EmptyString)
  else if (n =? 8)%nat then String backslash "b"
  else if (n =? 12)%nat then String backslash "f"
  else if (n =? 10)%nat then String backslash "n"
  else if (n =? 13)%nat then String backslash "r"
  else if (n =? 9)%nat then String backslash "t"
  else if (n <? 32)%nat
  then String backslash
         (String "u" (String "0" (String "0"
            (String (hex_digit (n / 16)) (String (hex_digit (n mod 16)) EmptyString)))))
  else String c EmptyString.

Definition quote (s : string) : string :=
  (String dquote (String.concat "" (map escape (list_ascii_of_string s)))
   ++ String dquote EmptyString)%string.

Fixpoint stringify (v : value Z) : string :=
  match v with
  | JNull => "null"
  | JBool true => "true"
  | JBool false => "false"
  | JNum n => NilZero.string_of_int (Z.to_int n)
  | JStr s => quote s
  | JArr elems => "[" ++ String.concat "," (map stringify elems) ++ "]"
  | JObj props =>
      "{" ++ String.concat ","
               (map (fun kv => quote (fst kv) ++ ":" ++ stringify (snd kv)) props)
      ++ "}"
  end%string.

Definition codec : Codec Z :=
  {| num_truthy := fun n => negb (n =? 0)%Z;
     JSON_parse := parse;
     JSON_stringify := stringify |}.

End MiniJson.

(** ** A scripted sandbox

    A runtime that answers every call with the next entry of a script,
    so that the supervisor can be run on a chosen history.  A call the
    script did not expect throws. *)

Module Script.

Inductive Answer : Type :=
| AMount (r : Result bool)
| AList (r : Result (list Process))
| AWait (r : Result unit)
| AFetch (r : Result Response)
| AKill (r : Result unit)
| AStart (r : Result Process)
| ALogs (r : Result Logs).

Definition World : Type := list Answer.

Definition offScript {A : Type} : Result A := Throw (mkError "off script").

Definition next {A : Type} (pick : Answer -> option (Result A)) (w : World)
  : Result A * World :=
  match w with
  | a :: rest => match pick a with
                 | Some r => (r, rest)
                 | None => (offScript, w)
                 end
  | [] => (offScript, w)
  end.

Definition runtime : Runtime World EnvVars :=
  {| MOLTBOT_PORT := 18789;
     STARTUP_TIMEOUT_MS := 180000;
     buildEnvVars := fun env => env;
     rt_mountR2Storage := fun _ => next (fun a => match a with AMount r => Some r | _ => None end);
     rt_listProcesses := next (fun a => match a with AList r => Some r | _ => None end);
     rt_waitForPort := fun _ _ _ => next (fun a => match a with AWait r => Some r | _ => None end);
     rt_containerFetch := fun _ _ => next (fun a => match a with AFetch r => Some r | _ => None end);
     rt_kill := fun _ => next (fun a => match a with AKill r => Some r | _ => None end);
     rt_startProcess := fun _ _ => next (fun a => match a with AStart r => Some r | _ => None end);
     rt_getLogs := fun _ => next (fun a => match a with ALogs r => Some r | _ => None end) |}.

(** Runs [ensureMoltbotGateway] against a script, from an empty log. *)
Definition ensure (env : EnvVars) (script : World) : Result Process * State World :=
  Gateway.ensureMoltbotGateway (rt := runtime) env (mkState script []).

Definition gateway (id : string) (st : ProcessStatus) : Process :=
  mkProcess id "/usr/local/bin/start-moltbot.sh" st.

End Script.

(** ** Concrete histories and frames *)

Module Scenarios.
Import Script MiniJson.

Definition p0 : Process := gateway "p0" running.
Definition p1 : Process := gateway "p1" starting.

Definition start (script : World) : State World := mkState script [].

(** The state a computation leaves. *)
Definition after {A : Type} (m : Sup.M World A) (s : State World) : State World :=
  snd (m s).

Definition mounted (s : State World) : State World :=
  after (Gateway.mountR2Storage (rt := runtime) []) s.
Definition discovered (s : State World) : State World :=
  after (Gateway.findExistingMoltbotProcess (rt := runtime)) (mounted s).
Definition atLaunch (s : State World) : State World :=
  after (Gateway.killStaleProcesses (rt := runtime))
        (after (Gateway.reuseExisting (rt := runtime) []) s).
Definition started (s : State World) : State World :=
  after (Gateway.startProcess (rt := runtime) Gateway.command None) (atLaunch s).
Definition portOpen (s : State World) : State World :=
  after (Gateway.waitForPort (rt := runtime) p1 18789 180000) (started s).
Definition logsRead (s : State World) : State World :=
  after (Gateway.getLogs (rt := runtime) p1) (portOpen s).
Definition probed (s : State World) : State World :=
  after (Gateway.containerFetch (rt := runtime) "http://localhost:18789/" 18789)
        (logsRead s).

(** A running gateway that answers the probe with 401. *)
Definition reuseScript : World :=
  [AMount (Ok true); AList (Ok [p0]); AWait (Ok tt);
   AFetch (Ok (mkResponse 401 "unauthorized"))].

(** The listing fails; the launch then goes through. *)
Definition listingFailsScript : World :=
  [AMount (Ok true); AList (Throw (mkError "listProcesses failed"));
   AList (Ok []); AStart (Ok p1); AWait (Ok tt); ALogs (Ok (mkLogs "ready" ""));
   AFetch (Ok (mkResponse 200 "ok"))].

(** No gateway; the new process opens its port but the probe says 500. *)
Definition loopbackScript : World :=
  [AMount (Ok true); AList (Ok []); AList (Ok []); AStart (Ok p1);
   AWait (Ok tt); ALogs (Ok (mkLogs "listening on 127.0.0.1" ""));
   AFetch (Ok (mkResponse 500 "not listening on 10.0.0.1"))].

(** No gateway; the new process opens its port but its logs cannot be
    read. *)
Definition logsFailScript : World :=
  [AMount (Ok true); AList (Ok []); AList (Ok []); AStart (Ok p1);
   AWait (Ok tt); ALogs (Throw (mkError "getLogs failed"));
   ALogs (Ok (mkLogs "ready" ""))].

(** No gateway; the new process never opens its port, and its stderr
    says why. *)
Definition timeoutScript : World :=
  [AMount (Ok true); AList (Ok []); AList (Ok []); AStart (Ok p1);
   AWait (Throw (mkError "waitForPort timed out"));
   ALogs (Ok (mkLogs "" "Error: listen EADDRINUSE"))].

Definition connectFrame : WsData :=
  Text (js "{'type':'req','method':'connect','params':{'deviceId':'x','signature':'y'}}").
Definition connectFrameRewritten : WsData :=
  Text (js "{'type':'req','method':'connect','params':{'auth':{'token':'S'}}}").
Definition connectFrameNoParams : WsData :=
  Text (js "{'type':'req','method':'connect'}").
Definition errorFrame : string :=
  js "{'error':{'message':'gateway token mismatch'}}".
Definition errorFrameRewritten : string :=
  js "{'error':{'message':'Invalid or missing token. Visit https://example.com?token={REPLACE_WITH_YOUR_TOKEN}'}}".

Definition cfg : Relay.RelayConfig := Relay.mkRelayConfig (Some "S") "example.com".

(** A close reason of 130 characters. *)
Definition longReason : string :=
  String.concat "" (repeat "0123456789" 13).

End Scenarios.

(** ** Vocabulary of the statements *)

(** [pat] occurs in [s]. *)
Definition Includes (s pat : string) : Prop :=
  exists before after, s = (before ++ pat ++ after)%string.

(** An entry of the process list that discovery accepts: a gateway
    launch command, not one of the CLI commands, and still alive. *)
Definition IsGatewayEntry (p : Process) : Prop :=
  (Includes (proc_command p) "start-moltbot.sh"
   \/ Includes (proc_command p) "openclaw gateway")
  /\ ~ (Includes (proc_command p) "openclaw devices"
        \/ Includes (proc_command p) "openclaw --version")
  /\ (proc_status p = starting \/ proc_status p = running).

(** The events a call added to the log. *)
Definition events_since {W : Type} (before after : State W) : list Event :=
  skipn (List.length (events before)) (events after).

(** [m] leaves the earlier events in place. *)
Definition Extends {W A : Type} (m : Sup.M W A) : Prop :=
  forall s r s', m s = (r, s') -> exists evs, events s' = (events s ++ evs)%list.

(** The error of a launch whose overlay probe fails. *)
Definition startedButUnreachable : JsError :=
  mkError "Gateway started but not reachable via sandbox network (may be bound to loopback)".

Section GatewayVocabulary.
Context {W Env : Type} {rt : Runtime W Env}.
Import Gateway.

(** The environment handed to [startProcess]. *)
Definition launchEnv (env : Env) : option EnvVars :=
  if (0 <? List.length (buildEnvVars env))%nat then Some (buildEnvVars env) else None.

(** From state [s], the port of [p] opens within the startup timeout
    and the overlay probe then answers with a status other than 500. *)
Definition Verified (p : Process) (s : State W) : Prop :=
  exists s1 resp s2,
    waitForPort p MOLTBOT_PORT STARTUP_TIMEOUT_MS s = (Ok tt, s1)
    /\ containerFetch healthUrl MOLTBOT_PORT s1 = (Ok resp, s2)
    /\ resp_status resp <> 500%Z.

(** The overlay probe run from [s] ends in [s'] and reports the
    gateway unreachable: status 500, or a failed fetch. *)
Definition ProbeUnreachable (s s' : State W) : Prop :=
  (exists resp, containerFetch healthUrl MOLTBOT_PORT s = (Ok resp, s')
                /\ resp_status resp = 500%Z)
  \/ (exists err, containerFetch healthUrl MOLTBOT_PORT s = (Throw err, s')).

(** A call started in [s0] finds nothing to reuse and, after the
    stale-process cleanup, is about to start a process in [sL]. *)
Definition ReachesLaunch (env : Env) (s0 sL : State W) : Prop :=
  exists sK, reuseExisting env s0 = (Ok None, sK)
             /\ killStaleProcesses sK = (Ok tt, sL).

End GatewayVocabulary.

Section RelayVocabulary.
Context {number : Type} {codec : Json.Codec number}.
Import Json.

(** A frame the client listener recognises as a connect request. *)
Definition IsConnectRequest (d : WsData) : Prop :=
  exists s msg, d = Text s
    /\ JSON_parse s = Some msg
    /\ get msg "type" = Some (Some (JStr "req"))
    /\ get msg "method" = Some (Some (JStr "connect")).

(** [parsed.error.message], when [parsed.error] is an object. *)
Definition nestedErrorMessage (parsed : value number) : option (value number) :=
  match parsed with
  | JObj props => match lookup "error" props with
                  | Some (JObj eprops) => lookup "message" eprops
                  | _ => None
                  end
  | _ => None
  end.

(** [params] after the rewrite: the device-identity fields removed,
    the token credential set. *)
Definition bearerOnly (token : string) (pprops : list (string * value number))
  : list (string * value number) :=
  set_prop "auth" (JObj [("token", JStr token)])
    (delete_prop "device"
       (delete_prop "signature"
          (delete_prop "devicePublicKey"
             (delete_prop "deviceId" pprops)))).

End RelayVocabulary.

(** ** Vocabulary of the further results on the supervisor *)

(** The test of the stale-process cleanup (lines 285-286): a gateway
    launch command, alive; CLI commands are not excluded here. *)
Definition isStaleTarget (proc : Process) : bool :=
  Discovery.isGatewayProcess proc
  && (status_eqb (proc_status proc) running
      || status_eqb (proc_status proc) starting).

Definition staleTargets (procs : list Process) : list Process :=
  filter isStaleTarget procs.

Definition isStartEvent (ev : Event) : bool :=
  match ev with EvStartProcess _ _ _ => true | _ => false end.

(** A successful [kill] of each process of a list, in order. *)
Definition killedInOrder (procs : list Process) : list Event :=
  map (fun p => EvKill p (Ok tt)) procs.

(** An event that is no [startProcess], and no [kill] of anything but
    a live process with a gateway launch command. *)
Definition isGuardedEvent (ev : Event) : bool :=
  match ev with
  | EvStartProcess _ _ _ => false
  | EvKill p _ => isStaleTarget p
  | _ => true
  end.

(** A call the launch makes after [startProcess]. *)
Definition isFollowUp (ev : Event) : bool :=
  match ev with
  | EvWaitForPort _ _ _ _ | EvGetLogs _ _ | EvContainerFetch _ _ _ => true
  | _ => false
  end.

(** ** Vocabulary of the further results on the relay *)

Definition opposite (sock : Socket) : Socket :=
  match sock with serverWs => containerWs | containerWs => serverWs end.

Definition callTarget (c : WsCall) : Socket :=
  match c with Send t _ => t | Close t _ _ => t end.

Section RelayEventVocabulary.
Context {number : Type} {codec : Json.Codec number}.

(** The socket an event is delivered to. *)
Definition eventSocket (ev : Relay.RelayEvent) : Socket :=
  match ev with
  | Relay.OnMessage on _ _ => on
  | Relay.OnClose on _ => on
  | Relay.OnError on => on
  end.

End RelayEventVocabulary.

(** ** The worker entry: configuration *)

Module Worker.

(** The bindings of the worker environment that the code reads as
    configuration; each is a string or [undefined].  (The type is
    declared in [./types], outside the listing.) *)
Record MoltbotEnv : Type := mkEnv {
  MOLTBOT_GATEWAY_TOKEN : option string;
  CF_ACCESS_TEAM_DOMAIN : option string;
  CF_ACCESS_AUD : option string;
  AI_GATEWAY_API_KEY : option string;
  AI_GATEWAY_BASE_URL : option string;
  ANTHROPIC_API_KEY : option string;
  DEV_MODE : option string
}.

(** Truthiness of a binding: set, and not the empty string. *)
Definition isSet (v : option string) : bool :=
  match v with
  | Some s => JsString.truthy s
  | None => false
  end.

(** [validateRequiredEnv]: each [missing.push] in source order. *)
Definition validateRequiredEnv (env : MoltbotEnv) : list string :=
  let push (missing : list string) (name : string) : list string :=
    (missing ++ [name])%list in
  let missing : list string := [] in
  let missing := if negb (isSet (MOLTBOT_GATEWAY_TOKEN env))
                 then push missing "MOLTBOT_GATEWAY_TOKEN" else missing in
  let missing := if negb (isSet (CF_ACCESS_TEAM_DOMAIN env))
                 then push missing "CF_ACCESS_TEAM_DOMAIN" else missing in
  let missing := if negb (isSet (CF_ACCESS_AUD env))
                 then push missing "CF_ACCESS_AUD" else missing in
  if isSet (AI_GATEWAY_API_KEY env) then
    if negb (isSet (AI_GATEWAY_BASE_URL env))
    then push missing "AI_GATEWAY_BASE_URL (required when using AI_GATEWAY_API_KEY)"
    else missing
  else if negb (isSet (ANTHROPIC_API_KEY env))
  then push missing "ANTHROPIC_API_KEY or AI_GATEWAY_API_KEY"
  else missing.

(** What the validation middleware (lines 500-534) does with a
    request: pass it on, or answer 503 with the missing names, joined
    by [", "] into the configuration-error page for a browser, or as a
    list in a JSON body otherwise. *)
Inductive Gate : Type :=
| Next
| ConfigErrorPage (status : Z) (missingVars : string)
| ConfigErrorJson (status : Z) (missing : list string).

(** [c.req.header('Accept')?.includes('text/html')] *)
Definition acceptsHtml (accept : option string) : bool :=
  match accept with
  | Some a => JsString.includes a "text/html"
  | None => false
  end.

Definition validationMiddleware (env : MoltbotEnv) (pathname : string)
           (accept : option string) : Gate :=
  if String.prefix "/debug" pathname then Next
  else if match DEV_MODE env with Some v => String.eqb v "true" | None => false end
  then Next
  else
    let missingVars := validateRequiredEnv env in
    if (0 <? List.length missingVars)%nat then
      if acceptsHtml accept
      then ConfigErrorPage 503 (String.concat ", " missingVars)
      else ConfigErrorJson 503 missingVars
    else Next.

End Worker.

(** The configuration is complete: the three access settings, and
    either the AI gateway key with its base URL, or, without an AI
    gateway key, the Anthropic key. *)
Definition ConfigComplete (env : Worker.MoltbotEnv) : Prop :=
  Worker.isSet (Worker.MOLTBOT_GATEWAY_TOKEN env) = true
  /\ Worker.isSet (Worker.CF_ACCESS_TEAM_DOMAIN env) = true
  /\ Worker.isSet (Worker.CF_ACCESS_AUD env) = true
  /\ (if Worker.isSet (Worker.AI_GATEWAY_API_KEY env)
      then Worker.isSet (Worker.AI_GATEWAY_BASE_URL env) = true
      else Worker.isSet (Worker.ANTHROPIC_API_KEY env) = true).

(** ** The routes that drive the supervisor *)

(** JavaScript and platform built-ins used by the routes. *)
Class Builtins : Type := {
  (** [s.toLowerCase()] *)
  toLowerCase : string -> string;
  (** [err instanceof Error] *)
  instanceofError : JsError -> bool;
  (** [await response.text()] *)
  responseText : Response -> Result string;
  (** [new URL(u).toString()] *)
  urlToString : string -> string;
  (** [u = new URL(u); u.searchParams.set('token', t); u.toString()] *)
  urlWithToken : string -> string -> string;
  (** [new URL(u).pathname] *)
  urlPathname : string -> string
}.

(** What a task started with [waitUntil] may do to the sandbox between
    two awaits of the handler that started it. *)
Class Interleaving (W : Type) : Type := {
  interleave : W -> W
}.

Module Routes.
Import Sup Gateway JsString Worker.
Local Open Scope sup_scope.

(** [c.json(body, status)]; the status is 200 when not given. *)
Record JsonReply : Type := mkJson {
  reply_status : Z;
  reply_body : Json.value Z
}.

(** Whether the handler handed [ensureMoltbotGateway(...).catch(...)]
    to [c.executionCtx.waitUntil] before answering. *)
Inductive Background : Type := NoBackground | EnsureInBackground.

Definition statusName (st : ProcessStatus) : string :=
  match st with
  | starting => "starting"
  | running => "running"
  | failed => "failed"
  | completed => "completed"
  | killed => "killed"
  end.

(** [{ id: p.id, command: p.command, status: p.status }] *)
Definition processJson (p : Process) : Json.value Z :=
  Json.JObj [("id", Json.JStr (proc_id p));
             ("command", Json.JStr (proc_command p));
             ("status", Json.JStr (statusName (proc_status p)))].

Section WithRuntime.
Context {W : Type} {rt : Runtime W MoltbotEnv} {bi : Builtins} {il : Interleaving W}.

(** [err instanceof Error ? err.message : 'Unknown error'] *)
Definition errorText (err : JsError) : string :=
  if instanceofError err then message err else "Unknown error".

(** An awaited value that is no sandbox call. *)
Definition lift {A : Type} (r : Result A) : M W A := fun s => (r, s).

(** An await reached while a background task is running. *)
Definition yield : M W unit :=
  fun s => (Ok tt, mkState (interleave (world s)) (events s)).

(** The loop of [/api/restart] (lines 140-148), with its counter. *)
Fixpoint restartLoop (procs : list Process) (killed : Z) : M W Z :=
  match procs with
  | [] => ret killed
  | proc :: rest =>
      if includes (proc_command proc) "start-moltbot.sh"
         || includes (proc_command proc) "openclaw gateway"
      then
        if status_eqb (proc_status proc) running
           || status_eqb (proc_status proc) starting
        then kill proc ;; restartLoop rest (killed + 1)%Z
        else restartLoop rest killed
      else restartLoop rest killed
  end.

(** [GET /api/restart] (lines 135-163). *)
Definition restartRoute : M W (JsonReply * Background) :=
  try (procs <- listProcesses ;;
       killed <- restartLoop procs 0%Z ;;
       ret (mkJson 200 (Json.JObj [("ok", Json.JBool true);
                                   ("killed", Json.JNum killed);
                                   ("message", Json.JStr "Gateway restart triggered")]),
            EnsureInBackground))
  catch err =>
    ret (mkJson 500 (Json.JObj [("ok", Json.JBool false);
                                ("error", Json.JStr (errorText err))]),
         NoBackground).

(** A request as the catch-all route reads it. *)
Record Request : Type := mkRequest {
  req_url : string;
  req_upgrade : option string;
  req_accept : option string
}.

(** How the catch-all route (lines 567-736) ends.
    [ProxyWebSocket wsUrl] stands for the hand-over to
    [sandbox.wsConnect(wsRequest, MOLTBOT_PORT)] and the relay. *)
Inductive ProxyOutcome : Type :=
| ServeLoadingPage
| StartFailed (reply : JsonReply)
| ProxyWebSocket (wsUrl : string)
| ProxiedHttp (httpResponse : Response) (debugHeaders : list (string * string)).

(** [request.headers.get('Upgrade')?.toLowerCase() === 'websocket'] *)
Definition isWebSocketRequest (req : Request) : bool :=
  match req_upgrade req with
  | Some u => String.eqb (toLowerCase u) "websocket"
  | None => false
  end.

(** [existingProcess !== null && existingProcess.status === 'running'] *)
Definition isGatewayReady (existingProcess : option Process) : bool :=
  match existingProcess with
  | Some p => status_eqb (proc_status p) running
  | None => false
  end.

(** The hint of the 503 answer (lines 603-608). *)
Definition startupHint (env : MoltbotEnv) (errorMessage : string) : string :=
  if negb (isSet (ANTHROPIC_API_KEY env))
  then "ANTHROPIC_API_KEY is not set. Run: wrangler secret put ANTHROPIC_API_KEY"
  else if includes errorMessage "heap out of memory" || includes errorMessage "OOM"
  then "Gateway ran out of memory. Try again or check for memory leaks."
  else "Check worker logs with: wrangler tail".

(** The URL of the proxied request: the token is set as a query
    parameter when it is configured. *)
Definition proxiedUrl (env : MoltbotEnv) (req : Request) : string :=
  match MOLTBOT_GATEWAY_TOKEN env with
  | Some token => if truthy token then urlWithToken (req_url req) token
                  else urlToString (req_url req)
  | None => urlToString (req_url req)
  end.

Definition proxyRoute (env : MoltbotEnv) (req : Request) : M W ProxyOutcome :=
  existingProcess <- findExistingMoltbotProcess ;;
  if negb (isGatewayReady existingProcess)
     && negb (isWebSocketRequest req)
     && acceptsHtml (req_accept req)
  then
    (* waitUntil(ensureMoltbotGateway(...)); return c.html(loadingPageHtml) *)
    ret ServeLoadingPage
  else
    failure <- (try (ensureMoltbotGateway env ;; ret None)
                catch error =>
                  let errorMessage := errorText error in
                  ret (Some (mkJson 503
                    (Json.JObj [("error", Json.JStr "Moltbot gateway failed to start");
                                ("details", Json.JStr errorMessage);
                                ("hint", Json.JStr (startupHint env errorMessage))])))) ;;
    match failure with
    | Some reply => ret (StartFailed reply)
    | None =>
        if isWebSocketRequest req then ret (ProxyWebSocket (proxiedUrl env req))
        else
          httpResponse <- containerFetch (proxiedUrl env req) MOLTBOT_PORT ;;
          ret (ProxiedHttp httpResponse
                 [("X-Worker-Debug", "proxy-to-moltbot");
                  ("X-Debug-Path", urlPathname (req_url req))])
    end.

(** [`stdout: ${(logs.stdout || '').slice(0, 1500)}\nstderr: ${...}`] *)
Definition failedLogsText (logs : Logs) : string :=
  "stdout: " ++ slice0 1500 (or_else (stdout logs) "")
  ++ String (ascii_of_nat 10) "stderr: " ++ slice0 1500 (or_else (stderr logs) "").

Definition isFailed (p : Process) : bool := status_eqb (proc_status p) failed.

Definition isFailedOrCompleted (p : Process) : bool :=
  status_eqb (proc_status p) failed || status_eqb (proc_status p) completed.

(** The diagnostics of the [not_running] answer (lines 60-75).  They
    are gathered after [ensureMoltbotGateway] was started in the
    background, whence the [yield] before each call. *)
Definition failedLogsOf (allProcesses : list Process) : M W string :=
  if (0 <? List.length (filter isFailed allProcesses))%nat then
    try (yield ;;
         procs <- listProcesses ;;
         match List.find isFailedOrCompleted procs with
         | Some failedProc =>
             yield ;;
             logs <- getLogs failedProc ;;
             ret (failedLogsText logs)
         | None => ret ""
         end)
    catch e => ret ""
  else ret "".

Definition processesJson (allProcesses : list Process) : Json.value Z :=
  Json.JArr (map processJson allProcesses).

Definition notRunningReply (allProcesses : list Process) (failedLogs : string) : JsonReply :=
  mkJson 200 (Json.JObj [("ok", Json.JBool false);
                         ("status", Json.JStr "not_running");
                         ("processes", processesJson allProcesses);
                         ("failedLogs", Json.JStr failedLogs)]).

Definition restartingReply (allProcesses : list Process) : JsonReply :=
  mkJson 200 (Json.JObj [("ok", Json.JBool false);
                         ("status", Json.JStr "restarting");
                         ("reason", Json.JStr "token_auth_mismatch");
                         ("processes", processesJson allProcesses)]).

Definition runningReply (process : Process) (allProcesses : list Process) : JsonReply :=
  mkJson 200 (Json.JObj [("ok", Json.JBool true);
                         ("status", Json.JStr "running");
                         ("processId", Json.JStr (proc_id process));
                         ("processes", processesJson allProcesses)]).

Definition notRespondingReply (process : Process) (allProcesses : list Process)
           (logs : Logs) : JsonReply :=
  mkJson 200 (Json.JObj [("ok", Json.JBool false);
                         ("status", Json.JStr "not_responding");
                         ("processId", Json.JStr (proc_id process));
                         ("processes", processesJson allProcesses);
                         ("stdout", Json.JStr (slice0 500 (or_else (stdout logs) "")));
                         ("stderr", Json.JStr (slice0 500 (or_else (stderr logs) "")))]).

Definition errorReply (err : JsError) : JsonReply :=
  mkJson 200 (Json.JObj [("ok", Json.JBool false);
                         ("status", Json.JStr "error");
                         ("error", Json.JStr (errorText err))]).

(** The health check of [/api/status] (lines 86-107).  [Some reply]
    is the [return] inside the [try]; a throw of the fetch, of reading
    the body or of the [kill] is logged as non-fatal. *)
Definition statusHealthCheck (process : Process) (allProcesses : list Process)
  : M W (option (JsonReply * Background)) :=
  try (healthResp <- containerFetch "http://localhost:18789/" 18789%Z ;;
       healthBody <- lift (responseText healthResp) ;;
       if includes healthBody "gateway token" || includes healthBody "unauthorized"
       then
         kill process ;;
         ret (Some (restartingReply allProcesses, EnsureInBackground))
       else ret None)
  catch healthErr => ret None.

(** [GET /api/status] (lines 34-132). *)
Definition statusRoute : M W (JsonReply * Background) :=
  try (allProcesses <- (try listProcesses catch e => ret []) ;;
       process <- findExistingMoltbotProcess ;;
       match process with
       | None =>
           failedLogs <- failedLogsOf allProcesses ;;
           ret (notRunningReply allProcesses failedLogs, EnsureInBackground)
       | Some process =>
           try (waitForPort process 18789%Z 5000%Z ;;
                early <- statusHealthCheck process allProcesses ;;
                match early with
                | Some answer => ret answer
                | None => ret (runningReply process allProcesses, NoBackground)
                end)
           catch notResponding =>
             (logs <- (try getLogs process catch e => ret (mkLogs "" "")) ;;
              ret (notRespondingReply process allProcesses logs, NoBackground))
       end)
  catch err => ret (errorReply err, NoBackground).

End WithRuntime.
End Routes.

(** The [status] and [ok] members of a JSON answer. *)
Definition replyStatusField (r : Routes.JsonReply) : option string :=
  match Routes.reply_body r with
  | Json.JObj props =>
      match Json.lookup "status" props with
      | Some (Json.JStr st) => Some st
      | _ => None
      end
  | _ => None
  end.

Definition replyOkField (r : Routes.JsonReply) : option bool :=
  match Routes.reply_body r with
  | Json.JObj props =>
      match Json.lookup "ok" props with
      | Some (Json.JBool b) => Some b
      | _ => None
      end
  | _ => None
  end.

(** The process list shown in the answers of [/api/status]: the first
    listing, or nothing when it failed. *)
Definition shownProcesses (firstListing : Result (list Process)) : list Process :=
  match firstListing with
  | Ok procs => procs
  | Throw _ => []
  end.

(** The body of a health answer names a token problem. *)
Definition MentionsTokenProblem (healthBody : string) : Prop :=
  Includes healthBody "gateway token" \/ Includes healthBody "unauthorized".

(** ** The public routes: admin assets *)

Module Assets.

(** [Some rest] when [s] is [pat] followed by [rest]. *)
Fixpoint dropPrefix (pat s : string) : option string :=
  match pat, s with
  | EmptyString, _ => Some s
  | String a pat', String b s' =>
      if Ascii.eqb a b then dropPrefix pat' s' else None
  | String _ _, EmptyString => None
  end.

(** [s.replace(pat, rep)] for a string pattern and a replacement
    without [$]: the first occurrence of [pat] is replaced. *)
Fixpoint replaceFirst (pat rep s : string) : string :=
  match dropPrefix pat s with
  | Some rest => rep ++ rest
  | None =>
      match s with
      | EmptyString => EmptyString
      | String c s' => String c (replaceFirst pat rep s')
      end
  end.

(** [url.pathname.replace('/_admin/assets/', '/assets/')] (line 170). *)
Definition assetPath (pathname : string) : string :=
  replaceFirst "/_admin/assets/" "/assets/" pathname.

End Assets.

(** ** Concrete histories for the further results *)

Module RouteScenarios.
Import Script Scenarios MiniJson.

(** The scripted sandbox, for the routes: the environment is the
    worker's, and the start script gets no variables. *)
Definition runtime : Runtime World Worker.MoltbotEnv :=
  {| MOLTBOT_PORT := 18789;
     STARTUP_TIMEOUT_MS := 180000;
     buildEnvVars := fun _ => [];
     rt_mountR2Storage := fun _ => next (fun a => match a with AMount r => Some r | _ => None end);
     rt_listProcesses := next (fun a => match a with AList r => Some r | _ => None end);
     rt_waitForPort := fun _ _ _ => next (fun a => match a with AWait r => Some r | _ => None end);
     rt_containerFetch := fun _ _ => next (fun a => match a with AFetch r => Some r | _ => None end);
     rt_kill := fun _ => next (fun a => match a with AKill r => Some r | _ => None end);
     rt_startProcess := fun _ _ => next (fun a => match a with AStart r => Some r | _ => None end);
     rt_getLogs := fun _ => next (fun a => match a with ALogs r => Some r | _ => None end) |}.

Definition lowerAscii (c : ascii) : ascii :=
  let n := nat_of_ascii c in
  if ((65 <=? n) && (n <=? 90))%nat then ascii_of_nat (n + 32) else c.

Fixpoint lowerString (s : string) : string :=
  match s with
  | EmptyString => EmptyString
  | String c rest => String (lowerAscii c) (lowerString rest)
  end.

(** Built-ins that are enough for the requests below: ASCII header
    values, thrown values that are [Error] objects, readable bodies,
    and request URLs of the form [https://example.com/...] without a
    query string. *)
Definition builtins : Builtins :=
  {| toLowerCase := lowerString;
     instanceofError := fun _ => true;
     responseText := fun r => Ok (resp_body r);
     urlToString := fun u => u;
     urlWithToken := fun u t => (u ++ "?token=" ++ t)%string;
     urlPathname := fun u => String.substring 19 (String.length u) u |}.

(** A background task that leaves the sandbox alone. *)
Definition quiet : Interleaving World := {| interleave := fun w => w |}.

Definition env : Worker.MoltbotEnv :=
  Worker.mkEnv (Some "S") (Some "team") (Some "aud") None None (Some "sk-ant") None.

Definition pageRequest : Routes.Request :=
  Routes.mkRequest "https://example.com/chat" None (Some "text/html,application/xhtml+xml").

Definition apiRequest : Routes.Request :=
  Routes.mkRequest "https://example.com/api/x" None (Some "application/json").

(** The existing gateway is stuck: its port never opens, and after its
    kill it is still listed, so the cleanup kills it once more. *)
Definition stuckScript : World :=
  [AMount (Ok true); AList (Ok [p0]); AWait (Throw (mkError "waitForPort timed out"));
   AKill (Ok tt); AList (Ok [p0]); AKill (Ok tt); AStart (Ok p1); AWait (Ok tt);
   ALogs (Ok (mkLogs "ready" "")); AFetch (Ok (mkResponse 200 "ok"))].

(** A page request served by a running, verified gateway. *)
Definition proxiedScript : World :=
  [AList (Ok [p0]); AMount (Ok true); AList (Ok [p0]); AWait (Ok tt);
   AFetch (Ok (mkResponse 401 "unauthorized"));
   AFetch (Ok (mkResponse 200 "<html>chat</html>"))].

(** An API request while no gateway runs, and the start fails. *)
Definition startFailsScript : World :=
  [AList (Ok []); AMount (Ok true); AList (Ok []); AList (Ok []);
   AStart (Throw (mkError "container OOM killed"))].

(** [/api/status]: the gateway answers, but its body names a token
    problem. *)
Definition statusTokenScript : World :=
  [AList (Ok [p0]); AList (Ok [p0]); AWait (Ok tt);
   AFetch (Ok (mkResponse 200 "unauthorized: gateway token missing")); AKill (Ok tt)].

(** [/api/status]: the port of the gateway does not open. *)
Definition statusSilentScript : World :=
  [AList (Ok [p0]); AList (Ok [p0]); AWait (Throw (mkError "waitForPort timed out"));
   ALogs (Ok (mkLogs "booting" "warn: slow disk"))].

(** [/api/status]: nothing is running. *)
Definition statusEmptyScript : World :=
  [AList (Ok []); AList (Ok [])].

Definition connectFrameStringParams : string :=
  js "{'type':'req','method':'connect','params':'abc'}".

End RouteScenarios.

(** * Results *)

(** ** Strings *)

Lemma prefix_append (p s : string) :
  String.prefix p s = true <-> exists after, s = (p ++ after)%string.
Proof.
  revert s; induction p as [|c p IH]; intros s.
  - split; [intros _; exists s; reflexivity | now destruct s].
  - destruct s as [|d s]; simpl.
    + split; [discriminate | intros [a H]; discriminate].
    + destruct (ascii_dec c d) as [->|Hne].
      * rewrite IH. split; intros [a H]; exists a.
        -- simpl. now rewrite H.
        -- simpl in H. now inversion H.
      * split; [discriminate|].
        intros [a H]. simpl in H. inversion H. congruence.
Qed.

Lemma includes_spec (s pat : string) :
  JsString.includes s pat = true <-> Includes s pat.
Proof.
  unfold Includes.
  induction s as [|c s IH]; cbn [JsString.includes].
  - destruct (String.prefix pat "") eqn:Hp.
    + split; [intros _|reflexivity].
      apply prefix_append in Hp. destruct Hp as [a Ha].
      exists ""%string, a. exact Ha.
    + split; [discriminate|].
      intros (b & a & H). destruct b; [|discriminate].
      simpl in H.
      assert (String.prefix pat "" = true) by (apply prefix_append; eauto).
      congruence.
  - destruct (String.prefix pat (String c s)) eqn:Hp.
    + split; [intros _|reflexivity].
      apply prefix_append in Hp. destruct Hp as [a Ha].
      exists ""%string, a. exact Ha.
    + rewrite IH. split.
      * intros (b & a & H). exists (String c b), a. simpl. now rewrite H.
      * intros (b & a & H). destruct b as [|c' b].
        -- simpl in H.
           assert (String.prefix pat (String c s) = true)
             by (apply prefix_append; eauto).
           congruence.
        -- simpl in H. inversion H. eauto.
Qed.

Lemma includes_false (s pat : string) :
  JsString.includes s pat = false <-> ~ Includes s pat.
Proof.
  rewrite <- includes_spec. destruct (JsString.includes s pat); split; congruence.
Qed.

Lemma slice0_length (n : nat) (s : string) :
  String.length (JsString.slice0 n s) <= n.
Proof.
  unfold JsString.slice0. revert s.
  induction n as [|n IH]; intros [|c s]; simpl; auto with arith.
Qed.

Lemma append_length (a b : string) :
  String.length (a ++ b) = String.length a + String.length b.
Proof. induction a; simpl; congruence. Qed.

Local Open Scope list_scope.

(** ** Discovery *)

Lemma isGatewayEntry_spec (p : Process) :
  Discovery.isGatewayProcess p && negb (Discovery.isCliCommand p)
  && Discovery.isLive p = true
  <-> IsGatewayEntry p.
Proof.
  unfold Discovery.isGatewayProcess, Discovery.isCliCommand, Discovery.isLive,
    IsGatewayEntry.
  rewrite !andb_true_iff, negb_true_iff, !orb_true_iff, orb_false_iff.
  rewrite !includes_spec, !includes_false.
  destruct (proc_status p); simpl; intuition congruence.
Qed.

Lemma firstGateway_some (processes : list Process) (p : Process) :
  Discovery.firstGateway processes = Some p ->
  exists before after,
    processes = before ++ p :: after
    /\ IsGatewayEntry p
    /\ Forall (fun q => ~ IsGatewayEntry q) before.
Proof.
  induction processes as [|q rest IH]; simpl; [discriminate|].
  intros H.
  destruct (Discovery.isGatewayProcess q && negb (Discovery.isCliCommand q)) eqn:Hg;
    [destruct (Discovery.isLive q) eqn:Hl|].
  - inversion H; subst q. exists [], rest.
    split; [reflexivity|split; [|constructor]].
    apply isGatewayEntry_spec. now rewrite Hg, Hl.
  - destruct (IH H) as (b & a & -> & Hp & Hb).
    exists (q :: b), a.
    split; [reflexivity|split; [exact Hp|constructor; [|exact Hb]]].
    rewrite <- isGatewayEntry_spec, Hg, Hl. discriminate.
  - destruct (IH H) as (b & a & -> & Hp & Hb).
    exists (q :: b), a.
    split; [reflexivity|split; [exact Hp|constructor; [|exact Hb]]].
    rewrite <- isGatewayEntry_spec, Hg. discriminate.
Qed.

Lemma firstGateway_none (processes : list Process) :
  Discovery.firstGateway processes = None ->
  Forall (fun q => ~ IsGatewayEntry q) processes.
Proof.
  induction processes as [|q rest IH]; simpl; intros H; constructor.
  - rewrite <- isGatewayEntry_spec.
    destruct (Discovery.isGatewayProcess q && negb (Discovery.isCliCommand q));
      [destruct (Discovery.isLive q)|]; simpl; congruence.
  - apply IH.
    destruct (Discovery.isGatewayProcess q && negb (Discovery.isCliCommand q));
      [destruct (Discovery.isLive q)|]; simpl; congruence.
Qed.

(** ** The supervisor monad: calls only ever add to the log *)

Lemma events_since_app {W : Type} (s s' : State W) (evs : list Event) :
  events s' = events s ++ evs -> events_since s s' = evs.
Proof.
  unfold events_since. intros ->.
  rewrite skipn_app, skipn_all, Nat.sub_diag. reflexivity.
Qed.

Section MonadFacts.
Context {W : Type}.
Import Sup.

Lemma call_events {A : Type} (h : W -> Result A * W) (ev : Result A -> Event)
      (s : State W) (r : Result A) (s' : State W) :
  call h ev s = (r, s') -> events s' = events s ++ [ev r].
Proof.
  unfold call. destruct (h (world s)) as [r0 w']. intros H.
  inversion H; subst. reflexivity.
Qed.

Lemma extends_ret {A : Type} (a : A) : Extends (ret (W := W) a).
Proof.
  intros s r s' H. inversion H; subst. exists []. now rewrite app_nil_r.
Qed.

Lemma extends_throw {A : Type} (e : JsError) : Extends (throw (W := W) (A := A) e).
Proof.
  intros s r s' H. inversion H; subst. exists []. now rewrite app_nil_r.
Qed.

Lemma extends_call {A : Type} (h : W -> Result A * W) (ev : Result A -> Event) :
  Extends (call h ev).
Proof. intros s r s' H. exists [ev r]. eapply call_events; eauto. Qed.

Lemma extends_bind {A B : Type} (m : M W A) (k : A -> M W B) :
  Extends m -> (forall a, Extends (k a)) -> Extends (bind m k).
Proof.
  intros Hm Hk s r s'. unfold bind.
  destruct (m s) as [[a|e] s1] eqn:E; intros H.
  - destruct (Hm _ _ _ E) as [e1 H1]. destruct (Hk a _ _ _ H) as [e2 H2].
    exists (e1 ++ e2). now rewrite H2, H1, app_assoc.
  - inversion H; subst. eauto.
Qed.

Lemma extends_try_catch {A : Type} (m : M W A) (h : JsError -> M W A) :
  Extends m -> (forall e, Extends (h e)) -> Extends (try_catch m h).
Proof.
  intros Hm Hh s r s'. unfold try_catch.
  destruct (m s) as [[a|e] s1] eqn:E; intros H.
  - inversion H; subst. eauto.
  - destruct (Hm _ _ _ E) as [e1 H1]. destruct (Hh e _ _ _ H) as [e2 H2].
    exists (e1 ++ e2). now rewrite H2, H1, app_assoc.
Qed.

Lemma extends_for_of {A : Type} (xs : list A) (body : A -> M W unit) :
  (forall x, Extends (body x)) -> Extends (for_of xs body).
Proof.
  intros Hb. induction xs as [|x xs IH]; simpl.
  - apply extends_ret.
  - apply extends_bind; auto.
Qed.

Lemma extends_if {A : Type} (b : bool) (m1 m2 : M W A) :
  Extends m1 -> Extends m2 -> Extends (if b then m1 else m2).
Proof. now destruct b. Qed.

End MonadFacts.

Create HintDb extends discriminated.
#[export] Hint Resolve extends_ret extends_throw extends_call extends_bind
  extends_try_catch extends_for_of extends_if : extends.

Ltac extends :=
  repeat first
    [ apply extends_ret | apply extends_throw | apply extends_call
    | apply extends_bind | apply extends_try_catch | apply extends_for_of
    | apply extends_if | intro
    | match goal with |- Extends (match ?x with _ => _ end) => destruct x end ].

(** ** The phases of [ensureMoltbotGateway] *)

Section GatewayFacts.
Context {W Env : Type} {rt : Runtime W Env}.
Import Sup Gateway.

Lemma killStaleProcesses_extends : Extends killStaleProcesses.
Proof. unfold killStaleProcesses, listProcesses, kill. extends. Qed.

Lemma launchGateway_extends (env : Env) : Extends (launchGateway env).
Proof.
  unfold launchGateway, probeOverlay, startProcess, waitForPort, getLogs,
    containerFetch.
  extends.
Qed.

(** The cleanup never throws. *)
Lemma killStaleProcesses_ok (s : State W) :
  exists s', killStaleProcesses s = (Ok tt, s').
Proof.
  unfold killStaleProcesses, try_catch.
  match goal with |- context [match ?m s with _ => _ end] =>
    destruct (m s) as [[[]|e] s1] end; unfold ret; eauto.
Qed.

(** How the [if (existingProcess)] block can end. *)
Lemma verifyExisting_cases (p : Process) (s : State W) :
  (exists s1 resp s2,
      waitForPort p MOLTBOT_PORT STARTUP_TIMEOUT_MS s = (Ok tt, s1)
      /\ containerFetch healthUrl MOLTBOT_PORT s1 = (Ok resp, s2)
      /\ resp_status resp <> 500%Z
      /\ verifyExisting p s = (Ok (Some p), s2))
  \/ (exists e s1 rk s2,
      waitForPort p MOLTBOT_PORT STARTUP_TIMEOUT_MS s = (Throw e, s1)
      /\ kill p s1 = (rk, s2)
      /\ verifyExisting p s = (Ok None, s2))
  \/ (exists s1 s2 rk s3,
      waitForPort p MOLTBOT_PORT STARTUP_TIMEOUT_MS s = (Ok tt, s1)
      /\ ProbeUnreachable s1 s2
      /\ kill p s2 = (rk, s3)
      /\ verifyExisting p s = (Ok None, s3)).
Proof.
  unfold verifyExisting, probeOverlay, killBestEffort, ProbeUnreachable.
  cbv [bind try_catch ret throw].
  destruct (waitForPort p MOLTBOT_PORT STARTUP_TIMEOUT_MS s) as [[[]|e] s1] eqn:Hw.
  - destruct (containerFetch healthUrl MOLTBOT_PORT s1) as [[resp|e] s2] eqn:Hf.
    + destruct (resp_status resp =? 500)%Z eqn:E.
      * apply Z.eqb_eq in E. right; right.
        destruct (kill p s2) as [[[]|ek] s3] eqn:K;
          exists s1, s2; eexists; exists s3; eauto 10.
      * apply Z.eqb_neq in E. left. exists s1, resp, s2. auto.
    + right; right.
      destruct (kill p s2) as [[[]|ek] s3] eqn:K;
        exists s1, s2; eexists; exists s3; eauto 10.
  - right; left.
    destruct (kill p s1) as [[[]|ek] s2] eqn:K;
      exists e, s1; eexists; exists s2; eauto.
Qed.

Lemma mountR2Storage_events env (s : State W) r s' :
  mountR2Storage env s = (r, s') -> events s' = events s ++ [EvMountR2 r].
Proof. apply call_events. Qed.

Lemma listProcesses_events (s : State W) r s' :
  listProcesses s = (r, s') -> events s' = events s ++ [EvListProcesses r].
Proof. apply call_events. Qed.

Lemma waitForPort_events p port t (s : State W) r s' :
  waitForPort p port t s = (r, s') ->
  events s' = events s ++ [EvWaitForPort p port t r].
Proof. apply call_events. Qed.

Lemma containerFetch_events url port (s : State W) r s' :
  containerFetch url port s = (r, s') ->
  events s' = events s ++ [EvContainerFetch url port r].
Proof. apply call_events. Qed.

Lemma kill_events p (s : State W) r s' :
  kill p s = (r, s') -> events s' = events s ++ [EvKill p r].
Proof. apply call_events. Qed.

Lemma startProcess_events cmd env (s : State W) r s' :
  startProcess cmd env s = (r, s') ->
  events s' = events s ++ [EvStartProcess cmd env r].
Proof. apply call_events. Qed.

Lemma getLogs_events p (s : State W) r s' :
  getLogs p s = (r, s') -> events s' = events s ++ [EvGetLogs p r].
Proof. apply call_events. Qed.

(** The decision tree of the launch, call by call. *)
Lemma launchGateway_cases (env : Env) (s : State W) :
  exists rs s1,
    startProcess command (launchEnv env) s = (rs, s1)
    /\ match rs with
       | Throw e => launchGateway env s = (Throw e, s1)
       | Ok q =>
         exists rw s2,
           waitForPort q MOLTBOT_PORT STARTUP_TIMEOUT_MS s1 = (rw, s2)
           /\ exists rl s3,
               getLogs q s2 = (rl, s3)
               /\ match rw, rl with
                  | Throw e, _ => launchGateway env s = (Throw e, s3)
                  | Ok _, Throw e =>
                      exists rl2 s4,
                        getLogs q s3 = (rl2, s4)
                        /\ launchGateway env s = (Throw e, s4)
                  | Ok _, Ok logs =>
                      exists rf s4,
                        containerFetch healthUrl MOLTBOT_PORT s3 = (rf, s4)
                        /\ match rf with
                           | Ok resp =>
                               if (resp_status resp =? 500)%Z
                               then launchGateway env s = (Throw startedButUnreachable, s4)
                               else launchGateway env s = (Ok q, s4)
                           | Throw _ =>
                               launchGateway env s = (Throw startedButUnreachable, s4)
                           end
                  end
       end.
Proof.
  unfold launchGateway, probeOverlay, launchEnv, startedButUnreachable.
  cbv [bind try_catch ret throw].
  destruct (startProcess command _ s) as [[q|e] s1] eqn:Hs;
    do 2 eexists; (split; [reflexivity|]); cbv beta iota; [|reflexivity].
  destruct (waitForPort q MOLTBOT_PORT STARTUP_TIMEOUT_MS s1) as [[[]|e] s2] eqn:Hw;
    do 2 eexists; (split; [reflexivity|]);
    destruct (getLogs q s2) as [[logs|e'] s3] eqn:Hl;
    do 2 eexists; (split; [reflexivity|]); cbv beta iota; try reflexivity.
  - destruct (containerFetch healthUrl MOLTBOT_PORT s3) as [[resp|e] s4] eqn:Hf;
      do 2 eexists; (split; [reflexivity|]); cbv beta iota; [|reflexivity].
    destruct (resp_status resp =? 500)%Z; reflexivity.
  - destruct (getLogs q s3) as [[logs|e2] s4] eqn:Hl2;
      do 2 eexists; split; reflexivity.
Qed.

End GatewayFacts.

Ltac events_of H :=
  let E := fresh "E" in
  lazymatch type of H with
  | Gateway.waitForPort _ _ _ _ = _ => pose proof (waitForPort_events _ _ _ _ _ _ H) as E
  | Gateway.kill _ _ = _ => pose proof (kill_events _ _ _ _ H) as E
  | Gateway.containerFetch _ _ _ = _ => pose proof (containerFetch_events _ _ _ _ _ H) as E
  | Gateway.getLogs _ _ = _ => pose proof (getLogs_events _ _ _ _ H) as E
  | Gateway.startProcess _ _ _ = _ => pose proof (startProcess_events _ _ _ _ _ H) as E
  | Gateway.listProcesses _ = _ => pose proof (listProcesses_events _ _ _ H) as E
  | Gateway.mountR2Storage _ _ = _ => pose proof (mountR2Storage_events _ _ _ _ H) as E
  end.

Section GatewayResults.
Context {W Env : Type} {rt : Runtime W Env}.
Import Sup Gateway.

(** What a launch adds to the log starts with the [startProcess]
    call, and a launch that returns a process returns the one that
    call gave. *)
Lemma launchGateway_starts (env : Env) (s : State W) :
  exists rs s1 evs,
    startProcess command (launchEnv env) s = (rs, s1)
    /\ events (snd (launchGateway env s)) = events s1 ++ evs
    /\ forall q, fst (launchGateway env s) = Ok q -> rs = Ok q.
Proof.
  destruct (launchGateway_cases env s) as (rs & s1 & Hs & H).
  exists rs, s1. destruct rs as [q|e].
  - destruct H as (rw & s2 & Hw & rl & s3 & Hl & H).
    events_of Hw. events_of Hl.
    destruct rw as [[]|e]; [destruct rl as [logs|e]|].
    + destruct H as (rf & s4 & Hf & H). events_of Hf.
      eexists; split; [exact Hs|].
      destruct rf as [resp|e]; [destruct (resp_status resp =? 500)%Z|];
        rewrite H; simpl; (split; [|congruence]);
        rewrite E1, E0, E, <- !app_assoc; reflexivity.
    + destruct H as (rl2 & s4 & Hl2 & H). events_of Hl2.
      eexists; split; [exact Hs|].
      rewrite H; simpl; (split; [|congruence]).
      rewrite E1, E0, E, <- !app_assoc; reflexivity.
    + eexists; split; [exact Hs|].
      rewrite H; simpl; (split; [|congruence]).
      rewrite E0, E, <- !app_assoc; reflexivity.
  - exists []. rewrite H; simpl. rewrite app_nil_r.
    repeat split; auto; congruence.
Qed.

(** A launch that returns a process has waited for its port, read
    its logs and probed the overlay network, all with success. *)
Lemma launchGateway_returns (env : Env) (s : State W) (q : Process) (s' : State W) :
  launchGateway env s = (Ok q, s') ->
  exists s1 s2 logs s3 resp,
    startProcess command (launchEnv env) s = (Ok q, s1)
    /\ waitForPort q MOLTBOT_PORT STARTUP_TIMEOUT_MS s1 = (Ok tt, s2)
    /\ getLogs q s2 = (Ok logs, s3)
    /\ containerFetch healthUrl MOLTBOT_PORT s3 = (Ok resp, s')
    /\ resp_status resp <> 500%Z.
Proof.
  intros HL.
  destruct (launchGateway_cases env s) as (rs & s1 & Hs & H).
  destruct rs as [q0|e]; [|congruence].
  destruct H as (rw & s2 & Hw & rl & s3 & Hl & H).
  destruct rw as [[]|e]; [|congruence].
  destruct rl as [logs|e].
  - destruct H as (rf & s4 & Hf & H).
    destruct rf as [resp|e]; [|congruence].
    destruct (resp_status resp =? 500)%Z eqn:E; [congruence|].
    apply Z.eqb_neq in E.
    rewrite H in HL. inversion HL; subst.
    exists s1, s2, logs, s3, resp. auto.
  - destruct H as (rl2 & s4 & Hl2 & H). congruence.
Qed.

(** Running [ensureMoltbotGateway] once discovery has found [p]. *)
Lemma ensure_after_discovery (env : Env) (s0 s1 s2 : State W)
      (mounted : bool) (p : Process) :
  mountR2Storage env s0 = (Ok mounted, s1) ->
  findExistingMoltbotProcess s1 = (Ok (Some p), s2) ->
  reuseExisting env s0 = verifyExisting p s2.
Proof.
  intros Hm Hf. unfold reuseExisting. cbv [bind]. now rewrite Hm, Hf.
Qed.

Lemma ensure_of_reuse_none (env : Env) (s0 sK : State W) :
  reuseExisting env s0 = (Ok None, sK) ->
  ensureMoltbotGateway env s0
  = (killStaleProcesses ;; launchGateway env)%sup sK.
Proof. intros H. unfold ensureMoltbotGateway. cbv [bind]. now rewrite H. Qed.

Lemma ensure_of_reuse_some (env : Env) (s0 s' : State W) (p : Process) :
  reuseExisting env s0 = (Ok (Some p), s') ->
  ensureMoltbotGateway env s0 = (Ok p, s').
Proof. intros H. unfold ensureMoltbotGateway. cbv [bind ret]. now rewrite H. Qed.

Lemma ensure_at_launch (env : Env) (s0 sL : State W) :
  ReachesLaunch env s0 sL ->
  ensureMoltbotGateway env s0 = launchGateway env sL.
Proof.
  intros (sK & Hr & Hk). rewrite (ensure_of_reuse_none _ _ _ Hr).
  cbv [bind]. now rewrite Hk.
Qed.

(** When the discovered process is not verified, it is killed and
    the call goes on to the launch. *)
Lemma unverified_is_killed (p : Process) (s : State W) :
  ~ Verified p s ->
  exists pre rk sK,
    verifyExisting p s = (Ok None, sK)
    /\ events sK = events s ++ pre ++ [EvKill p rk].
Proof.
  intros NV.
  destruct (verifyExisting_cases p s)
    as [(s1 & resp & s2 & Hw & Hf & Hne & _)
       |[(e & s1 & rk & s2 & Hw & Hk & H)
        |(s1 & s2 & rk & s3 & Hw & Hp & Hk & H)]].
  - exfalso. apply NV. exists s1, resp, s2.
    split; [exact Hw|split; [exact Hf|exact Hne]].
  - events_of Hw. events_of Hk.
    exists [EvWaitForPort p MOLTBOT_PORT STARTUP_TIMEOUT_MS (Throw e)].
    exists rk. exists s2.
    split; [exact H|]. rewrite E0, E, <- app_assoc. reflexivity.
  - events_of Hw. events_of Hk.
    destruct Hp as [(resp & Hf & _)|(err & Hf)]; events_of Hf.
    + exists [EvWaitForPort p MOLTBOT_PORT STARTUP_TIMEOUT_MS (Ok tt);
              EvContainerFetch healthUrl MOLTBOT_PORT (Ok resp)].
      exists rk. exists s3. split; [exact H|].
      rewrite E0, E1, E, <- !app_assoc. reflexivity.
    + exists [EvWaitForPort p MOLTBOT_PORT STARTUP_TIMEOUT_MS (Ok tt);
              EvContainerFetch healthUrl MOLTBOT_PORT (Throw err)].
      exists rk. exists s3. split; [exact H|].
      rewrite E0, E1, E, <- !app_assoc. reflexivity.
Qed.

End GatewayResults.

Section EnsureResults.
Context {W Env : Type} {rt : Runtime W Env}.
Import Sup Gateway.

(** After the discovered process has been given up: the cleanup,
    then the [startProcess] call, then the rest of the launch. *)
Lemma relaunch_trace (env : Env) (sK : State W) :
  exists sL evK rs evs,
    killStaleProcesses sK = (Ok tt, sL)
    /\ (killStaleProcesses ;; launchGateway env)%sup sK = launchGateway env sL
    /\ events (snd (launchGateway env sL))
       = events sK ++ evK ++ [EvStartProcess command (launchEnv env) rs] ++ evs
    /\ forall q, fst (launchGateway env sL) = Ok q -> rs = Ok q.
Proof.
  destruct (killStaleProcesses_ok sK) as [sL HK].
  destruct (killStaleProcesses_extends _ _ _ HK) as [evK EK].
  destruct (launchGateway_starts env sL) as (rs & sS & evs & HS & EL & HQ).
  events_of HS.
  exists sL, evK, rs, evs.
  split; [exact HK|]. split; [cbv [bind]; now rewrite HK|].
  split; [|exact HQ].
  rewrite EL, E, EK, <- !app_assoc. reflexivity.
Qed.

Lemma verified_excludes (p : Process) (s : State W) :
  Verified p s ->
  forall sK, verifyExisting p s <> (Ok None, sK).
Proof.
  intros (s1 & resp & s2 & Hw & Hf & Hne) sK.
  destruct (verifyExisting_cases p s)
    as [(s1' & resp' & s2' & _ & _ & _ & H)
       |[(e & s1' & rk & s2' & Hw' & _ & H)
        |(s1' & s2' & rk & s3 & Hw' & Hp & _ & H)]].
  - rewrite H. discriminate.
  - rewrite Hw in Hw'. discriminate.
  - rewrite Hw in Hw'. inversion Hw'; subst s1'.
    destruct Hp as [(resp' & Hf' & E)|(err & Hf')]; rewrite Hf in Hf'.
    + inversion Hf'; subst. contradiction.
    + discriminate.
Qed.

Lemma verified_dec (p : Process) (s : State W) :
  Verified p s \/ ~ Verified p s.
Proof.
  destruct (verifyExisting_cases p s)
    as [(s1 & resp & s2 & Hw & Hf & Hne & H)
       |[(e & s1 & rk & s2 & Hw & _ & H)
        |(s1 & s2 & rk & s3 & Hw & Hp & _ & H)]].
  - left. exists s1, resp, s2. split; [exact Hw|split; [exact Hf|exact Hne]].
  - right. intros V. exact (verified_excludes _ _ V _ H).
  - right. intros V. exact (verified_excludes _ _ V _ H).
Qed.

Lemma verified_returns (p : Process) (s : State W) :
  Verified p s ->
  exists resp s2,
    verifyExisting p s = (Ok (Some p), s2)
    /\ resp_status resp <> 500%Z
    /\ events s2 = events s ++ [EvWaitForPort p MOLTBOT_PORT STARTUP_TIMEOUT_MS (Ok tt);
                                EvContainerFetch healthUrl MOLTBOT_PORT (Ok resp)].
Proof.
  intros V.
  destruct (verifyExisting_cases p s)
    as [(s1 & resp & s2 & Hw & Hf & Hne & H)
       |[(e & s1 & rk & s2 & Hw & _ & H)
        |(s1 & s2 & rk & s3 & Hw & Hp & _ & H)]].
  - events_of Hw. events_of Hf. exists resp. exists s2.
    split; [exact H|]. split; [exact Hne|].
    rewrite E0, E, <- app_assoc. reflexivity.
  - exfalso. exact (verified_excludes _ _ V _ H).
  - exfalso. exact (verified_excludes _ _ V _ H).
Qed.

(** An early return hands back the discovered process, verified. *)
Lemma reuseExisting_some (env : Env) (s0 s' : State W) (q : Process) :
  reuseExisting env s0 = (Ok (Some q), s') ->
  exists s2, Verified q s2 /\ verifyExisting q s2 = (Ok (Some q), s').
Proof.
  unfold reuseExisting. cbv [bind ret].
  destruct (mountR2Storage env s0) as [[m|e] s1]; [|discriminate].
  destruct (findExistingMoltbotProcess s1) as [[[p|]|e] s2]; try discriminate.
  intros H. exists s2.
  destruct (verifyExisting_cases p s2)
    as [(s1' & resp & s2' & Hw & Hf & Hne & H')
       |[(e & s1' & rk & s2' & Hw & _ & H')
        |(s1' & s2' & rk & s3 & Hw & Hp & _ & H')]];
    rewrite H' in H; inversion H; subst.
  split; [|exact H'].
  exists s1', resp, s'. split; [exact Hw|split; [exact Hf|exact Hne]].
Qed.

(** C1.  Once discovery has found a process [p]:
    [ensureMoltbotGateway] returns [p], without having killed it, if
    and only if the TCP wait for its port succeeds within the startup
    timeout and the overlay probe then completes with a status other
    than 500 (any such status, a 4xx included).  In that case the
    call does nothing more than the wait and the probe.  Otherwise,
    on a TCP timeout, a 500 or a failed probe, [p] is killed, a
    [startProcess] follows, and a process the call returns is the one
    that launch produced. *)
Theorem existing_returned_iff_verified
        (env : Env) (s0 s1 s2 : State W) (mounted : bool) (p : Process) :
  mountR2Storage env s0 = (Ok mounted, s1) ->
  findExistingMoltbotProcess s1 = (Ok (Some p), s2) ->
  let out := ensureMoltbotGateway env s0 in
  let added := events_since s2 (snd out) in
  (Verified p s2 <-> fst out = Ok p /\ forall rk, ~ In (EvKill p rk) added)
  /\ (Verified p s2 ->
      exists resp,
        resp_status resp <> 500%Z
        /\ added = [EvWaitForPort p MOLTBOT_PORT STARTUP_TIMEOUT_MS (Ok tt);
                    EvContainerFetch healthUrl MOLTBOT_PORT (Ok resp)])
  /\ (~ Verified p s2 ->
      exists pre rk post rs,
        added = pre ++ EvKill p rk :: post
        /\ In (EvStartProcess command (launchEnv env) rs) post
        /\ forall q, fst out = Ok q -> rs = Ok q).
Proof.
  intros Hm Hf out added.
  pose proof (ensure_after_discovery env s0 s1 s2 mounted p Hm Hf) as HR.
  assert (HV : Verified p s2 ->
               exists resp,
                 fst out = Ok p /\ resp_status resp <> 500%Z
                 /\ added = [EvWaitForPort p MOLTBOT_PORT STARTUP_TIMEOUT_MS (Ok tt);
                             EvContainerFetch healthUrl MOLTBOT_PORT (Ok resp)]).
  { intros V. destruct (verified_returns p s2 V) as (resp & s4 & H & Hne & E).
    rewrite <- HR in H. exists resp.
    unfold added, out. rewrite (ensure_of_reuse_some _ _ _ _ H). simpl.
    split; [reflexivity|]. split; [exact Hne|].
    apply events_since_app. exact E. }
  assert (HN : ~ Verified p s2 ->
               exists pre rk post rs,
                 added = pre ++ EvKill p rk :: post
                 /\ In (EvStartProcess command (launchEnv env) rs) post
                 /\ forall q, fst out = Ok q -> rs = Ok q).
  { intros NV. destruct (unverified_is_killed p s2 NV) as (pre & rk & sK & H & E).
    rewrite <- HR in H.
    destruct (relaunch_trace env sK) as (sL & evK & rs & evs & HK & HE & EL & HQ).
    exists pre, rk, (evK ++ [EvStartProcess command (launchEnv env) rs] ++ evs), rs.
    unfold added, out. rewrite (ensure_of_reuse_none _ _ _ H), HE.
    split; [|split; [|exact HQ]].
    - apply events_since_app. rewrite EL, E, <- !app_assoc. reflexivity.
    - apply in_or_app. right. left. reflexivity. }
  split; [|split; [|exact HN]].
  - split.
    + intros V. destruct (HV V) as (resp & Ho & _ & Ea).
      split; [exact Ho|]. intros rk. rewrite Ea.
      intros [C|[C|[]]]; discriminate.
    + intros [Ho Hk]. destruct (verified_dec p s2) as [V|NV]; [exact V|].
      exfalso. destruct (HN NV) as (pre & rk & post & rs & Ea & _).
      apply (Hk rk). rewrite Ea. apply in_or_app. right. left. reflexivity.
  - intros V. destruct (HV V) as (resp & _ & Hne & Ea). exists resp. auto.
Qed.

End EnsureResults.

Section SupervisorClaims.
Context {W Env : Type} {rt : Runtime W Env}.
Import Sup Gateway.

(** C8.  When the listing succeeds, [findExistingMoltbotProcess]
    returns a process if and only if the list has an entry whose
    command matches a gateway launch pattern, matches neither CLI
    pattern, and whose status is [starting] or [running]; what it
    returns is the first such entry.  When the listing throws, it
    returns [null] instead of throwing, and [ensureMoltbotGateway]
    carries on with the cleanup and the launch. *)
Theorem findExisting_iff_gateway_entry (s : State W) :
  (forall processes s',
      listProcesses s = (Ok processes, s') ->
      exists found,
        findExistingMoltbotProcess s = (Ok found, s')
        /\ ((exists p, found = Some p)
            <-> exists q, In q processes /\ IsGatewayEntry q)
        /\ forall p, found = Some p ->
             exists before after,
               processes = before ++ p :: after
               /\ IsGatewayEntry p
               /\ Forall (fun q => ~ IsGatewayEntry q) before)
  /\ (forall e s',
        listProcesses s = (Throw e, s') ->
        findExistingMoltbotProcess s = (Ok None, s')
        /\ forall env s0 mounted,
             mountR2Storage env s0 = (Ok mounted, s) ->
             ensureMoltbotGateway env s0
             = (killStaleProcesses ;; launchGateway env)%sup s').
Proof.
  split.
  - intros processes s' HL.
    exists (Discovery.firstGateway processes).
    split; [unfold findExistingMoltbotProcess; cbv [bind try_catch ret];
            now rewrite HL|].
    split.
    + split.
      * intros [p Hp].
        destruct (firstGateway_some _ _ Hp) as (b & a & -> & HG & _).
        exists p. split; [|exact HG].
        apply in_or_app. right. left. reflexivity.
      * intros (q & Hin & HG).
        destruct (Discovery.firstGateway processes) as [p|] eqn:E; [eauto|].
        exfalso. pose proof (firstGateway_none _ E) as HF.
        rewrite Forall_forall in HF. exact (HF q Hin HG).
    + intros p Hp. exact (firstGateway_some _ _ Hp).
  - intros e s' HL.
    assert (HF : findExistingMoltbotProcess s = (Ok None, s')).
    { unfold findExistingMoltbotProcess. cbv [bind try_catch ret].
      now rewrite HL. }
    split; [exact HF|].
    intros env s0 mounted Hm.
    apply ensure_of_reuse_none.
    unfold reuseExisting. cbv [bind ret]. now rewrite Hm, HF.
Qed.

(** C2.  A process whose overlay probe reported it unreachable is
    never handed back.  For a discovered process whose port is open
    but whose probe answers 500 or fails, the next call is its
    [kill], and only then does the call go on to the cleanup and the
    launch.  On the launch path, a new process whose port opened but
    whose probe answers 500 or fails makes the call throw the
    "started but not reachable" error.  And whenever the call returns
    a process at all, it has waited for that process's port with
    success and its last call was an overlay probe that completed
    with a status other than 500. *)
Theorem loopback_only_never_returned (env : Env) :
  (forall s0 s1 s2 mounted p s3 s4 rk s5,
      mountR2Storage env s0 = (Ok mounted, s1) ->
      findExistingMoltbotProcess s1 = (Ok (Some p), s2) ->
      waitForPort p MOLTBOT_PORT STARTUP_TIMEOUT_MS s2 = (Ok tt, s3) ->
      ProbeUnreachable s3 s4 ->
      kill p s4 = (rk, s5) ->
      events s5 = events s4 ++ [EvKill p rk]
      /\ ensureMoltbotGateway env s0
         = (killStaleProcesses ;; launchGateway env)%sup s5)
  /\ (forall s0 sL q s1 s2 logs s3 s4,
      ReachesLaunch env s0 sL ->
      startProcess command (launchEnv env) sL = (Ok q, s1) ->
      waitForPort q MOLTBOT_PORT STARTUP_TIMEOUT_MS s1 = (Ok tt, s2) ->
      getLogs q s2 = (Ok logs, s3) ->
      ProbeUnreachable s3 s4 ->
      ensureMoltbotGateway env s0 = (Throw startedButUnreachable, s4))
  /\ (forall s0 q s',
      ensureMoltbotGateway env s0 = (Ok q, s') ->
      exists pre mid resp,
        events s'
        = pre ++ [EvWaitForPort q MOLTBOT_PORT STARTUP_TIMEOUT_MS (Ok tt)]
              ++ mid ++ [EvContainerFetch healthUrl MOLTBOT_PORT (Ok resp)]
        /\ resp_status resp <> 500%Z
        /\ (mid = [] \/ exists logs, mid = [EvGetLogs q (Ok logs)])).
Proof.
  split; [|split].
  - intros s0 s1 s2 mounted p s3 s4 rk s5 Hm Hf Hw Hp Hk.
    split; [exact (kill_events _ _ _ _ Hk)|].
    apply ensure_of_reuse_none.
    rewrite (ensure_after_discovery env s0 s1 s2 mounted p Hm Hf).
    unfold verifyExisting, probeOverlay, killBestEffort.
    cbv [bind try_catch ret throw]. rewrite Hw.
    destruct Hp as [(resp & Hc & E)|(err & Hc)]; rewrite Hc.
    + apply Z.eqb_eq in E. rewrite E, Hk. now destruct rk.
    + rewrite Hk. now destruct rk.
  - intros s0 sL q s1 s2 logs s3 s4 HR Hs Hw Hl Hp.
    rewrite (ensure_at_launch _ _ _ HR).
    destruct (launchGateway_cases env sL) as (rs & s1' & Hs' & H).
    rewrite Hs in Hs'. inversion Hs'; subst rs s1'.
    destruct H as (rw & s2' & Hw' & rl & s3' & Hl' & H).
    rewrite Hw in Hw'. inversion Hw'; subst rw s2'.
    rewrite Hl in Hl'. inversion Hl'; subst rl s3'.
    destruct H as (rf & s4' & Hc' & H).
    destruct Hp as [(resp & Hc & E)|(err & Hc)];
      rewrite Hc in Hc'; inversion Hc'; subst rf s4'.
    + apply Z.eqb_eq in E. now rewrite E in H.
    + exact H.
  - intros s0 q s' H. unfold ensureMoltbotGateway in H. cbv [bind ret] in H.
    destruct (reuseExisting env s0) as [[[p|]|e] sK] eqn:HR; [| |discriminate].
    + inversion H; subst p sK.
      destruct (reuseExisting_some _ _ _ _ HR) as (s2 & V & HV).
      destruct (verified_returns q s2 V) as (resp & s2' & HV' & Hne & E).
      rewrite HV in HV'. inversion HV'; subst s2'.
      exists (events s2), [], resp.
      split; [exact E|]. split; [exact Hne|]. left; reflexivity.
    + destruct (killStaleProcesses sK) as [[[]|e] sL]; [|discriminate].
      destruct (launchGateway_returns _ _ _ _ H)
        as (s1 & s2 & logs & s3 & resp & Hs & Hw & Hl & Hc & Hne).
      events_of Hw. events_of Hl. events_of Hc.
      exists (events s1), [EvGetLogs q (Ok logs)], resp.
      split; [|split; [exact Hne|right; exists logs; reflexivity]].
      rewrite E1, E0, E, <- !app_assoc. reflexivity.
Qed.

(** C10.  On the launch path, when the port of the new process opens
    within the startup timeout but the [getLogs] call that follows
    throws, [ensureMoltbotGateway] throws that error (after one more
    [getLogs] attempt in the [catch]) and does not return the
    process. *)
Theorem launch_throws_when_log_fetch_fails
        (env : Env) (s0 sL : State W) (q : Process)
        (s1 s2 s3 : State W) (e : JsError) :
  ReachesLaunch env s0 sL ->
  startProcess command (launchEnv env) sL = (Ok q, s1) ->
  waitForPort q MOLTBOT_PORT STARTUP_TIMEOUT_MS s1 = (Ok tt, s2) ->
  getLogs q s2 = (Throw e, s3) ->
  exists rl s4,
    getLogs q s3 = (rl, s4)
    /\ ensureMoltbotGateway env s0 = (Throw e, s4).
Proof.
  intros HR Hs Hw Hl.
  rewrite (ensure_at_launch _ _ _ HR).
  destruct (launchGateway_cases env sL) as (rs & s1' & Hs' & H).
  rewrite Hs in Hs'. inversion Hs'; subst rs s1'.
  destruct H as (rw & s2' & Hw' & rl & s3' & Hl' & H).
  rewrite Hw in Hw'. inversion Hw'; subst rw s2'.
  rewrite Hl in Hl'. inversion Hl'; subst rl s3'.
  exact H.
Qed.

(** The launch-timeout path: when the port of the new process never
    opens, the error of [waitForPort] itself is what the call throws,
    whatever [getLogs] returns.  The error built from the captured
    stderr is thrown inside the inner [try], caught by its [catch],
    and replaced by the original one. *)
Lemma launch_timeout_rethrows_wait_error
      (env : Env) (s0 sL : State W) (q : Process)
      (s1 s2 : State W) (e : JsError) :
  ReachesLaunch env s0 sL ->
  startProcess command (launchEnv env) sL = (Ok q, s1) ->
  waitForPort q MOLTBOT_PORT STARTUP_TIMEOUT_MS s1 = (Throw e, s2) ->
  exists rl s3,
    getLogs q s2 = (rl, s3)
    /\ ensureMoltbotGateway env s0 = (Throw e, s3).
Proof.
  intros HR Hs Hw.
  rewrite (ensure_at_launch _ _ _ HR).
  destruct (launchGateway_cases env sL) as (rs & s1' & Hs' & H).
  rewrite Hs in Hs'. inversion Hs'; subst rs s1'.
  destruct H as (rw & s2' & Hw' & rl & s3' & Hl' & H).
  rewrite Hw in Hw'. inversion Hw'; subst rw s2'.
  exists rl, s3'. split; [exact Hl'|exact H].
Qed.

End SupervisorClaims.

(** ** Properties of JSON objects *)

Section JsonFacts.
Context {number : Type}.
Import Json.
Local Abbreviation props := (list (string * value number)).

Lemma lookup_set_prop_same (k : string) (v : value number) (ps : props) :
  lookup k (set_prop k v ps) = Some v.
Proof.
  induction ps as [|[k' v'] ps IH]; simpl.
  - now rewrite String.eqb_refl.
  - destruct (String.eqb k k') eqn:E; simpl.
    + now rewrite String.eqb_refl.
    + now rewrite E.
Qed.

Lemma lookup_set_prop_other (k k0 : string) (v : value number) (ps : props) :
  k0 <> k -> lookup k0 (set_prop k v ps) = lookup k0 ps.
Proof.
  intros Hne. induction ps as [|[k' v'] ps IH]; simpl.
  - apply String.eqb_neq in Hne. now rewrite Hne.
  - destruct (String.eqb k k') eqn:E; simpl.
    + apply String.eqb_eq in E; subst k'.
      apply String.eqb_neq in Hne. now rewrite Hne.
    + now rewrite IH.
Qed.

Lemma lookup_delete_prop_same (k : string) (ps : props) :
  lookup k (delete_prop k ps) = None.
Proof.
  induction ps as [|[k' v'] ps IH]; simpl; [reflexivity|].
  destruct (String.eqb k k') eqn:E; simpl; [exact IH|].
  now rewrite E.
Qed.

Lemma lookup_delete_prop_other (k k0 : string) (ps : props) :
  k0 <> k -> lookup k0 (delete_prop k ps) = lookup k0 ps.
Proof.
  intros Hne. induction ps as [|[k' v'] ps IH]; simpl; [reflexivity|].
  destruct (String.eqb k k') eqn:E; simpl.
  - apply String.eqb_eq in E; subst k'.
    apply String.eqb_neq in Hne. now rewrite Hne.
  - now rewrite IH.
Qed.

(** Writing back the value a key already has changes nothing. *)
Lemma set_prop_unchanged (k : string) (v : value number) (ps : props) :
  lookup k ps = Some v -> set_prop k v ps = ps.
Proof.
  induction ps as [|[k' v'] ps IH]; simpl; [discriminate|].
  destruct (String.eqb k k') eqn:E.
  - apply String.eqb_eq in E; subst k'. intros H. now inversion H.
  - intros H. now rewrite IH.
Qed.

(** A second write to the same key replaces the first. *)
Lemma set_prop_twice (k : string) (v1 v2 : value number) (ps : props) :
  set_prop k v2 (set_prop k v1 ps) = set_prop k v2 ps.
Proof.
  induction ps as [|[k' v'] ps IH]; simpl.
  - now rewrite String.eqb_refl.
  - destruct (String.eqb k k') eqn:E; simpl.
    + now rewrite String.eqb_refl.
    + now rewrite E, IH.
Qed.

Lemma is_string_true (lit : string) (v : option (value number)) :
  is_string lit v = true <-> v = Some (JStr lit).
Proof.
  destruct v as [[| | |s| |]|]; simpl; split; try discriminate.
  - intros H. apply String.eqb_eq in H. now subst.
  - intros H. inversion H. apply String.eqb_refl.
Qed.

End JsonFacts.

(** ** The relay *)

Section RelayFacts.
Context {number : Type} {codec : Json.Codec number}.
Import Json Relay.

Lemma bearerOnly_fields (token : string) (pprops : list (string * value number)) :
  lookup "auth" (bearerOnly token pprops) = Some (JObj [("token", JStr token)])
  /\ Forall (fun f => lookup f (bearerOnly token pprops) = None) deviceFields
  /\ forall k, k <> "auth"%string -> ~ In k deviceFields ->
               lookup k (bearerOnly token pprops) = lookup k pprops.
Proof.
  unfold bearerOnly, deviceFields. split; [apply lookup_set_prop_same|]. split.
  - repeat constructor;
      (rewrite lookup_set_prop_other by discriminate);
      repeat first [ apply lookup_delete_prop_same
                   | rewrite lookup_delete_prop_other by discriminate ].
  - intros k Ha Hd. simpl in Hd.
    rewrite lookup_set_prop_other by exact Ha.
    rewrite !lookup_delete_prop_other; intuition.
Qed.

Lemma relay_fold (cfg : RelayConfig) (evs : list RelayEvent) (acc : list WsCall) :
  fold_left (fun calls ev => calls ++ dispatch cfg ev) evs acc
  = acc ++ concat (map (dispatch cfg) evs).
Proof.
  revert acc. induction evs as [|ev evs IH]; intros acc; simpl.
  - now rewrite app_nil_r.
  - now rewrite IH, app_assoc.
Qed.

(** A connect request with an object for [params] goes out
    re-serialised, its [params] reduced to the bearer token. *)
Lemma connect_with_object_params
      (token s : string) (props pprops : list (string * value number)) :
  JsString.truthy token = true ->
  JSON_parse s = Some (JObj props) ->
  lookup "type" props = Some (JStr "req") ->
  lookup "method" props = Some (JStr "connect") ->
  lookup "params" props = Some (JObj pprops) ->
  serverWs_message (Some token) OPEN (Text s)
  = [Send containerWs
       (Text (JSON_stringify
                (JObj (set_prop "params" (JObj (bearerOnly token pprops)) props))))].
Proof.
  intros Ht Hp Hty Hm Hpa.
  unfold serverWs_message, rewriteConnect. rewrite Ht, Hp. simpl.
  rewrite Hty, Hm, Hpa. simpl.
  rewrite set_prop_twice. reflexivity.
Qed.

(** A connect request without a [params] member throws in the debug
    log and goes out as it came. *)
Lemma connect_without_params
      (token s : string) (props : list (string * value number)) :
  JSON_parse s = Some (JObj props) ->
  lookup "type" props = Some (JStr "req") ->
  lookup "method" props = Some (JStr "connect") ->
  lookup "params" props = None ->
  serverWs_message (Some token) OPEN (Text s) = [Send containerWs (Text s)].
Proof.
  intros Hp Hty Hm Hpa.
  unfold serverWs_message, rewriteConnect.
  destruct (JsString.truthy token); [|reflexivity].
  rewrite Hp. simpl. rewrite Hty, Hm, Hpa. reflexivity.
Qed.

(** With the container socket open, the client listener makes
    exactly one [send], and a frame it does not recognise as a
    connect request is sent as it came. *)
Lemma serverWs_message_open (token : option string) (d : WsData) :
  exists out,
    serverWs_message token OPEN d = [Send containerWs out]
    /\ (~ IsConnectRequest d -> out = d)
    /\ (token = None -> out = d).
Proof.
  assert (V : exists out, [Send containerWs d] = [Send containerWs out]
                          /\ (~ IsConnectRequest d -> out = d)
                          /\ (token = None -> out = d))
    by (exists d; auto).
  unfold serverWs_message.
  destruct d as [s|b]; [|exact V].
  destruct token as [tok|]; [|exact V].
  destruct (JsString.truthy tok); [|exact V].
  unfold rewriteConnect.
  destruct (JSON_parse s) as [msg|] eqn:Hp; [|exact V].
  destruct (get msg "type") as [ty|] eqn:Hty; [|exact V].
  destruct (is_string "req" ty) eqn:Ety; [|exact V]. simpl.
  destruct (get msg "method") as [me|] eqn:Hme; [|exact V].
  destruct (is_string "connect" me) eqn:Eme; [|exact V]. simpl.
  apply is_string_true in Ety, Eme. subst ty me.
  assert (C : IsConnectRequest (Text s)) by (exists s, msg; auto).
  match goal with
  | |- context [match ?a with Some x => x | None => FellThrough end] =>
      destruct a as [[calls|]|] eqn:Ha
  end; [|exact V|exact V].
  revert Ha.
  repeat match goal with
         | |- match ?x with _ => _ end = _ -> _ =>
             destruct x; try discriminate
         end.
  intros Ha. inversion Ha; subst calls. simpl.
  eexists. split; [reflexivity|]. split; [contradiction|discriminate].
Qed.

End RelayFacts.

Section RelayClaims.
Context {number : Type} {codec : Json.Codec number}.
Import Json Relay.

(** C4, as amended.  The client listener keeps no memory of earlier
    frames: with the container socket open, a run of client frames
    yields one [send] per frame, in arrival order, each being what
    the listener sends for that frame alone.  A frame that is not
    recognised as a connect request (a JSON frame of another kind, a
    string that does not parse, a binary frame) is sent as it came,
    and so is every frame when no gateway token is configured. *)
Theorem client_frames_handled_one_by_one (cfg : RelayConfig) (frames : list WsData) :
  exists outs,
    relay cfg (map (OnMessage serverWs OPEN) frames) = map (Send containerWs) outs
    /\ Forall2 (fun d out =>
                  relay cfg [OnMessage serverWs OPEN d] = [Send containerWs out]
                  /\ (~ IsConnectRequest d -> out = d)
                  /\ (gatewayToken cfg = None -> out = d))
               frames outs.
Proof.
  unfold relay. induction frames as [|d frames (outs & HR & HF)].
  - exists []. split; [reflexivity|constructor].
  - destruct (serverWs_message_open (gatewayToken cfg) d) as (out & Hs & Hn & Ht).
    exists (out :: outs). split.
    + simpl. rewrite relay_fold, Hs. simpl. f_equal.
      rewrite relay_fold in HR. exact HR.
    + constructor; [|exact HF].
      split; [simpl; rewrite Hs; reflexivity|]. split; assumption.
Qed.

(** C5.  A container frame that is a string, parses as JSON and
    carries a non-empty [error.message] text reaches the client
    re-serialised with that text passed through
    [transformErrorMessage]: a text containing "gateway token
    missing" or "gateway token mismatch" becomes the access-token
    hint, otherwise a text containing "pairing required" becomes the
    pairing hint, and any other text stays as it is, the frame then
    being the same JSON value.  A string that does not parse, a JSON
    frame without a truthy [error.message], and a binary frame pass
    through unmodified.  (All with the client socket open.) *)
Theorem backend_error_frames_rewritten (host : string) :
  (forall m,
      Includes m "gateway token missing" \/ Includes m "gateway token mismatch" ->
      transformErrorMessage m host
      = ("Invalid or missing token. Visit https://" ++ host
         ++ "?token={REPLACE_WITH_YOUR_TOKEN}")%string)
  /\ (forall m,
      ~ Includes m "gateway token missing" ->
      ~ Includes m "gateway token mismatch" ->
      (Includes m "pairing required" ->
       transformErrorMessage m host
       = ("Pairing required. Visit https://" ++ host ++ "/_admin/")%string)
      /\ (~ Includes m "pairing required" -> transformErrorMessage m host = m))
  /\ (forall s props eprops m,
      JSON_parse s = Some (JObj props) ->
      lookup "error" props = Some (JObj eprops) ->
      lookup "message" eprops = Some (JStr m) ->
      m <> ""%string ->
      containerWs_message host OPEN (Text s)
      = [Send serverWs
           (Text (JSON_stringify
                    (JObj (set_prop "error"
                             (JObj (set_prop "message"
                                      (JStr (transformErrorMessage m host)) eprops))
                             props))))]
      /\ (transformErrorMessage m host = m ->
          containerWs_message host OPEN (Text s)
          = [Send serverWs (Text (JSON_stringify (JObj props)))]))
  /\ (forall s,
      JSON_parse s = None ->
      containerWs_message host OPEN (Text s) = [Send serverWs (Text s)])
  /\ (forall s parsed,
      JSON_parse s = Some parsed ->
      truthy (nestedErrorMessage parsed) = false ->
      containerWs_message host OPEN (Text s) = [Send serverWs (Text s)])
  /\ (forall bytes,
      containerWs_message host OPEN (Binary bytes) = [Send serverWs (Binary bytes)]).
Proof.
  split; [|split; [|split; [|split; [|split]]]].
  - intros m H. unfold transformErrorMessage.
    rewrite <- !includes_spec in H. apply orb_true_iff in H. now rewrite H.
  - intros m H1 H2. unfold transformErrorMessage.
    apply includes_false in H1, H2. rewrite H1, H2. simpl. split; intros H.
    + apply includes_spec in H. now rewrite H.
    + apply includes_false in H. now rewrite H.
  - intros s props eprops m Hp He Hm Hne.
    assert (Ht : JsString.truthy m = true) by (destruct m; [congruence|reflexivity]).
    assert (E : containerWs_message host OPEN (Text s)
                = [Send serverWs
                     (Text (JSON_stringify
                              (JObj (set_prop "error"
                                       (JObj (set_prop "message"
                                                (JStr (transformErrorMessage m host)) eprops))
                                       props))))]).
    { unfold containerWs_message, rewriteError. rewrite Hp. simpl.
      rewrite He. simpl. rewrite Hm. simpl. rewrite Ht. reflexivity. }
    split; [exact E|].
    intros Hsame. rewrite E, Hsame.
    rewrite (set_prop_unchanged _ _ _ Hm), (set_prop_unchanged _ _ _ He).
    reflexivity.
  - intros s Hp. unfold containerWs_message, rewriteError. now rewrite Hp.
  - intros s parsed Hp Hf.
    unfold containerWs_message, rewriteError. rewrite Hp.
    destruct parsed as [| | | | |props]; try reflexivity.
    simpl in *. destruct (lookup "error" props) as [[| | | | |eprops]|];
      try reflexivity.
    simpl. destruct (lookup "message" eprops) as [m|]; [|reflexivity].
    rewrite Hf. reflexivity.
  - reflexivity.
Qed.

(** C6, as amended.  When the container socket closes, the client
    socket is closed with the same code and with the reason passed
    through [transformErrorMessage] and cut to 123 characters (the
    first 120 and an ellipsis when longer).  When the client socket
    closes, the container socket is closed with the same code and
    the same reason, unchanged.  An error on either socket closes
    the other with code 1011. *)
Theorem close_and_error_propagation (cfg : RelayConfig) (e : CloseEvent) :
  (exists r,
      dispatch cfg (OnClose containerWs e) = [Close serverWs (code e) r]
      /\ String.length r <= 123
      /\ let t := transformErrorMessage (reason e) (host cfg) in
         (String.length t <= 123 -> r = t)
         /\ (123 < String.length t -> r = (JsString.slice0 120 t ++ "...")%string))
  /\ dispatch cfg (OnClose serverWs e) = [Close containerWs (code e) (reason e)]
  /\ dispatch cfg (OnError serverWs) = [Close containerWs 1011%Z "Client error"]
  /\ dispatch cfg (OnError containerWs) = [Close serverWs 1011%Z "Container error"].
Proof.
  split; [|repeat split].
  simpl. unfold containerWs_close.
  set (t := transformErrorMessage (reason e) (host cfg)).
  destruct (123 <? String.length t)%nat eqn:E.
  - apply Nat.ltb_lt in E. eexists. split; [reflexivity|]. split.
    + rewrite append_length. pose proof (slice0_length 120 t). simpl. lia.
    + split; [lia|reflexivity].
  - apply Nat.ltb_ge in E. exists t. split; [reflexivity|]. split; [exact E|].
    split; [reflexivity|lia].
Qed.

End RelayClaims.

(** ** The results on concrete histories and frames *)

Module OnScenarios.
Import Scenarios MiniJson Json Relay.
Local Abbreviation RT := Script.runtime.

Lemma existing_returned_iff_verified_witness :
  let s0 := start reuseScript in
  let out := Gateway.ensureMoltbotGateway (rt := RT) [] s0 in
  Gateway.mountR2Storage (rt := RT) [] s0 = (Ok true, mounted s0)
  /\ Gateway.findExistingMoltbotProcess (rt := RT) (mounted s0)
     = (Ok (Some p0), discovered s0)
  /\ (Verified (rt := RT) p0 (discovered s0)
      <-> fst out = Ok p0
          /\ forall rk, ~ In (EvKill p0 rk) (events_since (discovered s0) (snd out))).
Proof.
  intros s0 out.
  split; [reflexivity|]. split; [reflexivity|].
  exact (proj1 (existing_returned_iff_verified (rt := RT) [] s0 (mounted s0)
                  (discovered s0) true p0 eq_refl eq_refl)).
Defined.

Lemma findExisting_iff_gateway_entry_witness :
  let s0 := start listingFailsScript in
  Gateway.listProcesses (rt := RT) (mounted s0)
  = (Throw (mkError "listProcesses failed"), discovered s0)
  /\ Gateway.findExistingMoltbotProcess (rt := RT) (mounted s0)
     = (Ok None, discovered s0)
  /\ Gateway.ensureMoltbotGateway (rt := RT) [] s0
     = Sup.bind (Gateway.killStaleProcesses (rt := RT))
                (fun _ => Gateway.launchGateway (rt := RT) [])
                (discovered s0).
Proof.
  intros s0.
  pose proof (proj2 (findExisting_iff_gateway_entry (rt := RT) (Env := EnvVars)
                       (mounted s0))
                    (mkError "listProcesses failed") (discovered s0) eq_refl)
    as [Hf He].
  split; [reflexivity|]. split; [exact Hf|].
  exact (He [] s0 true eq_refl).
Defined.

Lemma reachesLaunch_scripted (script : Script.World) :
  Gateway.reuseExisting (rt := RT) [] (start script)
  = (Ok None, after (Gateway.reuseExisting (rt := RT) []) (start script)) ->
  ReachesLaunch (rt := RT) [] (start script) (atLaunch (start script)).
Proof.
  intros H. eexists. split; [exact H|].
  destruct (killStaleProcesses_ok (rt := RT) (Env := EnvVars)
              (after (Gateway.reuseExisting (rt := RT) []) (start script)))
    as [s' Hs].
  unfold atLaunch, after in *. rewrite Hs. reflexivity.
Defined.

Lemma loopback_only_never_returned_witness :
  let s0 := start loopbackScript in
  ReachesLaunch (rt := RT) [] s0 (atLaunch s0)
  /\ ProbeUnreachable (rt := RT) (logsRead s0) (probed s0)
  /\ Gateway.ensureMoltbotGateway (rt := RT) [] s0
     = (Throw startedButUnreachable, probed s0).
Proof.
  intros s0.
  assert (HR : ReachesLaunch (rt := RT) [] s0 (atLaunch s0))
    by (apply reachesLaunch_scripted; reflexivity).
  assert (HP : ProbeUnreachable (rt := RT) (logsRead s0) (probed s0))
    by (left; exists (mkResponse 500 "not listening on 10.0.0.1");
        split; reflexivity).
  split; [exact HR|]. split; [exact HP|].
  exact (proj1 (proj2 (loopback_only_never_returned (rt := RT) []))
           s0 (atLaunch s0) p1 (started s0) (portOpen s0)
           (mkLogs "listening on 127.0.0.1" "") (logsRead s0) (probed s0)
           HR eq_refl eq_refl eq_refl HP).
Defined.

Lemma launch_throws_when_log_fetch_fails_witness :
  let s0 := start logsFailScript in
  ReachesLaunch (rt := RT) [] s0 (atLaunch s0)
  /\ Gateway.getLogs (rt := RT) p1 (portOpen s0)
     = (Throw (mkError "getLogs failed"), logsRead s0)
  /\ exists rl s4,
       Gateway.getLogs (rt := RT) p1 (logsRead s0) = (rl, s4)
       /\ Gateway.ensureMoltbotGateway (rt := RT) [] s0
          = (Throw (mkError "getLogs failed"), s4).
Proof.
  intros s0.
  assert (HR : ReachesLaunch (rt := RT) [] s0 (atLaunch s0))
    by (apply reachesLaunch_scripted; reflexivity).
  split; [exact HR|]. split; [reflexivity|].
  exact (launch_throws_when_log_fetch_fails (rt := RT) [] s0 (atLaunch s0) p1
           (started s0) (portOpen s0) (logsRead s0) (mkError "getLogs failed")
           HR eq_refl eq_refl eq_refl).
Defined.

(** C7, at a launch that times out.  The new process never opens its
    port and its stderr says why.  The logs are read, but the call
    throws the error of [waitForPort]; the error carrying the stderr
    text, built in the inner [try], never leaves it. *)
Theorem launch_timeout_error_lacks_stderr :
  let out := Script.ensure [] timeoutScript in
  fst out = Throw (mkError "waitForPort timed out")
  /\ In (EvGetLogs p1 (Ok (mkLogs "" "Error: listen EADDRINUSE"))) (events (snd out))
  /\ fst out <> Throw (mkError "Moltbot gateway failed to start. Stderr: Error: listen EADDRINUSE")
  /\ JsString.includes "waitForPort timed out" "Error: listen EADDRINUSE" = false.
Proof.
  vm_compute. split; [reflexivity|]. split; [|split; [discriminate|reflexivity]].
  do 5 right. left. reflexivity.
Qed.

End OnScenarios.

Module RelayOnScenarios.
Import Scenarios MiniJson Json Relay.
Local Abbreviation CODEC := MiniJson.codec.

(** The scenario of the handshake rewrite: the device fields go, the
    token credential comes. *)
Example connect_scenario :
  serverWs_message (codec := CODEC) (Some "S") OPEN connectFrame
  = [Send containerWs connectFrameRewritten].
Proof. vm_compute. reflexivity. Qed.

(** C3, at a connect request without [params].  The frame parses as
    a request of method [connect], the token is configured and the
    container socket is open, yet the frame goes out byte for byte as
    it came, with no [params.auth]: reading [.slice] of
    [JSON.stringify(undefined)] in the debug log throws before the
    [msg.params || {}] default is reached, and the empty [catch]
    falls through to the plain relay. *)
Theorem connect_without_params_not_authenticated :
  JSON_parse (Codec := CODEC) (js "{'type':'req','method':'connect'}")
  = Some (JObj [("type", JStr "req"); ("method", JStr "connect")])
  /\ serverWs_message (codec := CODEC) (Some "S") OPEN connectFrameNoParams
     = [Send containerWs connectFrameNoParams]
  /\ connectFrameNoParams <> connectFrameRewritten.
Proof.
  split; [vm_compute; reflexivity|].
  split; [vm_compute; reflexivity|].
  vm_compute. discriminate.
Qed.

(** Against C4 as stated: a second connect request is rewritten just
    like the first, not relayed verbatim. *)
Lemma later_connect_frame_is_rewritten :
  relay (codec := CODEC) cfg
        [OnMessage serverWs OPEN connectFrame; OnMessage serverWs OPEN connectFrame]
  = [Send containerWs connectFrameRewritten; Send containerWs connectFrameRewritten]
  /\ connectFrameRewritten <> connectFrame.
Proof.
  split; [vm_compute; reflexivity|]. vm_compute. discriminate.
Qed.

Lemma client_frames_handled_one_by_one_witness :
  exists outs,
    relay (codec := CODEC) cfg
          (map (OnMessage serverWs OPEN)
               [connectFrame; Binary []; Text "ping"; connectFrame])
    = map (Send containerWs) outs
    /\ Forall2 (fun d out =>
                  relay (codec := CODEC) cfg [OnMessage serverWs OPEN d]
                  = [Send containerWs out]
                  /\ (~ IsConnectRequest (codec := CODEC) d -> out = d)
                  /\ (gatewayToken cfg = None -> out = d))
               [connectFrame; Binary []; Text "ping"; connectFrame] outs.
Proof.
  exact (client_frames_handled_one_by_one (codec := CODEC) cfg
           [connectFrame; Binary []; Text "ping"; connectFrame]).
Defined.

Lemma backend_error_frames_rewritten_witness :
  JSON_parse (Codec := CODEC) errorFrame
  = Some (JObj [("error", JObj [("message", JStr "gateway token mismatch")])])
  /\ containerWs_message (codec := CODEC) "example.com" OPEN (Text errorFrame)
     = [Send serverWs (Text errorFrameRewritten)].
Proof.
  split; [reflexivity|].
  exact (proj1 (proj1 (proj2 (proj2 (backend_error_frames_rewritten
                                       (codec := CODEC) "example.com")))
                  errorFrame
                  [("error", JObj [("message", JStr "gateway token mismatch")])]
                  [("message", JStr "gateway token mismatch")]
                  "gateway token mismatch"%string
                  eq_refl eq_refl eq_refl
                  (fun H : "gateway token mismatch"%string = ""%string =>
                     match H in _ = s
                           return match s with EmptyString => False | _ => True end
                     with eq_refl => I end))).
Defined.

(** Against C6 as stated: the reason of a client-side close reaches
    the container socket as it is, neither substituted nor capped. *)
Lemma client_close_reason_passed_unchanged :
  dispatch (codec := CODEC) cfg
           (OnClose serverWs (mkCloseEvent 1000 "pairing required"))
  = [Close containerWs 1000%Z "pairing required"]
  /\ transformErrorMessage "pairing required" "example.com"
     = "Pairing required. Visit https://example.com/_admin/"%string
  /\ dispatch (codec := CODEC) cfg (OnClose serverWs (mkCloseEvent 1000 longReason))
     = [Close containerWs 1000%Z longReason]
  /\ String.length longReason = 130.
Proof. repeat split; vm_compute; reflexivity. Qed.

Lemma close_and_error_propagation_witness :
  dispatch (codec := CODEC) cfg
           (OnClose containerWs (mkCloseEvent 1008 "gateway token missing"))
  = [Close serverWs 1008%Z
           "Invalid or missing token. Visit https://example.com?token={REPLACE_WITH_YOUR_TOKEN}"]
  /\ dispatch (codec := CODEC) cfg (OnClose serverWs (mkCloseEvent 1000 longReason))
     = [Close containerWs 1000%Z longReason].
Proof.
  pose proof (close_and_error_propagation (codec := CODEC) cfg
                (mkCloseEvent 1000 longReason)) as (_ & H & _).
  split; [reflexivity|exact H].
Defined.

(** A container-side close with a reason of 130 characters: the client
    socket gets the first 120 and an ellipsis. *)
Example container_close_caps_long_reason :
  exists r,
    dispatch (codec := CODEC) cfg (OnClose containerWs (mkCloseEvent 1011 longReason))
    = [Close serverWs 1011%Z r]
    /\ String.length r = 123
    /\ r = (JsString.slice0 120 longReason ++ "...")%string.
Proof. eexists. repeat split; vm_compute; reflexivity. Qed.

End RelayOnScenarios.

(** * Further results *)

(** ** The supervisor: cleanup, kills, launches, errors *)

Lemma isStaleTarget_spec (p : Process) :
  isStaleTarget p = true
  <-> (Includes (proc_command p) "start-moltbot.sh"
       \/ Includes (proc_command p) "openclaw gateway")
      /\ (proc_status p = running \/ proc_status p = starting).
Proof.
  unfold isStaleTarget, Discovery.isGatewayProcess.
  rewrite andb_true_iff, !orb_true_iff, !includes_spec.
  destruct (proc_status p); simpl; intuition congruence.
Qed.

Lemma gatewayEntry_is_staleTarget (p : Process) :
  IsGatewayEntry p -> isStaleTarget p = true.
Proof.
  intros (Hc & _ & Hs). apply isStaleTarget_spec. intuition.
Qed.

Section CleanupFacts.
Context {W Env : Type} {rt : Runtime W Env}.
Import Sup Gateway.

(** The loop of the cleanup: it kills the targets in list order and
    stops at the first [kill] that throws. *)
Lemma staleLoop_trace (procs : list Process) (s : State W) :
  match for_of procs (fun proc =>
          if Discovery.isGatewayProcess proc
             && (status_eqb (proc_status proc) running
                 || status_eqb (proc_status proc) starting)
          then kill proc else ret tt) s with
  | (Ok _, s') => events s' = events s ++ killedInOrder (staleTargets procs)
  | (Throw e, s') =>
      exists done p rest,
        staleTargets procs = done ++ p :: rest
        /\ events s' = events s ++ killedInOrder done ++ [EvKill p (Throw e)]
  end.
Proof.
  revert s. induction procs as [|p procs IH]; intros s.
  - simpl. now rewrite app_nil_r.
  - cbn [for_of]. unfold bind at 1. unfold staleTargets. cbn [filter].
    change (Discovery.isGatewayProcess p
            && (status_eqb (proc_status p) running
                || status_eqb (proc_status p) starting))
      with (isStaleTarget p).
    destruct (isStaleTarget p).
    + destruct (kill p s) as [[[]|e] s1] eqn:Hk; events_of Hk.
      * specialize (IH s1). unfold staleTargets in IH.
        destruct (for_of procs _ s1) as [[[]|e] s2].
        -- rewrite IH, E, <- app_assoc. reflexivity.
        -- destruct IH as (done & q & rest & Hd & Ev).
           exists (p :: done). exists q. exists rest.
           split; [rewrite Hd; reflexivity|].
           rewrite Ev, E, <- !app_assoc. reflexivity.
      * exists []. exists p. exists (filter isStaleTarget procs).
        split; [reflexivity|exact E].
    + unfold ret at 1. unfold staleTargets in IH. apply IH.
Qed.

End CleanupFacts.

Lemma killedInOrder_guarded (procs : list Process) :
  Forall (fun p => isStaleTarget p = true) procs ->
  Forall (fun ev => isGuardedEvent ev = true) (killedInOrder procs).
Proof.
  induction 1; simpl; constructor; auto.
Qed.

Lemma staleTargets_all (procs : list Process) :
  Forall (fun p => isStaleTarget p = true) (staleTargets procs).
Proof.
  apply Forall_forall. intros p Hp. apply filter_In in Hp. tauto.
Qed.

Section SupervisorTraces.
Context {W Env : Type} {rt : Runtime W Env}.
Import Sup Gateway.

Lemma killStaleProcesses_trace (s : State W) :
  exists s',
    killStaleProcesses s = (Ok tt, s')
    /\ ((exists e, events s' = events s ++ [EvListProcesses (Throw e)])
        \/ (exists procs,
               events s' = events s ++ EvListProcesses (Ok procs)
                                    :: killedInOrder (staleTargets procs))
        \/ (exists procs done p rest e,
               staleTargets procs = done ++ p :: rest
               /\ events s' = events s ++ EvListProcesses (Ok procs)
                                       :: killedInOrder done ++ [EvKill p (Throw e)])).
Proof.
  unfold killStaleProcesses. cbv [try_catch bind ret].
  destruct (listProcesses s) as [[procs|e] s1] eqn:HL; events_of HL.
  - pose proof (staleLoop_trace procs s1) as HT.
    destruct (for_of procs _ s1) as [[[]|e] s2].
    + exists s2. split; [reflexivity|]. right; left. exists procs.
      rewrite HT, E, <- app_assoc. reflexivity.
    + exists s2. split; [reflexivity|]. right; right.
      destruct HT as (done & p & rest & Hd & Ev).
      exists procs. exists done. exists p. exists rest. exists e.
      split; [exact Hd|]. rewrite Ev, E, <- !app_assoc. reflexivity.
  - exists s1. split; [reflexivity|]. left. exists e. exact E.
Qed.

Lemma killStaleProcesses_guarded (s : State W) :
  exists s' evs,
    killStaleProcesses s = (Ok tt, s')
    /\ events s' = events s ++ evs
    /\ Forall (fun ev => isGuardedEvent ev = true) evs.
Proof.
  destruct (killStaleProcesses_trace s)
    as (s' & HK & [(e & Ev)|[(procs & Ev)|(procs & done & p & rest & e & Hd & Ev)]]);
    exists s'; eexists; (split; [exact HK|]); (split; [exact Ev|]).
  - repeat constructor.
  - constructor; [reflexivity|].
    apply killedInOrder_guarded, staleTargets_all.
  - pose proof (staleTargets_all procs) as HA. rewrite Hd in HA.
    apply Forall_app in HA. destruct HA as [HD HP]. inversion HP; subst.
    constructor; [reflexivity|]. apply Forall_app. split.
    + apply killedInOrder_guarded. exact HD.
    + constructor; [assumption|constructor].
Qed.

Lemma findExisting_trace (s : State W) :
  exists rl found s',
    findExistingMoltbotProcess s = (Ok found, s')
    /\ events s' = events s ++ [EvListProcesses rl]
    /\ forall p, found = Some p -> IsGatewayEntry p.
Proof.
  unfold findExistingMoltbotProcess. cbv [try_catch bind ret].
  destruct (listProcesses s) as [[procs|e] s1] eqn:HL; events_of HL.
  - exists (Ok procs). exists (Discovery.firstGateway procs). exists s1.
    split; [reflexivity|]. split; [exact E|].
    intros p Hp. destruct (firstGateway_some _ _ Hp) as (_ & _ & _ & HG & _).
    exact HG.
  - exists (Throw e). exists None. exists s1.
    split; [reflexivity|]. split; [exact E|]. discriminate.
Qed.

Lemma verifyExisting_guarded (p : Process) (s : State W) :
  isStaleTarget p = true ->
  exists evs,
    events (snd (verifyExisting p s)) = events s ++ evs
    /\ Forall (fun ev => isGuardedEvent ev = true) evs.
Proof.
  intros HT.
  destruct (verifyExisting_cases p s)
    as [(s1 & resp & s2 & Hw & Hf & Hne & H)
       |[(e & s1 & rk & s2 & Hw & Hk & H)
        |(s1 & s2 & rk & s3 & Hw & Hp & Hk & H)]]; rewrite H; simpl.
  - events_of Hw. events_of Hf. eexists. split.
    + rewrite E0, E, <- app_assoc. reflexivity.
    + repeat constructor.
  - events_of Hw. events_of Hk. eexists. split.
    + rewrite E0, E, <- app_assoc. reflexivity.
    + repeat constructor. exact HT.
  - events_of Hw. events_of Hk.
    destruct Hp as [(resp & Hf & _)|(err & Hf)]; events_of Hf;
      (eexists; split; [rewrite E0, E1, E, <- !app_assoc; reflexivity|]);
      repeat constructor; exact HT.
Qed.

Lemma reuseExisting_guarded (env : Env) (s0 : State W) :
  exists evs,
    events (snd (reuseExisting env s0)) = events s0 ++ evs
    /\ Forall (fun ev => isGuardedEvent ev = true) evs.
Proof.
  unfold reuseExisting. cbv [bind ret].
  destruct (mountR2Storage env s0) as [[m|e] s1] eqn:Hm; events_of Hm.
  - destruct (findExisting_trace s1) as (rl & found & s2 & HF & EF & HG).
    rewrite HF. destruct found as [p|].
    + destruct (verifyExisting_guarded p s2) as (evs & Ev & HA).
      { apply gatewayEntry_is_staleTarget. apply HG. reflexivity. }
      exists (EvMountR2 (Ok m) :: EvListProcesses rl :: evs). split.
      * rewrite Ev, EF, E, <- !app_assoc. reflexivity.
      * repeat constructor. exact HA.
    + simpl. exists [EvMountR2 (Ok m); EvListProcesses rl]. split.
      * rewrite EF, E, <- !app_assoc. reflexivity.
      * repeat constructor.
  - simpl. exists [EvMountR2 (Throw e)]. split; [exact E|repeat constructor].
Qed.

Lemma launchGateway_trace (env : Env) (s : State W) :
  exists r tail,
    events (snd (launchGateway env s))
    = events s ++ EvStartProcess command (launchEnv env) r :: tail
    /\ Forall (fun ev => isFollowUp ev = true) tail.
Proof.
  destruct (launchGateway_cases env s) as (rs & s1 & Hs & H).
  events_of Hs. exists rs. destruct rs as [q|e].
  - destruct H as (rw & s2 & Hw & rl & s3 & Hl & H).
    events_of Hw. events_of Hl.
    destruct rw as [[]|e]; [destruct rl as [logs|e]|].
    + destruct H as (rf & s4 & Hf & H). events_of Hf.
      eexists. split.
      * destruct rf as [resp|e]; [destruct (resp_status resp =? 500)%Z|];
          rewrite H; simpl; rewrite E2, E1, E0, E, <- !app_assoc; reflexivity.
      * repeat constructor.
    + destruct H as (rl2 & s4 & Hl2 & H). events_of Hl2.
      eexists. split.
      * rewrite H; simpl. rewrite E2, E1, E0, E, <- !app_assoc. reflexivity.
      * repeat constructor.
    + eexists. split.
      * rewrite H; simpl. rewrite E1, E0, E, <- !app_assoc. reflexivity.
      * repeat constructor.
  - exists []. rewrite H; simpl. split; [exact E|constructor].
Qed.

(** What one call of [ensureMoltbotGateway] adds to the log: guarded
    events, then at most one launch. *)
Lemma ensure_added (env : Env) (s0 : State W) :
  exists pre post,
    events_since s0 (snd (ensureMoltbotGateway env s0)) = pre ++ post
    /\ Forall (fun ev => isGuardedEvent ev = true) pre
    /\ (post = []
        \/ exists r tail,
             post = EvStartProcess command (launchEnv env) r :: tail
             /\ Forall (fun ev => isFollowUp ev = true) tail).
Proof.
  destruct (reuseExisting_guarded env s0) as (evs & Ev & HA).
  unfold ensureMoltbotGateway. cbv [bind ret].
  destruct (reuseExisting env s0) as [[[p|]|e] sK]; simpl in Ev.
  - exists evs. exists []. split; [|split; [exact HA|left; reflexivity]].
    simpl. apply events_since_app. rewrite app_nil_r. exact Ev.
  - destruct (killStaleProcesses_guarded sK) as (sL & evK & HK & EK & HAK).
    rewrite HK.
    destruct (launchGateway_trace env sL) as (r & tail & EL & HF).
    exists (evs ++ evK). exists (EvStartProcess command (launchEnv env) r :: tail).
    split; [|split].
    + apply events_since_app. rewrite EL, EK, Ev, <- !app_assoc. reflexivity.
    + apply Forall_app. split; assumption.
    + right. exists r. exists tail. split; [reflexivity|exact HF].
  - exists evs. exists []. split; [|split; [exact HA|left; reflexivity]].
    simpl. apply events_since_app. rewrite app_nil_r. exact Ev.
Qed.

End SupervisorTraces.

Section SupervisorExtras.
Context {W Env : Type} {rt : Runtime W Env}.
Import Sup Gateway.

(** X1.  The stale-process cleanup never throws.  It lists the
    processes once; if the listing fails it does nothing more;
    otherwise it kills, in list order, every process whose command
    contains a gateway launch pattern and whose status is [running] or
    [starting], and it stops at the first [kill] that throws, leaving
    the later ones alone. *)
Theorem cleanup_kills_live_gateway_processes (s : State W) :
  exists s',
    killStaleProcesses s = (Ok tt, s')
    /\ ((exists e, events_since s s' = [EvListProcesses (Throw e)])
        \/ (exists procs,
               events_since s s'
               = EvListProcesses (Ok procs) :: killedInOrder (staleTargets procs))
        \/ (exists procs done p rest e,
               staleTargets procs = done ++ p :: rest
               /\ events_since s s'
                  = EvListProcesses (Ok procs)
                      :: killedInOrder done ++ [EvKill p (Throw e)])).
Proof.
  destruct (killStaleProcesses_trace s)
    as (s' & HK & [(e & Ev)|[(procs & Ev)|(procs & done & p & rest & e & Hd & Ev)]]);
    exists s'; (split; [exact HK|]).
  - left. exists e. apply events_since_app. exact Ev.
  - right; left. exists procs. apply events_since_app. exact Ev.
  - right; right. exists procs. exists done. exists p. exists rest. exists e.
    split; [exact Hd|]. apply events_since_app. exact Ev.
Qed.

(** X2.  Whatever the sandbox answers, a call of
    [ensureMoltbotGateway] only ever kills a process whose command
    contains a gateway launch pattern and whose listed status is
    [running] or [starting]. *)
Theorem ensure_kills_only_gateway_processes
        (env : Env) (s0 : State W) (p : Process) (rk : Result unit) :
  In (EvKill p rk) (events_since s0 (snd (ensureMoltbotGateway env s0))) ->
  (Includes (proc_command p) "start-moltbot.sh"
   \/ Includes (proc_command p) "openclaw gateway")
  /\ (proc_status p = running \/ proc_status p = starting).
Proof.
  destruct (ensure_added env s0) as (pre & post & Ea & HG & HP).
  rewrite Ea. intros Hin. apply isStaleTarget_spec.
  apply in_app_or in Hin. destruct Hin as [Hin|Hin].
  - rewrite Forall_forall in HG. exact (HG _ Hin).
  - destruct HP as [->|(r & tail & -> & HF)]; [destruct Hin|].
    destruct Hin as [Hin|Hin]; [discriminate|].
    rewrite Forall_forall in HF. specialize (HF _ Hin). discriminate.
Qed.

(** X3.  One call of [ensureMoltbotGateway] calls [startProcess] at
    most once, and only with the start script as command and the
    environment built from [env] (absent when it is empty). *)
Theorem ensure_starts_at_most_once (env : Env) (s0 : State W) :
  let added := events_since s0 (snd (ensureMoltbotGateway env s0)) in
  List.length (filter isStartEvent added) <= 1
  /\ forall cmd e r,
       In (EvStartProcess cmd e r) added ->
       cmd = "/usr/local/bin/start-moltbot.sh"%string /\ e = launchEnv env.
Proof.
  intros added. unfold added.
  destruct (ensure_added env s0) as (pre & post & Ea & HG & HP).
  rewrite Ea.
  assert (NG : forall evs, Forall (fun ev => isGuardedEvent ev = true) evs ->
                           filter isStartEvent evs = []).
  { induction 1 as [|ev evs Hev _ IH]; [reflexivity|].
    simpl. destruct ev; simpl in *; try exact IH. discriminate. }
  assert (NF : forall evs, Forall (fun ev => isFollowUp ev = true) evs ->
                           filter isStartEvent evs = []).
  { induction 1 as [|ev evs Hev _ IH]; [reflexivity|].
    simpl. destruct ev; simpl in *; try exact IH; discriminate. }
  split.
  - rewrite filter_app, (NG _ HG). simpl.
    destruct HP as [->|(r & tail & -> & HF)]; simpl; [lia|].
    rewrite (NF _ HF). simpl. lia.
  - intros cmd e r Hin. apply in_app_or in Hin. destruct Hin as [Hin|Hin].
    + rewrite Forall_forall in HG. specialize (HG _ Hin). discriminate.
    + destruct HP as [->|(r' & tail & -> & HF)]; [destruct Hin|].
      destruct Hin as [Hin|Hin]; [inversion Hin; split; reflexivity|].
      rewrite Forall_forall in HF. specialize (HF _ Hin). discriminate.
Qed.

Lemma reuseExisting_throws (env : Env) (s0 : State W) (e : JsError) (s' : State W) :
  reuseExisting env s0 = (Throw e, s') ->
  mountR2Storage env s0 = (Throw e, s').
Proof.
  unfold reuseExisting. cbv [bind ret].
  destruct (mountR2Storage env s0) as [[m|e0] s1]; [|intros H; inversion H; reflexivity].
  destruct (findExisting_trace s1) as (rl & found & s2 & HF & _ & _).
  rewrite HF. destruct found as [p|]; [|discriminate].
  destruct (verifyExisting_cases p s2)
    as [(s1' & resp & s2' & _ & _ & _ & H)
       |[(e1 & s1' & rk & s2' & _ & _ & H)
        |(s1' & s2' & rk & s3 & _ & _ & _ & H)]]; rewrite H; discriminate.
Qed.

(** X4.  The errors a caller of [ensureMoltbotGateway] can see.  When
    the call throws [e], then either the R2 mount threw [e] and nothing
    else was called; or [startProcess] threw [e]; or the port wait on
    the new process threw [e] (the logs were then read once); or the
    port opened and reading the logs threw [e] (followed by one more
    read); or the port opened, the logs were read, the overlay probe
    answered 500 or failed, and [e] is the "started but not reachable"
    error.  Errors of the listing, of a [kill], and of the wait or the
    probe on an existing process never reach the caller. *)
Theorem ensure_error_sources
        (env : Env) (s0 : State W) (e : JsError) (s' : State W) :
  ensureMoltbotGateway env s0 = (Throw e, s') ->
  let added := events_since s0 s' in
  let started r := EvStartProcess command (launchEnv env) r in
  let waited q r := EvWaitForPort q MOLTBOT_PORT STARTUP_TIMEOUT_MS r in
  added = [EvMountR2 (Throw e)]
  \/ (exists pre, added = pre ++ [started (Throw e)])
  \/ (exists pre q rl,
         added = pre ++ [started (Ok q); waited q (Throw e); EvGetLogs q rl])
  \/ (exists pre q rl,
         added = pre ++ [started (Ok q); waited q (Ok tt);
                         EvGetLogs q (Throw e); EvGetLogs q rl])
  \/ (e = startedButUnreachable
      /\ exists pre q logs rf,
           added = pre ++ [started (Ok q); waited q (Ok tt); EvGetLogs q (Ok logs);
                           EvContainerFetch healthUrl MOLTBOT_PORT rf]
           /\ forall resp, rf = Ok resp -> resp_status resp = 500%Z).
Proof.
  intros H added started waited. unfold added, started, waited.
  unfold ensureMoltbotGateway in H. cbv [bind ret] in H.
  destruct (reuseExisting env s0) as [[[p|]|e0] sK] eqn:HR; [discriminate| |].
  - destruct (reuseExisting_guarded env s0) as (evs & Ev & _).
    rewrite HR in Ev. simpl in Ev.
    destruct (killStaleProcesses_guarded sK) as (sL & evK & HK & EK & _).
    rewrite HK in H.
    assert (EL : events sL = events s0 ++ (evs ++ evK))
      by (rewrite EK, Ev, <- app_assoc; reflexivity).
    right.
    destruct (launchGateway_cases env sL) as (rs & s1 & Hs & HC). events_of Hs.
    destruct rs as [q|e1].
    + destruct HC as (rw & s2 & Hw & rl & s3 & Hl & HC).
      events_of Hw. events_of Hl.
      destruct rw as [[]|e1]; [destruct rl as [logs|e1]|].
      * destruct HC as (rf & s4 & Hf & HC). events_of Hf.
        right; right; right.
        assert (HT : launchGateway env sL = (Throw startedButUnreachable, s4)
                     /\ forall resp, rf = Ok resp -> resp_status resp = 500%Z).
        { destruct rf as [resp|e1].
          - destruct (resp_status resp =? 500)%Z eqn:E5; [|congruence].
            split; [exact HC|]. intros resp' Hr. inversion Hr; subst.
            apply Z.eqb_eq. exact E5.
          - split; [exact HC|discriminate]. }
        destruct HT as [HT H5]. rewrite HT in H. inversion H; subst e s'.
        split; [reflexivity|].
        exists (evs ++ evK). exists q. exists logs. exists rf.
        split; [|exact H5]. apply events_since_app.
        rewrite E2, E1, E0, E, EL, <- !app_assoc. reflexivity.
      * destruct HC as (rl2 & s4 & Hl2 & HC). events_of Hl2.
        rewrite HC in H. inversion H; subst e1 s'.
        right; right; left. exists (evs ++ evK). exists q. exists rl2.
        apply events_since_app.
        rewrite E2, E1, E0, E, EL, <- !app_assoc. reflexivity.
      * rewrite HC in H. inversion H; subst e1 s'.
        right; left. exists (evs ++ evK). exists q. exists rl.
        apply events_since_app.
        rewrite E1, E0, E, EL, <- !app_assoc. reflexivity.
    + rewrite HC in H. inversion H; subst e1 s'.
      left. exists (evs ++ evK). apply events_since_app.
      rewrite E, EL, <- !app_assoc. reflexivity.
  - inversion H; subst e0 sK.
    pose proof (reuseExisting_throws _ _ _ _ HR) as Hm. events_of Hm.
    left. apply events_since_app. exact E.
Qed.

(** X5.  The launch that succeeds: when nothing is reused, the new
    process starts, its port opens within the startup timeout, its
    logs can be read and the overlay probe completes with a status
    other than 500, [ensureMoltbotGateway] returns the new process and
    makes no further call. *)
Theorem launch_returns_verified_process
        (env : Env) (s0 sL : State W) (q : Process) (logs : Logs)
        (resp : Response) (s1 s2 s3 s4 : State W) :
  ReachesLaunch env s0 sL ->
  startProcess command (launchEnv env) sL = (Ok q, s1) ->
  waitForPort q MOLTBOT_PORT STARTUP_TIMEOUT_MS s1 = (Ok tt, s2) ->
  getLogs q s2 = (Ok logs, s3) ->
  containerFetch healthUrl MOLTBOT_PORT s3 = (Ok resp, s4) ->
  resp_status resp <> 500%Z ->
  ensureMoltbotGateway env s0 = (Ok q, s4).
Proof.
  intros HR Hs Hw Hl Hf Hne.
  rewrite (ensure_at_launch _ _ _ HR).
  destruct (launchGateway_cases env sL) as (rs & s1' & Hs' & H).
  rewrite Hs in Hs'. inversion Hs'; subst rs s1'.
  destruct H as (rw & s2' & Hw' & rl & s3' & Hl' & H).
  rewrite Hw in Hw'. inversion Hw'; subst rw s2'.
  rewrite Hl in Hl'. inversion Hl'; subst rl s3'.
  destruct H as (rf & s4' & Hf' & H).
  rewrite Hf in Hf'. inversion Hf'; subst rf s4'.
  apply Z.eqb_neq in Hne. rewrite Hne in H. exact H.
Qed.

End SupervisorExtras.


(** ** The relay: dropped frames, direction, the rewrite in detail *)

Section RelayExtras.
Context {number : Type} {codec : Json.Codec number}.
Import Json Relay.

(** Whatever the frame, the client listener does one guarded [send]. *)
Lemma serverWs_message_guarded (token : option string) (st : ReadyState) (d : WsData) :
  exists out, serverWs_message token st d = sendIfOpen containerWs st out.
Proof.
  assert (V : exists out, sendIfOpen containerWs st d = sendIfOpen containerWs st out)
    by (exists d; reflexivity).
  unfold serverWs_message.
  destruct d as [s|b]; [|exact V].
  destruct token as [tok|]; [|exact V].
  destruct (JsString.truthy tok); [|exact V].
  unfold rewriteConnect.
  destruct (JSON_parse s) as [msg|]; [|exact V].
  destruct (get msg "type") as [ty|]; [|exact V].
  destruct (is_string "req" ty); [|exact V]. simpl.
  destruct (get msg "method") as [me|]; [|exact V].
  destruct (is_string "connect" me); [|exact V]. simpl.
  match goal with
  | |- context [match ?a with Some x => x | None => FellThrough end] =>
      destruct a as [[calls|]|] eqn:Ha
  end; [|exact V|exact V].
  revert Ha.
  repeat match goal with
         | |- match ?x with _ => _ end = _ -> _ =>
             destruct x; try discriminate
         end.
  intros Ha. inversion Ha; subst calls. eexists. reflexivity.
Qed.

(** X7.  A frame that arrives while the opposite socket is not open is
    dropped: neither listener sends, queues or rewrites anything,
    connect requests and error frames included. *)
Theorem frames_dropped_unless_opposite_open (st : ReadyState) :
  st <> OPEN ->
  (forall token d, serverWs_message token st d = [])
  /\ (forall host d, containerWs_message host st d = []).
Proof.
  intros Hst.
  assert (Hc : forall t d, sendIfOpen t st d = [])
    by (intros t d; unfold sendIfOpen; destruct st; simpl; congruence).
  split.
  - intros token d. destruct (serverWs_message_guarded token st d) as [out ->].
    apply Hc.
  - intros host d. unfold containerWs_message. apply Hc.
Qed.

Lemma dispatch_one_call (cfg : RelayConfig) (ev : RelayEvent) :
  List.length (dispatch cfg ev) <= 1
  /\ Forall (fun c => callTarget c = opposite (eventSocket ev)) (dispatch cfg ev).
Proof.
  destruct ev as [[|] st d|[|] e|[|]]; simpl.
  - destruct (serverWs_message_guarded (gatewayToken cfg) st d) as [out ->].
    unfold sendIfOpen. destruct (isOpen st); simpl; repeat constructor.
  - unfold containerWs_message, sendIfOpen.
    destruct (isOpen st); simpl; repeat constructor.
  - repeat constructor.
  - repeat constructor.
  - repeat constructor.
  - repeat constructor.
Qed.

(** X8.  The relay never answers on the socket an event came from and
    never multiplies traffic: each event leads to at most one call,
    made on the opposite socket, so a run of events leads to at most
    as many calls as there were events. *)
Theorem relay_calls_go_to_opposite_socket (cfg : RelayConfig) :
  (forall ev,
      List.length (dispatch cfg ev) <= 1
      /\ Forall (fun c => callTarget c = opposite (eventSocket ev)) (dispatch cfg ev))
  /\ forall evs, List.length (relay cfg evs) <= List.length evs.
Proof.
  split; [apply dispatch_one_call|].
  intros evs. unfold relay. rewrite relay_fold. simpl.
  induction evs as [|ev evs IH]; simpl; [lia|].
  rewrite length_app. pose proof (proj1 (dispatch_one_call cfg ev)). lia.
Qed.

(** X9.  The handshake rewrite on an object.  For a connect request
    whose [params] is an object, with a token configured and the
    container socket open, the frame sent is the message re-serialised
    with only its [params] member changed; the new [params] has [auth]
    equal to the token credential (whatever [auth] the client had
    sent), has none of the four device-identity members, and keeps
    every other member of the client's [params]. *)
Theorem connect_rewrite_keeps_the_rest
        (token s : string) (props pprops : list (string * value number)) :
  JsString.truthy token = true ->
  JSON_parse s = Some (JObj props) ->
  lookup "type" props = Some (JStr "req") ->
  lookup "method" props = Some (JStr "connect") ->
  lookup "params" props = Some (JObj pprops) ->
  exists params',
    serverWs_message (Some token) OPEN (Text s)
    = [Send containerWs
         (Text (JSON_stringify (JObj (set_prop "params" (JObj params') props))))]
    /\ lookup "auth" params' = Some (JObj [("token", JStr token)])
    /\ Forall (fun f => lookup f params' = None)
              ["deviceId"; "devicePublicKey"; "signature"; "device"]%string
    /\ (forall k, k <> "auth"%string ->
                  ~ In k ["deviceId"; "devicePublicKey"; "signature"; "device"]%string ->
                  lookup k params' = lookup k pprops)
    /\ forall k, k <> "params"%string ->
                 lookup k (set_prop "params" (JObj params') props) = lookup k props.
Proof.
  intros Ht Hp Hty Hm Hpa. exists (bearerOnly token pprops).
  destruct (bearerOnly_fields token pprops) as (Ha & Hd & Hk).
  split; [exact (connect_with_object_params token s props pprops Ht Hp Hty Hm Hpa)|].
  split; [exact Ha|]. split; [exact Hd|]. split; [exact Hk|].
  intros k Hne. apply lookup_set_prop_other. exact Hne.
Qed.

(** X10.  The handshake rewrite on a [params] that is no object.  A
    [params] that is present but falsy ([null], [false], [0], the
    empty string) is replaced by an object holding only the token
    credential.  An array is left as it is: the frame goes out
    re-serialised, without any [auth].  A truthy string, number or
    boolean makes the rewrite throw, and the frame goes out byte for
    byte as it came. *)
Theorem connect_rewrite_on_other_params
        (token s : string) (props : list (string * value number)) (pv : value number) :
  JsString.truthy token = true ->
  JSON_parse s = Some (JObj props) ->
  lookup "type" props = Some (JStr "req") ->
  lookup "method" props = Some (JStr "connect") ->
  lookup "params" props = Some pv ->
  (truthy (Some pv) = false ->
   serverWs_message (Some token) OPEN (Text s)
   = [Send containerWs
        (Text (JSON_stringify
                 (JObj (set_prop "params"
                          (JObj [("auth", JObj [("token", JStr token)])]) props))))])
  /\ (forall elems, pv = JArr elems ->
      serverWs_message (Some token) OPEN (Text s)
      = [Send containerWs (Text (JSON_stringify (JObj props)))])
  /\ (truthy (Some pv) = true ->
      (forall pp, pv <> JObj pp) -> (forall elems, pv <> JArr elems) ->
      serverWs_message (Some token) OPEN (Text s) = [Send containerWs (Text s)]).
Proof.
  intros Ht Hp Hty Hm Hpa.
  split; [|split].
  - intros Hf. unfold serverWs_message, rewriteConnect. rewrite Ht, Hp. simpl.
    rewrite Hty, Hm, Hpa. simpl. simpl in Hf. rewrite Hf. simpl.
    rewrite set_prop_twice. reflexivity.
  - intros elems ->. unfold serverWs_message, rewriteConnect. rewrite Ht, Hp. simpl.
    rewrite Hty, Hm, Hpa. simpl.
    rewrite set_prop_twice, (set_prop_unchanged _ _ _ Hpa). reflexivity.
  - intros Htr Ho Ha. unfold serverWs_message, rewriteConnect. rewrite Ht, Hp. simpl.
    rewrite Hty, Hm, Hpa. simpl. simpl in Htr. rewrite Htr.
    destruct pv as [| | | |elems|pp]; simpl; try reflexivity.
    + exfalso. exact (Ha elems eq_refl).
    + exfalso. exact (Ho pp eq_refl).
Qed.

Lemma containerWs_message_open (host : string) (d : WsData) :
  exists out,
    containerWs_message host OPEN d = [Send serverWs out]
    /\ (forall bytes, d = Binary bytes -> out = d)
    /\ (forall s, d = Text s -> JSON_parse s = None -> out = d).
Proof.
  unfold containerWs_message. simpl. eexists. split; [reflexivity|]. split.
  - intros bytes ->. reflexivity.
  - intros s -> Hp. unfold rewriteError. rewrite Hp. reflexivity.
Qed.

(** X11.  In the container-to-client direction, with the client socket
    open, a run of frames yields one [send] per frame, in arrival
    order, each being what the listener sends for that frame alone;
    binary frames and strings that do not parse come out as they went
    in. *)
Theorem backend_frames_relayed_in_order (cfg : RelayConfig) (frames : list WsData) :
  exists outs,
    relay cfg (map (OnMessage containerWs OPEN) frames) = map (Send serverWs) outs
    /\ Forall2 (fun d out =>
                  relay cfg [OnMessage containerWs OPEN d] = [Send serverWs out]
                  /\ (forall bytes, d = Binary bytes -> out = d)
                  /\ (forall s, d = Text s -> JSON_parse s = None -> out = d))
               frames outs.
Proof.
  unfold relay. induction frames as [|d frames (outs & HR & HF)].
  - exists []. split; [reflexivity|constructor].
  - destruct (containerWs_message_open (host cfg) d) as (out & Hs & Hb & Ht).
    exists (out :: outs). split.
    + cbn [map fold_left]. rewrite relay_fold.
      cbn [dispatch app]. rewrite Hs. cbn [app]. f_equal.
      rewrite relay_fold in HR. exact HR.
    + constructor; [|exact HF].
      split; [cbn [fold_left dispatch app]; exact Hs|]. split; assumption.
Qed.

End RelayExtras.

(** ** The worker entry: configuration *)

Lemma validateRequiredEnv_complete_iff (env : Worker.MoltbotEnv) :
  (Worker.validateRequiredEnv env = [] <-> ConfigComplete env)
  /\ NoDup (Worker.validateRequiredEnv env).
Proof.
  unfold Worker.validateRequiredEnv, ConfigComplete.
  destruct (Worker.isSet (Worker.MOLTBOT_GATEWAY_TOKEN env));
    destruct (Worker.isSet (Worker.CF_ACCESS_TEAM_DOMAIN env));
    destruct (Worker.isSet (Worker.CF_ACCESS_AUD env));
    destruct (Worker.isSet (Worker.AI_GATEWAY_API_KEY env));
    destruct (Worker.isSet (Worker.AI_GATEWAY_BASE_URL env));
    destruct (Worker.isSet (Worker.ANTHROPIC_API_KEY env));
    cbn [negb app];
    repeat apply conj;
    first [ solve [simpl; intuition discriminate]
          | solve [repeat constructor; simpl; intuition discriminate]
          | solve [simpl; lia] ].
Qed.

(** X12.  [validateRequiredEnv] reports a name exactly when its
    setting is unset or empty, with one twist: the Anthropic key is
    asked for only when no AI gateway key is set, and the AI gateway
    base URL only when one is.  So the result is empty exactly for a
    complete configuration, and an AI gateway key alone never
    suffices. *)
Theorem validateRequiredEnv_spec (env : Worker.MoltbotEnv) :
  (Worker.validateRequiredEnv env = [] <-> ConfigComplete env)
  /\ (In "MOLTBOT_GATEWAY_TOKEN"%string (Worker.validateRequiredEnv env)
      <-> Worker.isSet (Worker.MOLTBOT_GATEWAY_TOKEN env) = false)
  /\ (In "CF_ACCESS_TEAM_DOMAIN"%string (Worker.validateRequiredEnv env)
      <-> Worker.isSet (Worker.CF_ACCESS_TEAM_DOMAIN env) = false)
  /\ (In "CF_ACCESS_AUD"%string (Worker.validateRequiredEnv env)
      <-> Worker.isSet (Worker.CF_ACCESS_AUD env) = false)
  /\ (In "AI_GATEWAY_BASE_URL (required when using AI_GATEWAY_API_KEY)"%string
         (Worker.validateRequiredEnv env)
      <-> Worker.isSet (Worker.AI_GATEWAY_API_KEY env) = true
          /\ Worker.isSet (Worker.AI_GATEWAY_BASE_URL env) = false)
  /\ (In "ANTHROPIC_API_KEY or AI_GATEWAY_API_KEY"%string
         (Worker.validateRequiredEnv env)
      <-> Worker.isSet (Worker.AI_GATEWAY_API_KEY env) = false
          /\ Worker.isSet (Worker.ANTHROPIC_API_KEY env) = false)
  /\ NoDup (Worker.validateRequiredEnv env)
  /\ List.length (Worker.validateRequiredEnv env) <= 4.
Proof.
  unfold Worker.validateRequiredEnv, ConfigComplete.
  destruct (Worker.isSet (Worker.MOLTBOT_GATEWAY_TOKEN env));
    destruct (Worker.isSet (Worker.CF_ACCESS_TEAM_DOMAIN env));
    destruct (Worker.isSet (Worker.CF_ACCESS_AUD env));
    destruct (Worker.isSet (Worker.AI_GATEWAY_API_KEY env));
    destruct (Worker.isSet (Worker.AI_GATEWAY_BASE_URL env));
    destruct (Worker.isSet (Worker.ANTHROPIC_API_KEY env));
    cbn [negb app];
    repeat apply conj;
    first [ solve [simpl; intuition discriminate]
          | solve [repeat constructor; simpl; intuition discriminate]
          | solve [simpl; lia] ].
Qed.

(** X13.  The validation middleware lets a request through exactly
    when its path starts with [/debug], or [DEV_MODE] is ['true'], or
    the configuration is complete.  A request it stops gets status 503
    with exactly the missing names: joined into the error page when
    the client accepts HTML, as a list otherwise. *)
Theorem validationMiddleware_spec
        (env : Worker.MoltbotEnv) (pathname : string) (accept : option string) :
  (Worker.validationMiddleware env pathname accept = Worker.Next
   <-> (exists rest, pathname = ("/debug" ++ rest)%string)
       \/ Worker.DEV_MODE env = Some "true"%string
       \/ ConfigComplete env)
  /\ (Worker.validationMiddleware env pathname accept <> Worker.Next ->
      Worker.validationMiddleware env pathname accept
      = if Worker.acceptsHtml accept
        then Worker.ConfigErrorPage 503
               (String.concat ", " (Worker.validateRequiredEnv env))
        else Worker.ConfigErrorJson 503 (Worker.validateRequiredEnv env)).
Proof.
  pose proof (proj1 (validateRequiredEnv_complete_iff env)) as HC.
  unfold Worker.validationMiddleware.
  destruct (String.prefix "/debug" pathname) eqn:Hp.
  - split; [|congruence]. split; [|reflexivity].
    intros _. left. apply prefix_append. exact Hp.
  - assert (Hnp : ~ exists rest, pathname = ("/debug" ++ rest)%string).
    { intros Hex. apply prefix_append in Hex. congruence. }
    destruct (Worker.DEV_MODE env) as [v|] eqn:Hd.
    + destruct (String.eqb v "true") eqn:Hv.
      * apply String.eqb_eq in Hv. subst v.
        split; [|congruence]. split; [|reflexivity]. intros _. right; left. reflexivity.
      * apply String.eqb_neq in Hv.
        destruct (Worker.validateRequiredEnv env) as [|m ms] eqn:Hm; simpl.
        -- split; [|congruence]. split; [|reflexivity].
           intros _. right; right. apply HC. reflexivity.
        -- split; [|intros _; reflexivity]. split.
           ++ destruct (Worker.acceptsHtml accept); discriminate.
           ++ intros [Hex|[Hdev|Hcc]].
              ** contradiction.
              ** inversion Hdev. contradiction.
              ** apply HC in Hcc. discriminate.
    + destruct (Worker.validateRequiredEnv env) as [|m ms] eqn:Hm; simpl.
      * split; [|congruence]. split; [|reflexivity].
        intros _. right; right. apply HC. reflexivity.
      * split; [|intros _; reflexivity]. split.
        -- destruct (Worker.acceptsHtml accept); discriminate.
        -- intros [Hex|[Hdev|Hcc]].
           ++ contradiction.
           ++ discriminate.
           ++ apply HC in Hcc. discriminate.
Qed.

(** ** The routes *)

Section RouteFacts.
Context {W : Type} {rt : Runtime W Worker.MoltbotEnv} {bi : Builtins}
        {il : Interleaving W}.
Import Sup Gateway Routes Json.

Lemma restartLoop_trace (procs : list Process) (k : Z) (s : State W) :
  match restartLoop procs k s with
  | (Ok n, s') =>
      n = (k + Z.of_nat (List.length (staleTargets procs)))%Z
      /\ events s' = events s ++ killedInOrder (staleTargets procs)
  | (Throw e, s') =>
      exists done p rest,
        staleTargets procs = done ++ p :: rest
        /\ events s' = events s ++ killedInOrder done ++ [EvKill p (Throw e)]
  end.
Proof.
  revert k s. induction procs as [|p procs IH]; intros k s.
  - simpl. split; [lia|now rewrite app_nil_r].
  - cbn [restartLoop]. unfold staleTargets. cbn [filter].
    pose proof (eq_refl : isStaleTarget p
                          = (JsString.includes (proc_command p) "start-moltbot.sh"
                             || JsString.includes (proc_command p) "openclaw gateway")
                            && (status_eqb (proc_status p) running
                                || status_eqb (proc_status p) starting)) as HT.
    revert HT.
    destruct (JsString.includes (proc_command p) "start-moltbot.sh"
              || JsString.includes (proc_command p) "openclaw gateway");
      destruct (status_eqb (proc_status p) running
                || status_eqb (proc_status p) starting);
      cbn [andb]; intros HT; rewrite HT; try apply IH.
    unfold bind at 1.
    destruct (kill p s) as [[[]|e] s1] eqn:Hk; events_of Hk.
    + specialize (IH (k + 1)%Z s1). unfold staleTargets in IH.
      destruct (restartLoop procs (k + 1) s1) as [[n|e] s2].
      * destruct IH as [Hn Ev]. split.
        -- rewrite Hn. cbn [List.length]. lia.
        -- rewrite Ev, E, <- app_assoc. reflexivity.
      * destruct IH as (done & q & rest & Hd & Ev).
        exists (p :: done). exists q. exists rest.
        split; [rewrite Hd; reflexivity|].
        rewrite Ev, E, <- !app_assoc. reflexivity.
    + exists []. exists p. exists (filter isStaleTarget procs).
      split; [reflexivity|exact E].
Qed.

(** A call of [ensureMoltbotGateway] that returns has ended on an
    overlay probe completed with a status other than 500. *)
Lemma ensure_ok_ends_on_probe (env : Worker.MoltbotEnv) (s : State W)
      (q : Process) (s' : State W) :
  ensureMoltbotGateway env s = (Ok q, s') ->
  exists pre probe,
    events s' = pre ++ [EvContainerFetch healthUrl MOLTBOT_PORT (Ok probe)]
    /\ resp_status probe <> 500%Z.
Proof.
  intros H. unfold ensureMoltbotGateway in H. cbv [bind ret] in H.
  destruct (reuseExisting env s) as [[[p|]|e] sK] eqn:HR; [| |discriminate].
  - inversion H; subst p sK.
    destruct (reuseExisting_some _ _ _ _ HR) as (s2 & V & HV).
    destruct (verified_returns q s2 V) as (resp & s2' & HV' & Hne & E).
    rewrite HV in HV'. inversion HV'; subst s2'.
    exists (events s2 ++ [EvWaitForPort q MOLTBOT_PORT STARTUP_TIMEOUT_MS (Ok tt)]).
    exists resp. split; [|exact Hne]. rewrite E, <- app_assoc. reflexivity.
  - destruct (killStaleProcesses sK) as [[[]|e] sL]; [|discriminate].
    destruct (launchGateway_returns _ _ _ _ H)
      as (s1 & s2 & logs & s3 & resp & Hs & Hw & Hl & Hc & Hne).
    events_of Hc. exists (events s3). exists resp. split; [exact E|exact Hne].
Qed.

End RouteFacts.

Section RouteExtras.
Context {W : Type} {rt : Runtime W Worker.MoltbotEnv} {bi : Builtins}
        {il : Interleaving W}.
Import Sup Gateway Routes Json.

(** X14.  [GET /api/restart] never throws and ends in one of three
    ways.  If the listing and every [kill] succeed, it has killed, in
    list order, every live process with a gateway launch command,
    answers 200 with their number, and starts [ensureMoltbotGateway]
    in the background.  If the listing throws, or a [kill] throws
    (the later targets are then left alone), it answers 500 with the
    error text and starts nothing. *)
Theorem restart_route_outcome (s : State W) :
  exists reply bg s',
    restartRoute s = (Ok (reply, bg), s')
    /\ ((exists procs,
            events_since s s'
            = EvListProcesses (Ok procs) :: killedInOrder (staleTargets procs)
            /\ reply = mkJson 200
                 (JObj [("ok", JBool true);
                        ("killed", JNum (Z.of_nat (List.length (staleTargets procs))));
                        ("message", JStr "Gateway restart triggered")])
            /\ bg = EnsureInBackground)
        \/ (exists e,
               events_since s s' = [EvListProcesses (Throw e)]
               /\ reply = mkJson 500 (JObj [("ok", JBool false);
                                            ("error", JStr (errorText e))])
               /\ bg = NoBackground)
        \/ (exists procs done p rest e,
               staleTargets procs = done ++ p :: rest
               /\ events_since s s'
                  = EvListProcesses (Ok procs)
                      :: killedInOrder done ++ [EvKill p (Throw e)]
               /\ reply = mkJson 500 (JObj [("ok", JBool false);
                                            ("error", JStr (errorText e))])
               /\ bg = NoBackground)).
Proof.
  unfold restartRoute. cbv [try_catch bind ret].
  destruct (listProcesses s) as [[procs|e] s1] eqn:HL; events_of HL.
  - pose proof (restartLoop_trace procs 0%Z s1) as HT.
    destruct (restartLoop procs 0 s1) as [[n|e] s2].
    + destruct HT as [Hn Ev]. do 2 eexists. exists s2.
      split; [reflexivity|]. left. exists procs.
      split; [|split; [|reflexivity]].
      * apply events_since_app. rewrite Ev, E, <- app_assoc. reflexivity.
      * rewrite Hn. reflexivity.
    + destruct HT as (done & p & rest & Hd & Ev). do 2 eexists. exists s2.
      split; [reflexivity|]. right; right.
      exists procs. exists done. exists p. exists rest. exists e.
      split; [exact Hd|]. split; [|split; reflexivity].
      apply events_since_app. rewrite Ev, E, <- !app_assoc. reflexivity.
  - do 2 eexists. exists s1. split; [reflexivity|]. right; left. exists e.
    split; [|split; reflexivity]. apply events_since_app. exact E.
Qed.

(** X15.  The catch-all route answers with the loading page, without
    waiting for the gateway, exactly when discovery finds no gateway
    process or one still [starting], the request is no WebSocket
    upgrade, and its [Accept] header contains [text/html].  It has then
    made a single sandbox call, the listing of discovery. *)
Theorem proxy_serves_loading_page_iff
        (env : Worker.MoltbotEnv) (req : Request) (s : State W) :
  exists rl found s1,
    findExistingMoltbotProcess s = (Ok found, s1)
    /\ events_since s s1 = [EvListProcesses rl]
    /\ let waiting :=
         (found = None \/ exists p, found = Some p /\ proc_status p = starting)
         /\ isWebSocketRequest req = false
         /\ exists a, req_accept req = Some a /\ Includes a "text/html" in
       (fst (proxyRoute env req s) = Ok ServeLoadingPage <-> waiting)
       /\ (waiting -> proxyRoute env req s = (Ok ServeLoadingPage, s1)).
Proof.
  destruct (findExisting_trace s) as (rl & found & s1 & HF & EF & HG).
  exists rl. exists found. exists s1.
  split; [exact HF|]. split; [apply events_since_app; exact EF|].
  assert (HC : negb (isGatewayReady found) && negb (isWebSocketRequest req)
               && Worker.acceptsHtml (req_accept req) = true
               <-> (found = None \/ exists p, found = Some p /\ proc_status p = starting)
                   /\ isWebSocketRequest req = false
                   /\ exists a, req_accept req = Some a /\ Includes a "text/html").
  { rewrite !andb_true_iff, !negb_true_iff.
    assert (HR : isGatewayReady found = false
                 <-> found = None \/ exists p, found = Some p /\ proc_status p = starting).
    { destruct found as [p|]; simpl.
      - destruct (HG p eq_refl) as (_ & _ & [Hs|Hs]); rewrite Hs; simpl; split.
        + intros _. right. exists p. auto.
        + reflexivity.
        + discriminate.
        + intros [C|(p' & Hp & Hst)]; [discriminate|].
          inversion Hp; subst p'. congruence.
      - split; [auto|reflexivity]. }
    assert (HA : Worker.acceptsHtml (req_accept req) = true
                 <-> exists a, req_accept req = Some a /\ Includes a "text/html").
    { unfold Worker.acceptsHtml. destruct (req_accept req) as [a|].
      - rewrite includes_spec. split.
        + intros H. exists a. auto.
        + intros (a' & Ha & Hi). inversion Ha; subst. exact Hi.
      - split; [discriminate|intros (a & Ha & _); discriminate]. }
    rewrite HR, HA. tauto. }
  cbv zeta.
  destruct (negb (isGatewayReady found) && negb (isWebSocketRequest req)
            && Worker.acceptsHtml (req_accept req)) eqn:C.
  - assert (HP : proxyRoute env req s = (Ok ServeLoadingPage, s1))
      by (unfold proxyRoute; unfold bind at 1; rewrite HF, C; reflexivity).
    rewrite HP. split; [|intros _; reflexivity].
    split; [intros _; apply HC; reflexivity|reflexivity].
  - assert (NW : ~ ((found = None \/ exists p, found = Some p /\ proc_status p = starting)
                    /\ isWebSocketRequest req = false
                    /\ exists a, req_accept req = Some a /\ Includes a "text/html"))
      by (intros Hw; apply HC in Hw; discriminate).
    assert (HP : fst (proxyRoute env req s) <> Ok ServeLoadingPage).
    { unfold proxyRoute. unfold bind at 1. rewrite HF, C.
      cbv [bind try_catch ret].
      destruct (ensureMoltbotGateway env s1) as [[q|e] s2]; simpl.
      - destruct (isWebSocketRequest req); simpl; [discriminate|].
        destruct (containerFetch _ _ s2) as [[r|e] s3]; simpl; discriminate.
      - discriminate. }
    split; [|intros Hw; contradiction].
    split; [intros H; contradiction|intros Hw; contradiction].
Qed.

(** X16.  When the catch-all route has to wait for the gateway and
    [ensureMoltbotGateway] throws, the route answers 503 with the
    error text as [details] and makes no further call: nothing is
    proxied.  The hint names the missing Anthropic key whenever that
    key is unset, whatever the error; otherwise it names memory when
    the error text contains "heap out of memory" or "OOM". *)
Theorem proxy_answers_503_when_start_fails
        (env : Worker.MoltbotEnv) (req : Request) (s s1 s2 : State W)
        (found : option Process) (e : JsError) :
  findExistingMoltbotProcess s = (Ok found, s1) ->
  negb (isGatewayReady found) && negb (isWebSocketRequest req)
  && Worker.acceptsHtml (req_accept req) = false ->
  ensureMoltbotGateway env s1 = (Throw e, s2) ->
  exists hint,
    proxyRoute env req s
    = (Ok (StartFailed
             (mkJson 503 (JObj [("error", JStr "Moltbot gateway failed to start");
                                ("details", JStr (errorText e));
                                ("hint", JStr hint)]))), s2)
    /\ (Worker.isSet (Worker.ANTHROPIC_API_KEY env) = false ->
        hint = "ANTHROPIC_API_KEY is not set. Run: wrangler secret put ANTHROPIC_API_KEY"%string)
    /\ (Worker.isSet (Worker.ANTHROPIC_API_KEY env) = true ->
        (Includes (errorText e) "heap out of memory" \/ Includes (errorText e) "OOM" ->
         hint = "Gateway ran out of memory. Try again or check for memory leaks."%string)
        /\ (~ Includes (errorText e) "heap out of memory" ->
            ~ Includes (errorText e) "OOM" ->
            hint = "Check worker logs with: wrangler tail"%string)).
Proof.
  intros HF HC HE. exists (startupHint env (errorText e)). split.
  - unfold proxyRoute. unfold bind at 1. rewrite HF, HC.
    cbv [bind try_catch ret]. rewrite HE. reflexivity.
  - unfold startupHint. split.
    + intros ->. reflexivity.
    + intros ->. simpl. split.
      * intros H. rewrite <- !includes_spec in H. apply orb_true_iff in H.
        now rewrite H.
      * intros H1 H2. apply includes_false in H1, H2. now rewrite H1, H2.
Qed.

(** X17.  The catch-all route proxies only to a verified gateway.
    When it hands a request over to the gateway, as a WebSocket or by
    an HTTP fetch, [ensureMoltbotGateway] has returned within the same
    request, so the last sandbox call before the hand-over was an
    overlay probe completed with a status other than 500.  The request
    is proxied to its own URL, with the gateway token set as a query
    parameter when one is configured, and an HTTP answer carries the
    two debug headers. *)
Theorem proxy_only_after_verification
        (env : Worker.MoltbotEnv) (req : Request) (s s' : State W)
        (outcome : ProxyOutcome) :
  proxyRoute env req s = (Ok outcome, s') ->
  match outcome with
  | ProxyWebSocket wsUrl =>
      wsUrl = proxiedUrl env req
      /\ exists pre probe,
           events s' = pre ++ [EvContainerFetch healthUrl MOLTBOT_PORT (Ok probe)]
           /\ resp_status probe <> 500%Z
  | ProxiedHttp httpResponse headers =>
      headers = [("X-Worker-Debug", "proxy-to-moltbot");
                 ("X-Debug-Path", urlPathname (req_url req))]%string
      /\ exists pre probe,
           events s'
           = pre ++ [EvContainerFetch healthUrl MOLTBOT_PORT (Ok probe);
                     EvContainerFetch (proxiedUrl env req) MOLTBOT_PORT (Ok httpResponse)]
           /\ resp_status probe <> 500%Z
  | _ => True
  end
  /\ forall token,
       Worker.MOLTBOT_GATEWAY_TOKEN env = Some token ->
       JsString.truthy token = true ->
       proxiedUrl env req = urlWithToken (req_url req) token.
Proof.
  intros H. split.
  - unfold proxyRoute in H. unfold bind at 1 in H.
    destruct (findExistingMoltbotProcess s) as [[found|e] s1]; [|discriminate].
    destruct (negb (isGatewayReady found) && negb (isWebSocketRequest req)
              && Worker.acceptsHtml (req_accept req)).
    + inversion H; subst. exact I.
    + cbv [bind try_catch ret] in H.
      destruct (ensureMoltbotGateway env s1) as [[q|e] s2] eqn:HE.
      * destruct (ensure_ok_ends_on_probe _ _ _ _ HE) as (pre & probe & Ev & Hne).
        destruct (isWebSocketRequest req).
        -- inversion H; subst. split; [reflexivity|].
           exists pre. exists probe. split; [exact Ev|exact Hne].
        -- destruct (containerFetch (proxiedUrl env req) MOLTBOT_PORT s2)
             as [[r|e] s3] eqn:HC; [|discriminate].
           events_of HC. inversion H; subst. split; [reflexivity|].
           exists pre. exists probe. split; [|exact Hne].
           rewrite E, Ev, <- app_assoc. reflexivity.
      * inversion H; subst. exact I.
  - intros token Ht Htr. unfold proxiedUrl. now rewrite Ht, Htr.
Qed.

End RouteExtras.

Section StatusFacts.
Context {W : Type} {rt : Runtime W Worker.MoltbotEnv} {bi : Builtins}
        {il : Interleaving W}.
Import Sup Gateway Routes Json.

Lemma failedLogsOf_ok (allProcesses : list Process) (s : State W) :
  exists text s',
    failedLogsOf allProcesses s = (Ok text, s')
    /\ (filter isFailed allProcesses = [] -> text = ""%string /\ s' = s).
Proof.
  unfold failedLogsOf.
  destruct (filter isFailed allProcesses) as [|f fs]; simpl.
  - exists ""%string. exists s. repeat split; reflexivity.
  - cbv [try_catch bind ret yield].
    destruct (listProcesses _) as [[procs|e] s1].
    + destruct (find isFailedOrCompleted procs) as [fp|].
      * destruct (getLogs fp _) as [[logs|e] s2];
          do 2 eexists; (split; [reflexivity|discriminate]).
      * do 2 eexists. split; [reflexivity|discriminate].
    + do 2 eexists. split; [reflexivity|discriminate].
Qed.

(** The first listing of [/api/status], whose failure is swallowed. *)
Lemma status_first_listing (s : State W) (r0 : Result (list Process)) (s1 : State W) :
  listProcesses s = (r0, s1) ->
  try_catch listProcesses (fun _ => ret []) s = (Ok (shownProcesses r0), s1).
Proof.
  intros H. cbv [try_catch ret]. rewrite H. destruct r0; reflexivity.
Qed.

(** [/api/status] once the first listing and discovery are done. *)
Lemma statusRoute_after_discovery
      (s s1 s2 : State W) (r0 : Result (list Process)) (found : option Process) :
  listProcesses s = (r0, s1) ->
  findExistingMoltbotProcess s1 = (Ok found, s2) ->
  statusRoute s
  = try_catch
      (match found with
       | None =>
           bind (failedLogsOf (shownProcesses r0)) (fun failedLogs =>
             ret (notRunningReply (shownProcesses r0) failedLogs, EnsureInBackground))
       | Some process =>
           try_catch
             (bind (waitForPort process 18789%Z 5000%Z) (fun _ =>
                bind (statusHealthCheck process (shownProcesses r0)) (fun early =>
                  match early with
                  | Some answer => ret answer
                  | None => ret (runningReply process (shownProcesses r0), NoBackground)
                  end)))
             (fun _ =>
                bind (try_catch (getLogs process) (fun _ => ret (mkLogs "" "")))
                     (fun logs =>
                        ret (notRespondingReply process (shownProcesses r0) logs,
                             NoBackground)))
       end)
      (fun err => ret (errorReply err, NoBackground)) s2.
Proof.
  intros HL HF. unfold statusRoute.
  unfold try_catch at 1. unfold bind at 1.
  rewrite (status_first_listing _ _ _ HL).
  unfold bind at 1. rewrite HF.
  unfold try_catch at 1. reflexivity.
Qed.

End StatusFacts.

Section StatusExtras.
Context {W : Type} {rt : Runtime W Worker.MoltbotEnv} {bi : Builtins}
        {il : Interleaving W}.
Import Sup Gateway Routes Json.

(** X18.  [GET /api/status] never throws and always answers with
    status 200 and one of four states: [not_running], [restarting],
    [running] or [not_responding]; no failure of the sandbox leads to
    the [error] answer.  [ok] is true exactly for [running], and
    [ensureMoltbotGateway] is started in the background exactly for
    [not_running] and [restarting]. *)
Theorem status_route_always_answers (s : State W) :
  exists reply bg s' st,
    statusRoute s = (Ok (reply, bg), s')
    /\ reply_status reply = 200%Z
    /\ replyStatusField reply = Some st
    /\ In st ["not_running"; "restarting"; "running"; "not_responding"]%string
    /\ (replyOkField reply = Some true <-> st = "running"%string)
    /\ (bg = EnsureInBackground
        <-> st = "not_running"%string \/ st = "restarting"%string).
Proof.
  destruct (listProcesses s) as [r0 s1] eqn:HL.
  destruct (findExisting_trace s1) as (rl & found & s2 & HF & _ & _).
  rewrite (statusRoute_after_discovery _ _ _ _ _ HL HF).
  pose (Good := fun out : Result (JsonReply * Background) * State W =>
          exists reply bg s' st,
            out = (Ok (reply, bg), s')
            /\ reply_status reply = 200%Z
            /\ replyStatusField reply = Some st
            /\ In st ["not_running"; "restarting"; "running"; "not_responding"]%string
            /\ (replyOkField reply = Some true <-> st = "running"%string)
            /\ (bg = EnsureInBackground
                <-> st = "not_running"%string \/ st = "restarting"%string)).
  match goal with
  | |- exists reply bg s' st, ?out = _ /\ _ => change (Good out)
  end.
  assert (NR : forall all text (s' : State W),
             Good (Ok (notRunningReply all text, EnsureInBackground), s')).
  { intros. exists (notRunningReply all text). exists EnsureInBackground.
    exists s'. exists "not_running"%string. simpl.
    repeat split; auto; discriminate. }
  assert (RS : forall all (s' : State W),
             Good (Ok (restartingReply all, EnsureInBackground), s')).
  { intros. exists (restartingReply all). exists EnsureInBackground.
    exists s'. exists "restarting"%string. simpl.
    repeat split; auto; discriminate. }
  assert (RU : forall p all (s' : State W),
             Good (Ok (runningReply p all, NoBackground), s')).
  { intros. exists (runningReply p all). exists NoBackground.
    exists s'. exists "running"%string. simpl.
    repeat split; auto; try discriminate. intros [C|C]; discriminate. }
  assert (NP : forall p all logs (s' : State W),
             Good (Ok (notRespondingReply p all logs, NoBackground), s')).
  { intros. exists (notRespondingReply p all logs). exists NoBackground.
    exists s'. exists "not_responding"%string. simpl.
    repeat split; auto; try discriminate. intros [C|C]; discriminate. }
  clearbody Good.
  destruct found as [p|].
  - unfold statusHealthCheck. cbv [try_catch bind ret lift].
    destruct (waitForPort p 18789 5000 s2) as [[[]|e] s3].
    + destruct (containerFetch _ _ s3) as [[resp|e] s4]; [|apply RU].
      destruct (responseText resp) as [body|e]; [|apply RU].
      destruct (JsString.includes body "gateway token"
                || JsString.includes body "unauthorized"); [|apply RU].
      destruct (kill p s4) as [[[]|e] s5]; [apply RS|apply RU].
    + destruct (getLogs p s3) as [[logs|e'] s4]; apply NP.
  - destruct (failedLogsOf_ok (shownProcesses r0) s2) as (text & s' & HT & _).
    cbv [try_catch bind ret]. rewrite HT. apply NR.
Qed.

(** X19.  What the health check of [/api/status] does with a
    discovered process whose port opened within five seconds.  It
    kills the process exactly when the health answer could be read and
    its body contains "gateway token" or "unauthorized", whatever the
    HTTP status; after a successful kill it answers [restarting] and
    starts [ensureMoltbotGateway] in the background.  In every other
    case (the fetch failed, the body could not be read, the body names
    no token problem, or the kill itself failed) it answers [running]
    with [ok] true. *)
Theorem status_health_check_decides
        (s s1 s2 s3 s4 : State W) (r0 : Result (list Process)) (p : Process)
        (rf : Result Response) :
  listProcesses s = (r0, s1) ->
  findExistingMoltbotProcess s1 = (Ok (Some p), s2) ->
  waitForPort p 18789%Z 5000%Z s2 = (Ok tt, s3) ->
  containerFetch "http://localhost:18789/" 18789%Z s3 = (rf, s4) ->
  let running := (runningReply p (shownProcesses r0), NoBackground) in
  let restarting := (restartingReply (shownProcesses r0), EnsureInBackground) in
  (forall e, rf = Throw e -> statusRoute s = (Ok running, s4))
  /\ (forall resp e,
         rf = Ok resp -> responseText resp = Throw e ->
         statusRoute s = (Ok running, s4))
  /\ (forall resp body,
         rf = Ok resp -> responseText resp = Ok body ->
         (~ MentionsTokenProblem body -> statusRoute s = (Ok running, s4))
         /\ (MentionsTokenProblem body ->
             forall rk s5,
               kill p s4 = (rk, s5) ->
               statusRoute s
               = (Ok (match rk with Ok _ => restarting | Throw _ => running end), s5))).
Proof.
  intros HL HF HW HC running restarting.
  rewrite (statusRoute_after_discovery _ _ _ _ _ HL HF).
  unfold statusHealthCheck. cbv [try_catch bind ret lift]. rewrite HW, HC.
  split; [|split].
  - intros e ->. reflexivity.
  - intros resp e -> ->. reflexivity.
  - intros resp body -> ->. unfold MentionsTokenProblem.
    rewrite <- !includes_spec, <- orb_true_iff. split.
    + intros Hn. apply not_true_is_false in Hn. rewrite Hn. reflexivity.
    + intros Hm rk s5 HK. rewrite Hm, HK. destruct rk as [[]|e]; reflexivity.
Qed.

(** X20.  When the port of the discovered process does not open within
    five seconds, [/api/status] answers [not_responding] with at most
    the first 500 characters of the process's stdout and of its stderr
    (empty when the logs cannot be read).  Unlike
    [ensureMoltbotGateway] it neither kills the process nor starts a
    launch. *)
Theorem status_not_responding
        (s s1 s2 s3 s4 : State W) (r0 : Result (list Process)) (p : Process)
        (e : JsError) (rl : Result Logs) :
  listProcesses s = (r0, s1) ->
  findExistingMoltbotProcess s1 = (Ok (Some p), s2) ->
  waitForPort p 18789%Z 5000%Z s2 = (Throw e, s3) ->
  getLogs p s3 = (rl, s4) ->
  exists out err,
    statusRoute s
    = (Ok (mkJson 200
             (JObj [("ok", JBool false);
                    ("status", JStr "not_responding");
                    ("processId", JStr (proc_id p));
                    ("processes", processesJson (shownProcesses r0));
                    ("stdout", JStr out);
                    ("stderr", JStr err)]),
           NoBackground), s4)
    /\ String.length out <= 500 /\ String.length err <= 500
    /\ (forall logs, rl = Ok logs ->
          out = JsString.slice0 500 (stdout logs)
          /\ err = JsString.slice0 500 (stderr logs))
    /\ (forall e', rl = Throw e' -> out = ""%string /\ err = ""%string)
    /\ exists rl0,
         events_since s s4
         = [EvListProcesses r0; EvListProcesses rl0;
            EvWaitForPort p 18789%Z 5000%Z (Throw e); EvGetLogs p rl].
Proof.
  intros HL HF HW HG.
  rewrite (statusRoute_after_discovery _ _ _ _ _ HL HF).
  cbv [try_catch bind ret]. rewrite HW, HG.
  assert (OE : forall t, JsString.or_else t "" = t) by (intros [|c t]; reflexivity).
  destruct (findExisting_trace s1) as (rl0 & found & s2' & HF' & EF & _).
  rewrite HF in HF'. inversion HF'; subst found s2'.
  events_of HL. events_of HW. events_of HG.
  assert (EV : events_since s s4
               = [EvListProcesses r0; EvListProcesses rl0;
                  EvWaitForPort p 18789%Z 5000%Z (Throw e); EvGetLogs p rl]).
  { apply events_since_app. rewrite E1, E0, EF, E, <- !app_assoc. reflexivity. }
  destruct rl as [logs|e'].
  - exists (JsString.slice0 500 (stdout logs)).
    exists (JsString.slice0 500 (stderr logs)).
    split; [unfold notRespondingReply; rewrite !OE; reflexivity|].
    split; [apply slice0_length|]. split; [apply slice0_length|].
    split; [intros logs' Hl; inversion Hl; subst; split; reflexivity|].
    split; [discriminate|]. exists rl0. exact EV.
  - exists ""%string. exists ""%string.
    split; [reflexivity|]. split; [simpl; lia|]. split; [simpl; lia|].
    split; [discriminate|]. split; [intros; split; reflexivity|].
    exists rl0. exact EV.
Qed.

(** X21.  When discovery finds no gateway process, [/api/status]
    answers [not_running] and starts [ensureMoltbotGateway] in the
    background.  Unless the first listing showed a process with status
    [failed], it then makes no further sandbox call and reports no
    logs. *)
Theorem status_not_running
        (s s1 s2 : State W) (r0 : Result (list Process)) :
  listProcesses s = (r0, s1) ->
  findExistingMoltbotProcess s1 = (Ok None, s2) ->
  exists failedLogs s',
    statusRoute s
    = (Ok (notRunningReply (shownProcesses r0) failedLogs, EnsureInBackground), s')
    /\ ((forall q, In q (shownProcesses r0) -> proc_status q <> failed) ->
        failedLogs = ""%string /\ s' = s2).
Proof.
  intros HL HF.
  rewrite (statusRoute_after_discovery _ _ _ _ _ HL HF).
  destruct (failedLogsOf_ok (shownProcesses r0) s2) as (text & s' & HT & HE).
  exists text. exists s'. cbv [try_catch bind ret]. rewrite HT.
  split; [reflexivity|].
  intros HN. apply HE. clear HT HE.
  induction (shownProcesses r0) as [|q qs IH]; [reflexivity|].
  assert (Hq : isFailed q = false).
  { unfold isFailed. destruct (proc_status q) eqn:Hs; try reflexivity.
    exfalso. apply (HN q); [left; reflexivity|exact Hs]. }
  simpl. rewrite Hq. apply IH. intros q' Hq'. apply HN. right. exact Hq'.
Qed.

End StatusExtras.

(** ** The public routes: admin assets *)

Lemma dropPrefix_spec (pat s rest : string) :
  Assets.dropPrefix pat s = Some rest <-> s = (pat ++ rest)%string.
Proof.
  revert s. induction pat as [|a pat IH]; intros s; simpl.
  - split; [intros H; inversion H; reflexivity|intros ->; reflexivity].
  - destruct s as [|b s]; [split; discriminate|].
    destruct (Ascii.eqb a b) eqn:E.
    + apply Ascii.eqb_eq in E. subst b. rewrite IH.
      split; [intros ->; reflexivity|intros H; inversion H; reflexivity].
    + apply Ascii.eqb_neq in E. split; [discriminate|].
      intros H. inversion H. congruence.
Qed.

Lemma replaceFirst_absent (pat rep s : string) :
  ~ Includes s pat -> Assets.replaceFirst pat rep s = s.
Proof.
  induction s as [|c s IH]; intros HN; simpl.
  - destruct (Assets.dropPrefix pat "") as [rest|] eqn:E; [|reflexivity].
    exfalso. apply HN. apply dropPrefix_spec in E.
    exists ""%string. exists rest. exact E.
  - destruct (Assets.dropPrefix pat (String c s)) as [rest|] eqn:E.
    + exfalso. apply HN. apply dropPrefix_spec in E.
      exists ""%string. exists rest. exact E.
    + rewrite IH; [reflexivity|].
      intros (b & a & H). apply HN. exists (String c b). exists a.
      simpl. now rewrite H.
Qed.

(** X22.  The admin-asset route rewrites the path by replacing the
    first occurrence of [/_admin/assets/] only: a path under that
    prefix maps to the same path under [/assets/], a later occurrence
    of the prefix inside it is kept, and a path without the prefix is
    left as it is.  In general the occurrence replaced is the one that
    starts earliest in the path. *)
Theorem assetPath_spec :
  (forall rest,
      Assets.assetPath ("/_admin/assets/" ++ rest) = ("/assets/" ++ rest)%string)
  /\ (forall pathname,
      ~ Includes pathname "/_admin/assets/" -> Assets.assetPath pathname = pathname)
  /\ (forall pathname,
      Includes pathname "/_admin/assets/" ->
      exists before after,
        pathname = (before ++ "/_admin/assets/" ++ after)%string
        /\ (forall before' after',
              pathname = (before' ++ "/_admin/assets/" ++ after')%string ->
              String.length before <= String.length before')
        /\ Assets.assetPath pathname = (before ++ "/assets/" ++ after)%string).
Proof.
  unfold Assets.assetPath. split; [|split].
  - intros rest. unfold Assets.replaceFirst.
    destruct rest; simpl; reflexivity.
  - intros pathname. apply replaceFirst_absent.
  - intros pathname. induction pathname as [|c s IH]; intros HI.
    + destruct HI as (b & a & H). destruct b; discriminate.
    + destruct (Assets.dropPrefix "/_admin/assets/" (String c s)) as [rest|] eqn:E.
      * exists ""%string. exists rest.
        split; [exact (proj1 (dropPrefix_spec "/_admin/assets/" _ _) E)|].
        split.
        -- intros b' a' _. simpl. lia.
        -- cbn [Assets.replaceFirst]. rewrite E. reflexivity.
      * assert (HS : Includes s "/_admin/assets/").
        { destruct HI as (b & a & H). destruct b as [|c' b].
          - exfalso. simpl in H.
            assert (Assets.dropPrefix "/_admin/assets/" (String c s) = Some a)
              by (exact (proj2 (dropPrefix_spec "/_admin/assets/" _ _) H)).
            congruence.
          - simpl in H. inversion H. exists b. exists a. reflexivity. }
        destruct (IH HS) as (b & a & Hp & Hn & Hr).
        exists (String c b). exists a. split; [simpl; now rewrite Hp|]. split.
        -- intros b' a' H. destruct b' as [|c'' b'].
           ++ exfalso. simpl in H.
              assert (Assets.dropPrefix "/_admin/assets/" (String c s) = Some a')
                by (exact (proj2 (dropPrefix_spec "/_admin/assets/" _ _) H)).
              congruence.
           ++ simpl in H. inversion H as [[Hc Hs]].
              specialize (Hn b' a' Hs). simpl. lia.
        -- cbn [Assets.replaceFirst]. rewrite E. simpl. now rewrite Hr.
Qed.

(** ** The further results on concrete histories and frames *)

Module ExtraOnScenarios.
Import Scenarios RouteScenarios MiniJson Json Relay Routes.
Local Abbreviation RT := Script.runtime.
Local Abbreviation RRT := RouteScenarios.runtime.
Local Abbreviation BI := RouteScenarios.builtins.
Local Abbreviation IL := RouteScenarios.quiet.
Local Abbreviation CODEC := MiniJson.codec.

Lemma ensure_kills_only_gateway_processes_witness :
  let s0 := start stuckScript in
  In (EvKill p0 (Ok tt))
     (events_since s0 (snd (Gateway.ensureMoltbotGateway (rt := RT) [] s0)))
  /\ (Includes (proc_command p0) "start-moltbot.sh"
      \/ Includes (proc_command p0) "openclaw gateway")
  /\ (proc_status p0 = running \/ proc_status p0 = starting).
Proof.
  intros s0.
  assert (Hin : In (EvKill p0 (Ok tt))
                   (events_since s0 (snd (Gateway.ensureMoltbotGateway (rt := RT) [] s0))))
    by (vm_compute; right; right; right; left; reflexivity).
  split; [exact Hin|].
  exact (ensure_kills_only_gateway_processes (rt := RT) [] s0 p0 (Ok tt) Hin).
Defined.

Lemma ensure_error_sources_witness :
  let s0 := start timeoutScript in
  let out := Gateway.ensureMoltbotGateway (rt := RT) [] s0 in
  let e := mkError "waitForPort timed out" in
  let added := events_since s0 (snd out) in
  let started r := EvStartProcess Gateway.command (launchEnv (rt := RT) []) r in
  let waited q r := EvWaitForPort q 18789%Z 180000%Z r in
  out = (Throw e, snd out)
  /\ (added = [EvMountR2 (Throw e)]
      \/ (exists pre, added = pre ++ [started (Throw e)])
      \/ (exists pre q rl,
             added = pre ++ [started (Ok q); waited q (Throw e); EvGetLogs q rl])
      \/ (exists pre q rl,
             added = pre ++ [started (Ok q); waited q (Ok tt);
                             EvGetLogs q (Throw e); EvGetLogs q rl])
      \/ (e = startedButUnreachable
          /\ exists pre q logs rf,
               added = pre ++ [started (Ok q); waited q (Ok tt); EvGetLogs q (Ok logs);
                               EvContainerFetch (Gateway.healthUrl (rt := RT)) 18789%Z rf]
               /\ forall resp, rf = Ok resp -> resp_status resp = 500%Z)).
Proof.
  intros s0 out e added started waited.
  split; [reflexivity|].
  exact (ensure_error_sources (rt := RT) [] s0 e (snd out) eq_refl).
Defined.

Lemma launch_returns_verified_process_witness :
  let s0 := start listingFailsScript in
  ReachesLaunch (rt := RT) [] s0 (atLaunch s0)
  /\ Gateway.containerFetch (rt := RT) "http://localhost:18789/" 18789%Z (logsRead s0)
     = (Ok (mkResponse 200 "ok"), probed s0)
  /\ Gateway.ensureMoltbotGateway (rt := RT) [] s0 = (Ok p1, probed s0).
Proof.
  intros s0.
  assert (HR : ReachesLaunch (rt := RT) [] s0 (atLaunch s0))
    by (apply OnScenarios.reachesLaunch_scripted; reflexivity).
  split; [exact HR|]. split; [reflexivity|].
  exact (launch_returns_verified_process (rt := RT) [] s0 (atLaunch s0) p1
           (mkLogs "ready" "") (mkResponse 200 "ok")
           (started s0) (portOpen s0) (logsRead s0) (probed s0)
           HR eq_refl eq_refl eq_refl eq_refl
           (fun H : 200%Z = 500%Z =>
              match H in _ = z return match z with 200%Z => True | _ => False end
              with eq_refl => I end)).
Defined.

Lemma frames_dropped_unless_opposite_open_witness :
  CLOSED <> OPEN
  /\ serverWs_message (codec := CODEC) (Some "S") CLOSED connectFrame = []
  /\ containerWs_message (codec := CODEC) "example.com" CLOSING (Text errorFrame) = [].
Proof.
  assert (H1 : CLOSED <> OPEN) by discriminate.
  assert (H2 : CLOSING <> OPEN) by discriminate.
  split; [exact H1|]. split.
  - exact (proj1 (frames_dropped_unless_opposite_open (codec := CODEC) CLOSED H1)
             (Some "S"%string) connectFrame).
  - exact (proj2 (frames_dropped_unless_opposite_open (codec := CODEC) CLOSING H2)
             "example.com"%string (Text errorFrame)).
Defined.

Lemma connect_rewrite_keeps_the_rest_witness :
  exists params',
    serverWs_message (codec := CODEC) (Some "S") OPEN
      (Text (js "{'id':7,'type':'req','method':'connect','params':{'deviceId':'x','client':'web','auth':{'password':'p'}}}"))
    = [Send containerWs
         (Text (JSON_stringify (Codec := CODEC)
                  (JObj (set_prop "params" (JObj params')
                           [("id", JNum 7%Z); ("type", JStr "req");
                            ("method", JStr "connect");
                            ("params", JObj [("deviceId", JStr "x");
                                             ("client", JStr "web");
                                             ("auth", JObj [("password", JStr "p")])])]))))]
    /\ lookup "auth" params' = Some (JObj [("token", JStr "S")])
    /\ lookup "deviceId" params' = None
    /\ lookup "client" params' = Some (JStr "web").
Proof.
  destruct (connect_rewrite_keeps_the_rest (codec := CODEC) "S"
              (js "{'id':7,'type':'req','method':'connect','params':{'deviceId':'x','client':'web','auth':{'password':'p'}}}")
              [("id", JNum 7%Z); ("type", JStr "req"); ("method", JStr "connect");
               ("params", JObj [("deviceId", JStr "x"); ("client", JStr "web");
                                ("auth", JObj [("password", JStr "p")])])]
              [("deviceId", JStr "x"); ("client", JStr "web");
               ("auth", JObj [("password", JStr "p")])]
              eq_refl eq_refl eq_refl eq_refl eq_refl)
    as (params' & Hs & Ha & Hd & Hk & _).
  exists params'. split; [exact Hs|]. split; [exact Ha|]. split.
  - inversion Hd; assumption.
  - rewrite Hk; [reflexivity|discriminate|].
    simpl. intros [C|[C|[C|[C|[]]]]]; discriminate.
Defined.

Lemma connect_rewrite_on_other_params_witness :
  JSON_parse (Codec := CODEC) connectFrameStringParams
  = Some (JObj [("type", JStr "req"); ("method", JStr "connect");
                ("params", JStr "abc")])
  /\ serverWs_message (codec := CODEC) (Some "S") OPEN (Text connectFrameStringParams)
     = [Send containerWs (Text connectFrameStringParams)].
Proof.
  split; [reflexivity|].
  refine (proj2 (proj2 (connect_rewrite_on_other_params (codec := CODEC) "S"
                          connectFrameStringParams
                          [("type", JStr "req"); ("method", JStr "connect");
                           ("params", JStr "abc")]
                          (JStr "abc") eq_refl eq_refl eq_refl eq_refl eq_refl))
                eq_refl _ _); intros x H; discriminate H.
Defined.

Lemma proxy_answers_503_when_start_fails_witness :
  let s := start startFailsScript in
  let s1 := after (Gateway.findExistingMoltbotProcess (rt := RRT)) s in
  let s2 := after (Gateway.ensureMoltbotGateway (rt := RRT) env) s1 in
  Gateway.ensureMoltbotGateway (rt := RRT) env s1
  = (Throw (mkError "container OOM killed"), s2)
  /\ proxyRoute (rt := RRT) (bi := BI) env apiRequest s
     = (Ok (StartFailed
              (mkJson 503
                 (JObj [("error", JStr "Moltbot gateway failed to start");
                        ("details", JStr "container OOM killed");
                        ("hint", JStr "Gateway ran out of memory. Try again or check for memory leaks.")]))),
        s2).
Proof.
  intros s s1 s2. split; [reflexivity|].
  destruct (proxy_answers_503_when_start_fails (rt := RRT) (bi := BI)
              env apiRequest s s1 s2 None (mkError "container OOM killed")
              eq_refl eq_refl eq_refl) as (hint & HP & _ & H2).
  rewrite HP.
  rewrite (proj1 (H2 eq_refl)); [reflexivity|].
  right. exists "container "%string. exists " killed"%string. reflexivity.
Defined.

Lemma proxy_only_after_verification_witness :
  let s := start proxiedScript in
  let s' := after (proxyRoute (rt := RRT) (bi := BI) env pageRequest) s in
  let page := mkResponse 200 "<html>chat</html>" in
  proxyRoute (rt := RRT) (bi := BI) env pageRequest s
  = (Ok (ProxiedHttp page [("X-Worker-Debug", "proxy-to-moltbot");
                           ("X-Debug-Path", "/chat")]%string), s')
  /\ exists pre probe,
       events s'
       = pre ++ [EvContainerFetch "http://localhost:18789/" 18789%Z (Ok probe);
                 EvContainerFetch "https://example.com/chat?token=S" 18789%Z (Ok page)]
       /\ resp_status probe <> 500%Z.
Proof.
  intros s s' page.
  assert (HP : proxyRoute (rt := RRT) (bi := BI) env pageRequest s
               = (Ok (ProxiedHttp page [("X-Worker-Debug", "proxy-to-moltbot");
                                        ("X-Debug-Path", "/chat")]%string), s'))
    by reflexivity.
  split; [exact HP|].
  exact (proj2 (proj1 (proxy_only_after_verification (rt := RRT) (bi := BI)
                         env pageRequest s s' _ HP))).
Defined.

Lemma status_health_check_decides_witness :
  let s := start statusTokenScript in
  let s' := after (statusRoute (rt := RRT) (bi := BI) (il := IL)) s in
  statusRoute (rt := RRT) (bi := BI) (il := IL) s
  = (Ok (restartingReply [p0], EnsureInBackground), s')
  /\ In (EvKill p0 (Ok tt)) (events s').
Proof.
  intros s s'.
  pose (s1 := after (Gateway.listProcesses (rt := RRT)) s).
  pose (s2 := after (Gateway.findExistingMoltbotProcess (rt := RRT)) s1).
  pose (s3 := after (Gateway.waitForPort (rt := RRT) p0 18789 5000) s2).
  pose (s4 := after (Gateway.containerFetch (rt := RRT) "http://localhost:18789/" 18789) s3).
  split.
  - exact (proj2 (proj2 (proj2 (status_health_check_decides (rt := RRT) (bi := BI) (il := IL)
                                  s s1 s2 s3 s4 (Ok [p0]) p0
                                  (Ok (mkResponse 200 "unauthorized: gateway token missing"))
                                  eq_refl eq_refl eq_refl eq_refl))
                           (mkResponse 200 "unauthorized: gateway token missing")
                           "unauthorized: gateway token missing"%string
                           eq_refl eq_refl)
                  (or_intror (ex_intro _ ""%string
                                (ex_intro _ ": gateway token missing"%string eq_refl)))
                  (Ok tt) s' eq_refl).
  - vm_compute. do 4 right. left. reflexivity.
Defined.

Lemma status_not_responding_witness :
  let s := start statusSilentScript in
  exists out err s4,
    statusRoute (rt := RRT) (bi := BI) (il := IL) s
    = (Ok (mkJson 200
             (JObj [("ok", JBool false);
                    ("status", JStr "not_responding");
                    ("processId", JStr "p0");
                    ("processes", processesJson [p0]);
                    ("stdout", JStr out);
                    ("stderr", JStr err)]),
           NoBackground), s4)
    /\ out = "booting"%string /\ err = "warn: slow disk"%string.
Proof.
  intros s.
  pose (s1 := after (Gateway.listProcesses (rt := RRT)) s).
  pose (s2 := after (Gateway.findExistingMoltbotProcess (rt := RRT)) s1).
  pose (s3 := after (Gateway.waitForPort (rt := RRT) p0 18789 5000) s2).
  pose (s4 := after (Gateway.getLogs (rt := RRT) p0) s3).
  destruct (status_not_responding (rt := RRT) (bi := BI) (il := IL)
              s s1 s2 s3 s4 (Ok [p0]) p0 (mkError "waitForPort timed out")
              (Ok (mkLogs "booting" "warn: slow disk"))
              eq_refl eq_refl eq_refl eq_refl)
    as (out & err & HS & _ & _ & HL & _).
  exists out. exists err. exists s4. split; [exact HS|].
  exact (HL _ eq_refl).
Defined.

Lemma status_not_running_witness :
  let s := start statusEmptyScript in
  let s2 := after (Gateway.findExistingMoltbotProcess (rt := RRT))
                  (after (Gateway.listProcesses (rt := RRT)) s) in
  statusRoute (rt := RRT) (bi := BI) (il := IL) s
  = (Ok (notRunningReply [] "", EnsureInBackground), s2).
Proof.
  intros s s2.
  destruct (status_not_running (rt := RRT) (bi := BI) (il := IL)
              s (after (Gateway.listProcesses (rt := RRT)) s) s2 (Ok [])
              eq_refl eq_refl) as (failedLogs & s' & HS & HE).
  destruct (HE (fun q (H : In q []) => match H with end)) as [-> ->].
  exact HS.
Defined.

End ExtraOnScenarios.
